(** * gop/core: BufferGeometry, ShaderHelper and WebGLProgram

    A shallow embedding of the three modules under [gop/core] and the
    properties of their lazy initialisation, draw dispatch, program
    linking and uniform dispatch.

    The WebGL context is an external object.  It is modelled by the set of
    its function-valued properties and by an oracle that gives the return
    value of every call; each call the code makes on it is recorded, in
    order, in a trace together with the [console] output. *)

From Stdlib Require Import List String Ascii Bool Arith ZArith QArith Lia.
From Stdlib Require Import Decimal DecimalString DecimalNat.
Import ListNotations.

Open Scope string_scope.
Open Scope list_scope.
Close Scope Q_scope.
Set Warnings "-register-all".

(** ** JavaScript values *)

(** The numbers the code computes with: a rational, [Infinity] (a non-empty
    array over [itemSize] 0) or [NaN] (0 / 0).  The one arithmetic operation
    of the code is [array.length / itemSize]; the quotient is kept exact, which
    agrees with the comparison of doubles for array lengths below 2^32 and
    item sizes below 2^16 (two distinct quotients are then more than one
    unit in the last place apart). *)
Inductive JsNum : Type :=
| Fin (q : Q)
| Infinity
| NaN.

(** [a === b] on numbers: [NaN] differs from everything, itself included. *)
Definition num_strict_eq (a b : JsNum) : bool :=
  match a, b with
  | Fin p, Fin q => Qeq_bool p q
  | Infinity, Infinity => true
  | _, _ => false
  end.

Definition of_nat (n : nat) : JsNum := Fin (Z.of_nat n # 1)%Q.

(** [len / itemSize] *)
Definition js_div (len itemSize : nat) : JsNum :=
  match itemSize with
  | O => match len with O => NaN | S _ => Infinity end
  | S _ => Fin (Qred (Z.of_nat len # Pos.of_nat itemSize)%Q)
  end.

Inductive JsValue : Type :=
| VUndefined
| VNull
| VBoolean (b : bool)
| VNumber (n : JsNum)
| VString (s : string)
| VArray (elems : list JsValue)          (* a plain Array *)
| VFloat32Array (elems : list Q)         (* Float32Array.from(elems) *)
| VUint16Array (elems : list Z)          (* Uint16Array, elements already wrapped *)
| VHandle (id : nat)                     (* an opaque object made by the context *)
| VEnum (name : string)                  (* the constant gl.NAME *)
| VObject (ctor : string) (props : list (string * JsValue)).

Definition VNat (n : nat) : JsValue := VNumber (of_nat n).

(** JavaScript truthiness. *)
Definition truthy (v : JsValue) : bool :=
  match v with
  | VUndefined | VNull => false
  | VBoolean b => b
  | VNumber (Fin q) => negb (Qeq_bool q 0%Q)
  | VNumber Infinity => true
  | VNumber NaN => false
  | VString s => negb (String.eqb s "")
  | _ => true
  end.

(** ** Errors, events and the state monad *)

Inductive JsError : Type :=
| Error (message : string)       (* throw new Error(message) *)
| TypeError (message : string).  (* raised by the runtime *)

Inductive Level : Type := LError | LWarn.

(** A call [gl.method(args)] on the context numbered [ctx], or a line on the
    console; a template literal is kept as the list of its parts. *)
Inductive Event : Type :=
| GL (ctx : nat) (method : string) (args : list JsValue)
| Console (level : Level) (parts : list JsValue).

Inductive Res (A : Type) : Type :=
| Ok (a : A)
| Throw (e : JsError).
Arguments Ok {A} a.
Arguments Throw {A} e.

(** The receiver [this], the calls made so far, and the page's elements
    ([document.getElementById(id)], an element standing for its [text]). *)
Record Store (S : Type) : Type := mkStore {
  self : S;
  trace : list Event;
  document : string -> option string
}.
Arguments mkStore {S} _ _ _.
Arguments self {S} _.
Arguments trace {S} _.
Arguments document {S} _.

Definition M (S A : Type) : Type := Store S -> Res A * Store S.

Definition ret {S A} (a : A) : M S A := fun st => (Ok a, st).

Definition bind {S A B} (c : M S A) (k : A -> M S B) : M S B :=
  fun st =>
    match c st with
    | (Ok a, st') => k a st'
    | (Throw e, st') => (Throw e, st')
    end.

Definition throw {S A} (e : JsError) : M S A := fun st => (Throw e, st).

Definition get_this {S} : M S S := fun st => (Ok (self st), st).

Definition modify {S} (f : S -> S) : M S unit :=
  fun st => (Ok tt, mkStore (f (self st)) (trace st) (document st)).

Definition emit {S} (e : Event) : M S unit :=
  fun st => (Ok tt, mkStore (self st) (trace st ++ [e]) (document st)).

Definition getElementById {S} (id : string) : M S (option string) :=
  fun st => (Ok (document st id), st).

Declare Scope js_scope.
Delimit Scope js_scope with js.
Notation "x <- c ;; k" := (bind c (fun x => k))
  (at level 61, c at next level, right associativity) : js_scope.
Notation "c ;; k" := (bind c (fun _ => k))
  (at level 61, right associativity) : js_scope.
Open Scope js_scope.

Definition console_error {S} (parts : list JsValue) : M S unit :=
  emit (Console LError parts).
Definition console_warn {S} (parts : list JsValue) : M S unit :=
  emit (Console LWarn parts).

(** ** The WebGL context *)

(** [ctx_methods]: the properties of the object that are functions.
    [ctx_answer]: what a call returns, given the calls made before it. *)
Record Context : Type := mkContext {
  ctx_id : nat;
  ctx_methods : list string;
  ctx_answer : list Event -> string -> list JsValue -> JsValue
}.

Definition has_method (c : Context) (m : string) : bool :=
  existsb (String.eqb m) (ctx_methods c).

(** [gl.m(args)]: a type error when [gl] is null or [gl.m] is not a
    function; otherwise the call is recorded and the context answers. *)
Definition invoke {S} (gl : option Context) (m : string) (args : list JsValue)
  : M S JsValue :=
  match gl with
  | None => throw (TypeError ("Cannot read properties of null (reading '" ++ m ++ "')"))
  | Some c =>
      if has_method c m then
        fun st =>
          (Ok (ctx_answer c (trace st) m args),
           mkStore (self st) (trace st ++ [GL (ctx_id c) m args]) (document st))
      else throw (TypeError ("gl." ++ m ++ " is not a function"))
  end.

(** ** gop/core/BufferGeometry.js *)

Module BufferGeometry.

(** An attribute object [{ array, itemSize, normalize }]; [init] adds
    [buffer] and [count] to it. *)
Record Attribute : Type := mkAttribute {
  array : list Q;
  itemSize : nat;
  normalize : option bool;
  buffer : JsValue;
  count : option JsNum
}.

(** The index object [{ array, itemSize }]; [init] adds [buffer] and
    [count]. *)
Record Index : Type := mkIndex {
  index_array : list Z;
  index_itemSize : option nat;
  index_buffer : JsValue;
  index_count : option nat
}.

(** The fields of the class.  [attributes] is a JavaScript object used as
    a map: its keys are unique and [for ... in] visits them in insertion
    order, so it is kept as an association list. *)
Record t : Type := mkGeometry {
  name : string;
  type : string;
  isBufferGeometry : bool;
  index : option Index;            (* None is null *)
  attributes : list (string * Attribute);
  gl : option Context;             (* None is null *)
  isInitialized : bool
}.

(** [constructor()] *)
Definition new : t :=
  mkGeometry "" "BufferGeometry" true None [] None false.

Definition set_gl (c : option Context) (g : t) : t :=
  mkGeometry (name g) (type g) (isBufferGeometry g) (index g) (attributes g)
             c (isInitialized g).
Definition set_attributes (a : list (string * Attribute)) (g : t) : t :=
  mkGeometry (name g) (type g) (isBufferGeometry g) (index g) a
             (gl g) (isInitialized g).
Definition set_index (i : option Index) (g : t) : t :=
  mkGeometry (name g) (type g) (isBufferGeometry g) i (attributes g)
             (gl g) (isInitialized g).
Definition set_isInitialized (b : bool) (g : t) : t :=
  mkGeometry (name g) (type g) (isBufferGeometry g) (index g) (attributes g)
             (gl g) b.

(** *** Utilities *)

Definition getAttribLocation (name : string) : option nat :=
  if String.eqb name "position" then Some 0
  else if String.eqb name "color" then Some 1
  else if String.eqb name "normal" then Some 1
  else if String.eqb name "uv" then Some 2
  else if String.eqb name "index" then None
  else None.

Definition opt_nat (o : option nat) : JsValue :=
  match o with Some n => VNat n | None => VUndefined end.

Definition opt_num (o : option JsNum) : JsValue :=
  match o with Some n => VNumber n | None => VUndefined end.

(** [useBuffer(gl, buffer, itemSize, location = 0, normalize = false)] *)
Definition useBuffer {S} (gl : option Context) (buffer : JsValue)
    (itemSize : nat) (location : option nat) (normalize : option bool)
  : M S unit :=
  let location := match location with Some l => l | None => 0 end in
  let normalize := match normalize with Some b => b | None => false end in
  invoke gl "bindBuffer" [VEnum "ARRAY_BUFFER"; buffer] ;;
  invoke gl "enableVertexAttribArray" [VNat location] ;;
  invoke gl "vertexAttribPointer"
    [VNat location; VNat itemSize; VEnum "FLOAT"; VBoolean normalize;
     VNat 0; VNat 0] ;;
  invoke gl "bindBuffer" [VEnum "ARRAY_BUFFER"; VNull] ;;
  ret tt.

(** [disableBuffer(gl, location)] *)
Definition disableBuffer {S} (gl : option Context) (location : option nat)
  : M S unit :=
  invoke gl "disableVertexAttribArray" [opt_nat location] ;;
  ret tt.

(** [createBuffer(gl, arrayData)] *)
Definition createBuffer {S} (gl : option Context) (arrayData : list Q)
  : M S JsValue :=
  buffer <- invoke gl "createBuffer" [] ;;
  invoke gl "bindBuffer" [VEnum "ARRAY_BUFFER"; buffer] ;;
  invoke gl "bufferData"
    [VEnum "ARRAY_BUFFER"; VFloat32Array arrayData; VEnum "STATIC_DRAW"] ;;
  ret buffer.

(** [Uint16Array.from(indices)]: each entry modulo 2^16. *)
Definition to_uint16 (indices : list Z) : list Z :=
  map (fun i => (i mod 65536)%Z) indices.

(** [createIndex(gl, indices)] *)
Definition createIndex {S} (gl : option Context) (indices : list Z)
  : M S JsValue :=
  indexBuffer <- invoke gl "createBuffer" [] ;;
  invoke gl "bindBuffer" [VEnum "ELEMENT_ARRAY_BUFFER"; indexBuffer] ;;
  invoke gl "bufferData"
    [VEnum "ELEMENT_ARRAY_BUFFER"; VUint16Array (to_uint16 indices);
     VEnum "STATIC_DRAW"] ;;
  ret indexBuffer.

(** *** Property access on [this.attributes] *)

Fixpoint lookup (key : string) (l : list (string * Attribute))
  : option Attribute :=
  match l with
  | [] => None
  | (k, a) :: rest => if String.eqb key k then Some a else lookup key rest
  end.

(** [attributes[key] = a]: an existing key keeps its place. *)
Fixpoint assign (key : string) (a : Attribute)
    (l : list (string * Attribute)) : list (string * Attribute) :=
  match l with
  | [] => [(key, a)]
  | (k, b) :: rest =>
      if String.eqb key k then (k, a) :: rest
      else (k, b) :: assign key a rest
  end.

(** [delete attributes[key]] *)
Definition remove (key : string) (l : list (string * Attribute))
  : list (string * Attribute) :=
  filter (fun e => negb (String.eqb key (fst e))) l.

(** [this.attributes] is created as [{}]: a name it does not own is looked
    up in [Object.prototype], whose properties are these. *)
Definition object_prototype : list string :=
  ["constructor"; "__defineGetter__"; "__defineSetter__"; "hasOwnProperty";
   "__lookupGetter__"; "__lookupSetter__"; "isPrototypeOf";
   "propertyIsEnumerable"; "toString"; "valueOf"; "__proto__";
   "toLocaleString"].

Definition inherited (key : string) : bool :=
  existsb (String.eqb key) object_prototype.

(** What [this.attributes[key]] evaluates to: an attribute the object owns,
    the member of [Object.prototype] of that name, or undefined. *)
Inductive Property : Type :=
| Own (a : Attribute)
| Inherited (key : string)
| Absent.

Definition get_property (key : string) (l : list (string * Attribute))
  : Property :=
  match lookup key l with
  | Some a => Own a
  | None => if inherited key then Inherited key else Absent
  end.

(** *** init *)

(** [get hasIndex()] *)
Definition hasIndex (this : t) : bool :=
  match index this with Some _ => true | None => false end.

(** [attribute.count !== attrCount] *)
Definition count_differs (c : option JsNum) (attrCount : JsNum) : bool :=
  match c with
  | Some n => negb (num_strict_eq n attrCount)
  | None => true
  end.

(** The first loop of [init] (lines 41-46), over the entries still to
    visit; [done] are the entries already given a buffer and a count. *)
Fixpoint init_upload (gl : option Context)
    (done todo : list (string * Attribute)) (attrCount : JsNum)
  : M t JsNum :=
  match todo with
  | [] => ret attrCount
  | (key, attribute) :: rest =>
      buffer <- createBuffer gl (array attribute) ;;
      let n := js_div (List.length (array attribute)) (itemSize attribute) in
      let attribute' :=
        mkAttribute (array attribute) (itemSize attribute)
                    (normalize attribute) buffer (Some n) in
      modify (set_attributes (done ++ (key, attribute') :: rest)) ;;
      init_upload gl (done ++ [(key, attribute')]) rest n
  end.

(** The second loop of [init] (lines 50-56). *)
Fixpoint init_verify (todo : list (string * Attribute)) (attrCount : JsNum)
  : M t unit :=
  match todo with
  | [] => ret tt
  | (key, attribute) :: rest =>
      if count_differs (count attribute) attrCount then
        console_error
          [VString "attribute "; VString key;
           VString " has different count "; opt_num (count attribute);
           VString " than other attributes "; VNumber attrCount] ;;
        throw (Error "All attributes must have the same count")
      else init_verify rest attrCount
  end.

Definition invalid_context_message (this : t) : string :=
  "OpenGL context in init for object " ++ type this ++ " " ++ name this
  ++ " is not valid!".

(** [init(_gl)] *)
Definition init (_gl : option Context) : M t unit :=
  this <- get_this ;;
  if negb (isInitialized this) then
    match _gl with
    | None =>
        throw (TypeError
                 "Cannot read properties of null (reading 'getParameter')")
    | Some c =>
        if negb (has_method c "getParameter") then
          console_error [VString (invalid_context_message this)] ;;
          throw (Error (invalid_context_message this))
        else
          modify (set_gl _gl) ;;
          let gl := _gl in
          attrCount <- init_upload gl [] (attributes this) (of_nat 0) ;;
          this <- get_this ;;
          init_verify (attributes this) attrCount ;;
          match index this with
          | Some ix =>
              b <- createIndex gl (index_array ix) ;;
              modify (set_index
                        (Some (mkIndex (index_array ix) (index_itemSize ix)
                                       b (index_count ix)))) ;;
              modify (set_index
                        (Some (mkIndex (index_array ix) (index_itemSize ix)
                                       b (Some (List.length (index_array ix))))))
          | None => ret tt
          end ;;
          modify (set_isInitialized true)
    end
  else ret tt.

(** *** draw *)

(** The loop of lines 85-88. *)
Fixpoint draw_bind (gl : option Context) (todo : list (string * Attribute))
  : M t unit :=
  match todo with
  | [] => ret tt
  | (key, attribute) :: rest =>
      useBuffer gl (buffer attribute) (itemSize attribute)
                (getAttribLocation key)
                (Some (match normalize attribute with
                       | Some true => true
                       | _ => false
                       end)) ;;
      draw_bind gl rest
  end.

(** The loop of lines 99-102. *)
Fixpoint draw_disable (gl : option Context)
    (todo : list (string * Attribute)) : M t unit :=
  match todo with
  | [] => ret tt
  | (key, _) :: rest =>
      disableBuffer gl (getAttribLocation key) ;;
      draw_disable gl rest
  end.

Definition not_initialized_message (this : t) : string :=
  "ERROR: " ++ type this ++ " not initialized!".

(** The draw call of lines 91-96. *)
Definition draw_dispatch (this : t) : M t unit :=
  match index this with
  | Some ix =>
      invoke (gl this) "bindBuffer"
             [VEnum "ELEMENT_ARRAY_BUFFER"; index_buffer ix] ;;
      invoke (gl this) "drawElements"
             [VEnum "TRIANGLES"; opt_nat (index_count ix);
              VEnum "UNSIGNED_SHORT"; VNat 0] ;;
      ret tt
  | None =>
      match lookup "position" (attributes this) with
      | Some position =>
          invoke (gl this) "drawArrays"
                 [VEnum "TRIANGLES"; VNat 0; opt_num (count position)] ;;
          ret tt
      | None =>
          (* this.gl.drawArrays is read before the arguments *)
          match gl this with
          | None =>
              throw (TypeError
                "Cannot read properties of null (reading 'drawArrays')")
          | Some _ =>
              throw (TypeError
                "Cannot read properties of undefined (reading 'count')")
          end
      end
  end.

(** [draw(_gl = null)] *)
Definition draw (_gl : option Context) : M t unit :=
  match _gl with
  | Some _ => init _gl
  | None => ret tt
  end ;;
  this <- get_this ;;
  if negb (isInitialized this) then
    console_error
      [VString "Geometry ("; VString (type this);
       VString ") has not been initialized before drawing!"] ;;
    throw (Error (not_initialized_message this))
  else
    draw_bind (gl this) (attributes this) ;;
    draw_dispatch this ;;
    draw_disable (gl this) (attributes this).

(** *** Accessors and mutators *)

Definition getIndex : M t (option Index) :=
  this <- get_this ;; ret (index this).

(** The argument of [setIndex]: an array or typed array, an index object,
    or null. *)
Inductive IndexArg : Type :=
| IndexArray (a : list Z)
| IndexObject (i : Index)
| IndexNull.

(** [isArrayOrTypedArray(x)] *)
Definition isArrayOrTypedArray (x : IndexArg) : bool :=
  match x with IndexArray _ => true | _ => false end.

(** [setIndex(index)] *)
Definition setIndex (index : IndexArg) : M t unit :=
  match index with
  | IndexArray a => modify (set_index (Some (mkIndex a (Some 1) VUndefined None)))
  | IndexObject i => modify (set_index (Some i))
  | IndexNull => modify (set_index None)
  end.

Definition getAttribute (name : string) : M t Property :=
  this <- get_this ;; ret (get_property name (attributes this)).

(** The object handed to [setAttribute]; a missing property is [None]. *)
Record AttributeArg : Type := mkAttributeArg {
  arg_array : option (list Q);
  arg_itemSize : option nat;
  arg_normalize : option bool
}.

(** [setAttribute(name, attribute)]; [attribute = None] is undefined. *)
Definition setAttribute (name : string) (attribute : option AttributeArg)
  : M t unit :=
  match getAttribLocation name with
  | None =>
      console_error
        [VString "Attribute name "; VString name;
         VString " used in setAttribute is not valid!"] ;;
      throw (Error ("Attribute name " ++ name
                    ++ " in setAttribute is not valid!"))
  | Some _ =>
      match attribute with
      | Some (mkAttributeArg (Some a) (Some sz) nrm) =>
          this <- get_this ;;
          modify (set_attributes
                    (assign name (mkAttribute a sz nrm VUndefined None)
                            (attributes this)))
      | _ =>
          console_error
            [VString "Attribute data for "; VString name;
             VString " must be an object of the form {array: [...], itemSize: ..}!"] ;;
          throw (Error ("Attribute data for " ++ name
             ++ " must be an object of the form {array: [...], itemSize: ..}!"))
      end
  end.

Definition deleteAttribute (name : string) : M t unit :=
  this <- get_this ;;
  modify (set_attributes (remove name (attributes this))).

Definition hasAttribute (name : string) : M t bool :=
  this <- get_this ;;
  ret (match get_property name (attributes this) with
       | Absent => false
       | _ => true
       end).

(** *** A host using a geometry *)

(** The calls a host can make on a geometry. *)
Inductive Op : Type :=
| OpInit (_gl : option Context)
| OpDraw (_gl : option Context)
| OpGetIndex
| OpSetIndex (index : IndexArg)
| OpGetAttribute (name : string)
| OpSetAttribute (name : string) (attribute : option AttributeArg)
| OpDeleteAttribute (name : string)
| OpHasAttribute (name : string).

(** The store after a call, whether it returned or raised. *)
Definition run_op (o : Op) (st : Store t) : Store t :=
  match o with
  | OpInit _gl => snd (init _gl st)
  | OpDraw _gl => snd (draw _gl st)
  | OpGetIndex => snd (getIndex st)
  | OpSetIndex index => snd (setIndex index st)
  | OpGetAttribute name => snd (getAttribute name st)
  | OpSetAttribute name attribute => snd (setAttribute name attribute st)
  | OpDeleteAttribute name => snd (deleteAttribute name st)
  | OpHasAttribute name => snd (hasAttribute name st)
  end.

Definition run_ops (ops : list Op) (st : Store t) : Store t :=
  fold_left (fun s o => run_op o s) ops st.

End BufferGeometry.

(** ** gop/core/ShaderHelper.js *)

Module ShaderHelper.

Definition COMPILE_STATUS : JsValue := VNumber (Fin (0x8b81 # 1)%Q).
Definition LINK_STATUS : JsValue := VNumber (Fin (0x8b82 # 1)%Q).

(** [loadShader(gl, shaderSource, shaderType, shaderTypeString = "")] *)
Definition loadShader {S} (gl : option Context) (shaderSource : string)
    (shaderType : JsValue) (shaderTypeString : option string)
  : M S JsValue :=
  let shaderTypeString :=
    match shaderTypeString with Some s => s | None => "" end in
  shader <- invoke gl "createShader" [shaderType] ;;
  invoke gl "shaderSource" [shader; VString shaderSource] ;;
  invoke gl "compileShader" [shader] ;;
  compiled <- invoke gl "getShaderParameter" [shader; COMPILE_STATUS] ;;
  if negb (truthy compiled) then
    lastError <- invoke gl "getShaderInfoLog" [shader] ;;
    console_error
      [VString "Error compiling "; VString shaderTypeString;
       VString " shader ("; shaderType; VString "): "; lastError] ;;
    invoke gl "deleteShader" [shader] ;;
    ret VNull
  else ret shader.

Definition defaultShaderType : list string :=
  ["VERTEX_SHADER"; "FRAGMENT_SHADER"].

(** [deleteShaders(gl, shaders)] *)
Fixpoint deleteShaders {S} (gl : option Context) (shaders : list JsValue)
  : M S unit :=
  match shaders with
  | [] => ret tt
  | shader :: rest =>
      invoke gl "deleteShader" [shader] ;;
      deleteShaders gl rest
  end.

(** The loop of [createProgram] (lines 67-76) from position [ndx] on;
    [realShaders] is the array built so far. *)
Fixpoint compile_stages {S} (gl : option Context) (ndx : nat)
    (shaders : list JsValue) (realShaders : list JsValue)
  : M S (list JsValue) :=
  match shaders with
  | [] => ret realShaders
  | shader :: rest =>
      match shader with
      | VString id =>
          elem <- getElementById id ;;
          let src := match elem with Some text => text | None => id end in
          match gl with
          | None =>
              throw (TypeError "Cannot read properties of null")
          | Some _ =>
              let type :=
                match nth_error defaultShaderType ndx with
                | Some n => VEnum n
                | None => VUndefined
                end in
              shader <- loadShader gl src type
                                   (nth_error defaultShaderType ndx) ;;
              compile_stages gl (ndx + 1)%nat rest (realShaders ++ [shader])
          end
      | _ => compile_stages gl (ndx + 1)%nat rest realShaders
      end
  end.

(** [realShaders.forEach(shader => gl.attachShader(program, shader))] *)
Fixpoint attach_all {S} (gl : option Context) (program : JsValue)
    (realShaders : list JsValue) : M S unit :=
  match realShaders with
  | [] => ret tt
  | shader :: rest =>
      invoke gl "attachShader" [program; shader] ;;
      attach_all gl program rest
  end.

(** [createProgram(gl, shaders)] *)
Definition createProgram {S} (gl : option Context) (shaders : list JsValue)
  : M S JsValue :=
  realShaders <- compile_stages gl 0 shaders [] ;;
  program <- invoke gl "createProgram" [] ;;
  attach_all gl program realShaders ;;
  invoke gl "linkProgram" [program] ;;
  linked <- invoke gl "getProgramParameter" [program; LINK_STATUS] ;;
  if negb (truthy linked) then
    lastError <- invoke gl "getProgramInfoLog" [program] ;;
    console_error [VString "Error in program linking: "; lastError] ;;
    invoke gl "deleteProgram" [program] ;;
    deleteShaders gl realShaders ;;
    ret VNull
  else ret program.

End ShaderHelper.

(** ** gop/core/WebGLProgram.js *)

Module WebGLProgram.

Definition vs : string := "#version 300 es
layout(location=0) in vec3 position;
layout(location=1) in vec3 color;
uniform mat4 modelMatrix;

out vec3 v_color;

void main() {
  gl_Position = modelMatrix * vec4( position, 1.0 );
  v_color = color;
}
".

Definition fs : string := "#version 300 es
precision highp float;

uniform float useUniformColor; // use uniform color if this is 1, otherwise use the color attribute (default)
uniform vec4 color; // color input
out vec4 fragColor; // fragment color output

in vec3 v_color;


void main() {
    vec3 _color = (useUniformColor > 0.0) ? color.rgb : v_color.rgb;
    fragColor = vec4( _color.rgb, 1.0 ); // only assign the fragment color
}
".

Record t : Type := mkProgram {
  gl : option Context;
  vertexShader : string;
  fragmentShader : string;
  program : JsValue
}.

Definition invalid_context_message : string :=
  "OpenGL context in constructor of WebGLProgram is not valid!".

(** [constructor(gl)]: the new object, when no exception is raised. *)
Definition new {S} (gl : option Context) : M S t :=
  match gl with
  | None =>
      throw (TypeError
               "Cannot read properties of null (reading 'getParameter')")
  | Some c =>
      if negb (has_method c "getParameter") then
        console_error [VString invalid_context_message] ;;
        throw (Error invalid_context_message)
      else
        program <- ShaderHelper.createProgram gl [VString vs; VString fs] ;;
        ret (mkProgram gl vs fs program)
  end.

(** [use()] *)
Definition use : M t unit :=
  this <- get_this ;;
  invoke (gl this) "useProgram" [program this] ;;
  ret tt.

(** [get glProgram()] *)
Definition glProgram : M t JsValue :=
  this <- get_this ;; ret (program this).

(** [`${n}`] for an array length. *)
Definition string_of_nat (n : nat) : string :=
  NilEmpty.string_of_uint (Nat.to_uint n).

(** The [length] property of a value returned by [getUniform]: a number
    or boolean has none, an array or typed array has its length. *)
Definition length_of (v : JsValue) : option nat :=
  match v with
  | VArray l => Some (List.length l)
  | VFloat32Array l => Some (List.length l)
  | VUint16Array l => Some (List.length l)
  | VString s => Some (String.length s)
  | _ => None
  end.

(** [v.length] *)
Definition get_length {S} (v : JsValue) : M S (option nat) :=
  match v with
  | VUndefined =>
      throw (TypeError "Cannot read properties of undefined (reading 'length')")
  | VNull =>
      throw (TypeError "Cannot read properties of null (reading 'length')")
  | _ => ret (length_of v)
  end.

(** [`${uniformLength}`] *)
Definition template_of_length (l : option nat) : string :=
  match l with
  | Some n => string_of_nat n
  | None => "undefined"
  end.

Fixpoint assoc (p : string) (props : list (string * JsValue)) : JsValue :=
  match props with
  | [] => VUndefined
  | (k, v) :: rest => if String.eqb p k then v else assoc p rest
  end.

(** [value.p] *)
Definition get_prop {S} (value : JsValue) (p : string) : M S JsValue :=
  match value with
  | VUndefined =>
      throw (TypeError
        ("Cannot read properties of undefined (reading '" ++ p ++ "')"))
  | VNull =>
      throw (TypeError
        ("Cannot read properties of null (reading '" ++ p ++ "')"))
  | VObject _ props => ret (assoc p props)
  | _ => ret VUndefined
  end.

(** [value.constructor.name], for the values that reach the last branch
    of [setUniform]. *)
Definition constructor_name (value : JsValue) : JsValue :=
  match value with
  | VObject ctor _ => VString ctor
  | VString _ => VString "String"
  | VFloat32Array _ => VString "Float32Array"
  | VUint16Array _ => VString "Uint16Array"
  | _ => VString "Object"
  end.

(** The chain of tests of lines 101-122. *)
Definition dispatch (this : t) (loc : JsValue) (uniformLength : option nat)
    (value : JsValue) : M t unit :=
  match value with
  | VNumber _ | VEnum _ =>
      invoke (gl this) "uniform1f" [loc; value] ;; ret tt
  | VBoolean b =>
      invoke (gl this) "uniform1f" [loc; VNat (if b then 1 else 0)] ;;
      ret tt
  | VArray elems =>
      let len := List.length elems in
      let uniformCall := ("uniform" ++ string_of_nat len ++ "fv")%string in
      invoke (gl this) uniformCall [loc; value] ;; ret tt
  | _ =>
      isColor <- get_prop value "isColor" ;;
      if truthy isColor then
        let uniformCall :=
          ("uniform" ++ template_of_length uniformLength ++ "f")%string in
        r <- get_prop value "r" ;;
        g <- get_prop value "g" ;;
        b <- get_prop value "b" ;;
        invoke (gl this) uniformCall [loc; r; g; b; VNat 1] ;; ret tt
      else
      isMatrix4 <- get_prop value "isMatrix4" ;;
      if truthy isMatrix4 then
        elements <- get_prop value "elements" ;;
        invoke (gl this) "uniformMatrix4fv"
               [loc; VBoolean false; elements] ;;
        ret tt
      else
      isMatrix3 <- get_prop value "isMatrix3" ;;
      if truthy isMatrix3 then
        elements <- get_prop value "elements" ;;
        invoke (gl this) "uniformMatrix3fv"
               [loc; VBoolean false; elements] ;;
        ret tt
      else
      isVector3 <- get_prop value "isVector3" ;;
      if truthy isVector3 then
        x <- get_prop value "x" ;;
        y <- get_prop value "y" ;;
        z <- get_prop value "z" ;;
        invoke (gl this) "uniform3f" [loc; x; y; z] ;; ret tt
      else
      isVector4 <- get_prop value "isVector4" ;;
      if truthy isVector4 then
        x <- get_prop value "x" ;;
        y <- get_prop value "y" ;;
        z <- get_prop value "z" ;;
        w <- get_prop value "w" ;;
        invoke (gl this) "uniform4f" [loc; x; y; z; w] ;; ret tt
      else
        console_warn
          [VString "Value of type '"; constructor_name value;
           VString "' not supported by WebGLProgram.setUniform!"]
  end.

(** [setUniform(name, value)] *)
Definition setUniform (name : string) (value : JsValue) : M t unit :=
  this <- get_this ;;
  loc <- invoke (gl this) "getUniformLocation" [program this; VString name] ;;
  match loc with
  | VNull =>
      console_warn
        [VString "Uniform '"; VString name;
         VString "' not found in WebGLProgram! It might be unused and optimized out."]
  | _ =>
      type <- invoke (gl this) "getUniform" [program this; loc] ;;
      uniformLength <- get_length type ;;
      dispatch this loc uniformLength value
  end.

End WebGLProgram.

(** ** Contexts and geometries used as examples *)

(** The operations of the WebGL2RenderingContext interface. *)
Definition webgl2_methods : list string :=
  [ "activeTexture"; "attachShader"; "beginQuery"; "beginTransformFeedback";
    "bindAttribLocation"; "bindBuffer"; "bindBufferBase"; "bindBufferRange";
    "bindFramebuffer"; "bindRenderbuffer"; "bindSampler"; "bindTexture";
    "bindTransformFeedback"; "bindVertexArray"; "blendColor"; "blendEquation";
    "blendEquationSeparate"; "blendFunc"; "blendFuncSeparate";
    "blitFramebuffer"; "bufferData"; "bufferSubData";
    "checkFramebufferStatus"; "clear"; "clearBufferfi"; "clearBufferfv";
    "clearBufferiv"; "clearBufferuiv"; "clearColor"; "clearDepth";
    "clearStencil"; "clientWaitSync"; "colorMask"; "compileShader";
    "compressedTexImage2D"; "compressedTexImage3D";
    "compressedTexSubImage2D"; "compressedTexSubImage3D";
    "copyBufferSubData"; "copyTexImage2D"; "copyTexSubImage2D";
    "copyTexSubImage3D"; "createBuffer"; "createFramebuffer";
    "createProgram"; "createQuery"; "createRenderbuffer"; "createSampler";
    "createShader"; "createTexture"; "createTransformFeedback";
    "createVertexArray"; "cullFace"; "deleteBuffer"; "deleteFramebuffer";
    "deleteProgram"; "deleteQuery"; "deleteRenderbuffer"; "deleteSampler";
    "deleteShader"; "deleteSync"; "deleteTexture";
    "deleteTransformFeedback"; "deleteVertexArray"; "depthFunc";
    "depthMask"; "depthRange"; "detachShader"; "disable";
    "disableVertexAttribArray"; "drawArrays"; "drawArraysInstanced";
    "drawBuffers"; "drawElements"; "drawElementsInstanced";
    "drawRangeElements"; "enable"; "enableVertexAttribArray"; "endQuery";
    "endTransformFeedback"; "fenceSync"; "finish"; "flush";
    "framebufferRenderbuffer"; "framebufferTexture2D";
    "framebufferTextureLayer"; "frontFace"; "generateMipmap";
    "getActiveAttrib"; "getActiveUniform"; "getActiveUniformBlockName";
    "getActiveUniformBlockParameter"; "getActiveUniforms";
    "getAttachedShaders"; "getAttribLocation"; "getBufferParameter";
    "getBufferSubData"; "getContextAttributes"; "getError"; "getExtension";
    "getFragDataLocation"; "getFramebufferAttachmentParameter";
    "getIndexedParameter"; "getInternalformatParameter"; "getParameter";
    "getProgramInfoLog"; "getProgramParameter"; "getQuery";
    "getQueryParameter"; "getRenderbufferParameter"; "getSamplerParameter";
    "getShaderInfoLog"; "getShaderParameter"; "getShaderPrecisionFormat";
    "getShaderSource"; "getSupportedExtensions"; "getSyncParameter";
    "getTexParameter"; "getTransformFeedbackVarying"; "getUniform";
    "getUniformBlockIndex"; "getUniformIndices"; "getUniformLocation";
    "getVertexAttrib"; "getVertexAttribOffset"; "hint";
    "invalidateFramebuffer"; "invalidateSubFramebuffer"; "isBuffer";
    "isContextLost"; "isEnabled"; "isFramebuffer"; "isProgram"; "isQuery";
    "isRenderbuffer"; "isSampler"; "isShader"; "isSync"; "isTexture";
    "isTransformFeedback"; "isVertexArray"; "lineWidth"; "linkProgram";
    "pauseTransformFeedback"; "pixelStorei"; "polygonOffset"; "readBuffer";
    "readPixels"; "renderbufferStorage"; "renderbufferStorageMultisample";
    "resumeTransformFeedback"; "sampleCoverage"; "samplerParameterf";
    "samplerParameteri"; "scissor"; "shaderSource"; "stencilFunc";
    "stencilFuncSeparate"; "stencilMask"; "stencilMaskSeparate";
    "stencilOp"; "stencilOpSeparate"; "texImage2D"; "texImage3D";
    "texParameterf"; "texParameteri"; "texStorage2D"; "texStorage3D";
    "texSubImage2D"; "texSubImage3D"; "transformFeedbackVaryings";
    "uniform1f"; "uniform1fv"; "uniform1i"; "uniform1iv"; "uniform1ui";
    "uniform1uiv"; "uniform2f"; "uniform2fv"; "uniform2i"; "uniform2iv";
    "uniform2ui"; "uniform2uiv"; "uniform3f"; "uniform3fv"; "uniform3i";
    "uniform3iv"; "uniform3ui"; "uniform3uiv"; "uniform4f"; "uniform4fv";
    "uniform4i"; "uniform4iv"; "uniform4ui"; "uniform4uiv";
    "uniformBlockBinding"; "uniformMatrix2fv"; "uniformMatrix2x3fv";
    "uniformMatrix2x4fv"; "uniformMatrix3fv"; "uniformMatrix3x2fv";
    "uniformMatrix3x4fv"; "uniformMatrix4fv"; "uniformMatrix4x2fv";
    "uniformMatrix4x3fv"; "useProgram"; "validateProgram";
    "vertexAttrib1f"; "vertexAttrib1fv"; "vertexAttrib2f";
    "vertexAttrib2fv"; "vertexAttrib3f"; "vertexAttrib3fv";
    "vertexAttrib4f"; "vertexAttrib4fv"; "vertexAttribDivisor";
    "vertexAttribI4i"; "vertexAttribI4iv"; "vertexAttribI4ui";
    "vertexAttribI4uiv"; "vertexAttribIPointer"; "vertexAttribPointer";
    "viewport"; "waitSync" ].

(** A context that compiles and links everything; the object it creates at
    a call is numbered by the length of the trace.  Its program has the
    uniforms of the built-in shader pair, [color] having [arity]
    components. *)
Definition example_answer (arity : nat) (tr : list Event) (m : string)
    (args : list JsValue) : JsValue :=
  if existsb (String.eqb m) ["createBuffer"; "createShader"; "createProgram"]
  then VHandle (List.length tr)
  else if existsb (String.eqb m) ["getShaderParameter"; "getProgramParameter"]
  then VBoolean true
  else if String.eqb m "getUniformLocation" then
    match args with
    | [_; VString "color"] => VHandle 1000
    | [_; VString "useUniformColor"] => VHandle 1001
    | [_; VString "modelMatrix"] => VHandle 1002
    | _ => VNull
    end
  else if String.eqb m "getUniform" then
    match args with
    | [_; VHandle 1000] => VFloat32Array (repeat 0%Q arity)
    | [_; VHandle 1001] => VNumber (Fin 0%Q)
    | [_; VHandle 1002] => VFloat32Array (repeat 0%Q 16)
    | _ => VNull
    end
  else VUndefined.

Definition webgl2 (id arity : nat) : Context :=
  mkContext id webgl2_methods (example_answer arity).

(** An object that is not a WebGL context. *)
Definition not_a_context (id : nat) : Context :=
  mkContext id [] (fun _ _ _ => VUndefined).

(** An object with [getParameter] and nothing else. *)
Definition bare_context (id : nat) : Context :=
  mkContext id ["getParameter"] (fun _ _ _ => VUndefined).

Definition no_document : string -> option string := fun _ => None.

Definition store {S} (this : S) : Store S := mkStore this [] no_document.

Definition run {S A} (c : M S A) (this : S) : Res A * Store S :=
  c (store this).

(** The triangle of webgl-01.js: 3 positions, 3 colours. *)
Definition triangle : BufferGeometry.t :=
  BufferGeometry.mkGeometry "" "BufferGeometry" true None
    [ ("position",
       BufferGeometry.mkAttribute
         [(1#2); 1; 0; 0; 0; 0; 1; (3#10); 0]%Q 3 None VUndefined None);
      ("color",
       BufferGeometry.mkAttribute
         [1; 0; 0; 1; 0; 1; 0; 1; 0; 0; 1; 1]%Q 4 None VUndefined None) ]
    None false.

(** The indexed quad of webgl-01.js: 4 positions, 6 indices. *)
Definition quad : BufferGeometry.t :=
  BufferGeometry.mkGeometry "" "BufferGeometry" true
    (Some (BufferGeometry.mkIndex [0; 1; 2; 2; 1; 3]%Z (Some 1) VUndefined None))
    [ ("position",
       BufferGeometry.mkAttribute
         [-(1#10); -(1#2); 0; -(1#10); (1#2); 0;
          -(8#10); -(1#2); 0; -(8#10); (1#2); 0]%Q 3 None VUndefined None) ]
    None false.

(** Three positions but only two colours. *)
Definition mismatched : BufferGeometry.t :=
  BufferGeometry.mkGeometry "" "BufferGeometry" true None
    [ ("position",
       BufferGeometry.mkAttribute
         [0; 0; 0; 1; 0; 0; 0; 1; 0]%Q 3 None VUndefined None);
      ("color",
       BufferGeometry.mkAttribute
         [1; 0; 0; 1; 0; 1; 0; 1]%Q 4 None VUndefined None) ]
    None false.

(** A colour attribute and nothing else. *)
Definition colour_only : BufferGeometry.t :=
  BufferGeometry.mkGeometry "" "BufferGeometry" true None
    [ ("color",
       BufferGeometry.mkAttribute
         [1; 0; 0; 1; 0; 1; 0; 1]%Q 4 None VUndefined None) ]
    None false.

(** The calls that draw. *)
Definition is_draw_call (e : Event) : bool :=
  match e with
  | GL _ m _ => String.eqb m "drawArrays" || String.eqb m "drawElements"
  | Console _ _ => false
  end.

(** The calls that allocate or fill a buffer. *)
Definition is_upload_call (e : Event) : bool :=
  match e with
  | GL _ m _ => String.eqb m "createBuffer" || String.eqb m "bufferData"
  | Console _ _ => false
  end.

Definition is_console (e : Event) : bool :=
  match e with
  | GL _ _ _ => false
  | Console _ _ => true
  end.

(** The events of [st'] that came after those of [st]. *)
Definition emitted {S} (st st' : Store S) : list Event :=
  skipn (List.length (trace st)) (trace st').

Definition supports (c : Context) (ms : list string) : bool :=
  forallb (has_method c) ms.

(** ** The vocabulary of the properties *)

(** [st'] comes after [st]: the receiver changed along [Rs] and the trace
    grew by events that satisfy [P]. *)
Definition evolves {S} (Rs : S -> S -> Prop) (P : Event -> Prop)
    (st st' : Store S) : Prop :=
  Rs (self st) (self st') /\
  document st' = document st /\
  exists evs, trace st' = trace st ++ evs /\ Forall P evs.

(** Whatever its outcome, [c] moves the store along [evolves]. *)
Definition preserves {S} (Rs : S -> S -> Prop) (P : Event -> Prop) {A}
    (c : M S A) : Prop :=
  forall st, evolves Rs P st (snd (c st)).

(** [c] returns normally, leaves the receiver alone and emits events that
    satisfy [P]. *)
Definition succeeds {S A} (P : Event -> Prop) (c : M S A) : Prop :=
  forall st, exists a evs,
    c st = (Ok a, mkStore (self st) (trace st ++ evs) (document st)) /\
    Forall P evs.

Definition no_draw (e : Event) : Prop := is_draw_call e = false.

(** The event is a call on context [c], or a console line. *)
Definition through (c : Context) (e : Event) : Prop :=
  match e with
  | GL id _ _ => id = ctx_id c
  | Console _ _ => True
  end.

Definition bound_to (c : Context) (e : Event) : Prop :=
  through c e /\ is_upload_call e = false.

Definition is_attach (e : Event) : bool :=
  match e with
  | GL _ m _ => String.eqb m "attachShader"
  | Console _ _ => false
  end.

(** The methods [init] calls on the context. *)
Definition upload_methods : list string :=
  ["createBuffer"; "bindBuffer"; "bufferData"].

(** The methods [draw] calls on the context. *)
Definition draw_methods : list string :=
  ["bindBuffer"; "enableVertexAttribArray"; "vertexAttribPointer";
   "disableVertexAttribArray"; "drawElements"; "drawArrays"].

(** The error of line 54. *)
Definition inconsistent : JsError :=
  Error "All attributes must have the same count".

(** Only the attribute table and the index changed. *)
Definition same_binding (g g' : BufferGeometry.t) : Prop :=
  BufferGeometry.gl g' = BufferGeometry.gl g /\
  BufferGeometry.isInitialized g' = BufferGeometry.isInitialized g /\
  BufferGeometry.type g' = BufferGeometry.type g /\
  BufferGeometry.name g' = BufferGeometry.name g.

(** [array.length / itemSize], the count [init] records. *)
Definition element_count (a : BufferGeometry.Attribute) : JsNum :=
  js_div (List.length (BufferGeometry.array a)) (BufferGeometry.itemSize a).

(** The array is shorter than 2^32 and the item size is below 2^16: the
    range in which the exact quotient [array.length / itemSize] and the
    double the code computes compare alike. *)
Definition in_range (a : BufferGeometry.Attribute) : bool :=
  (Z.of_nat (List.length (BufferGeometry.array a)) <? 2 ^ 32)%Z
  && (Z.of_nat (BufferGeometry.itemSize a) <? 2 ^ 16)%Z.

(** The calls that give every entry of a table its buffer, after the calls
    [tr]: for each entry in turn [createBuffer()], then
    [bindBuffer(ARRAY_BUFFER, b)] with the buffer [b] the context answered,
    then [bufferData(ARRAY_BUFFER, array, STATIC_DRAW)]. *)
Fixpoint upload_calls (c : Context) (tr : list Event)
    (l : list (string * BufferGeometry.Attribute)) : list Event :=
  match l with
  | [] => []
  | (_, a) :: rest =>
      let b := ctx_answer c tr "createBuffer" [] in
      let evs :=
        [GL (ctx_id c) "createBuffer" [];
         GL (ctx_id c) "bindBuffer" [VEnum "ARRAY_BUFFER"; b];
         GL (ctx_id c) "bufferData"
            [VEnum "ARRAY_BUFFER"; VFloat32Array (BufferGeometry.array a);
             VEnum "STATIC_DRAW"]] in
      evs ++ upload_calls c (tr ++ evs) rest
  end.

(** A call on a context, as opposed to a line on the console. *)
Definition is_call (e : Event) : bool := negb (is_console e).

(** An entry of the table before and after the first loop of [init]. *)
Definition uploaded (e e' : string * BufferGeometry.Attribute) : Prop :=
  fst e' = fst e /\
  BufferGeometry.array (snd e') = BufferGeometry.array (snd e) /\
  BufferGeometry.itemSize (snd e') = BufferGeometry.itemSize (snd e) /\
  BufferGeometry.normalize (snd e') = BufferGeometry.normalize (snd e) /\
  BufferGeometry.count (snd e') = Some (element_count (snd e)).

(** The answer and the event of [getUniformLocation(program, name)]. *)
Definition location_of (c : Context) (st : Store WebGLProgram.t)
    (name : string) : JsValue :=
  ctx_answer c (trace st) "getUniformLocation"
             [WebGLProgram.program (self st); VString name].

Definition lookup_event (c : Context) (st : Store WebGLProgram.t)
    (name : string) : Event :=
  GL (ctx_id c) "getUniformLocation"
     [WebGLProgram.program (self st); VString name].

(** The answer and the event of [getUniform(program, loc)]. *)
Definition current_value (c : Context) (st : Store WebGLProgram.t)
    (name : string) : JsValue :=
  ctx_answer c (trace st ++ [lookup_event c st name]) "getUniform"
             [WebGLProgram.program (self st); location_of c st name].

Definition query_event (c : Context) (st : Store WebGLProgram.t)
    (name : string) : Event :=
  GL (ctx_id c) "getUniform"
     [WebGLProgram.program (self st); location_of c st name].

(** The store once the two queries are made. *)
Definition queried (c : Context) (st : Store WebGLProgram.t)
    (name : string) : Store WebGLProgram.t :=
  mkStore (self st)
    (trace st ++ [lookup_event c st name; query_event c st name])
    (document st).

Definition nullish (v : JsValue) : bool :=
  match v with
  | VUndefined | VNull => true
  | _ => false
  end.

(** The names [uniform<n>fv]. *)

Fixpoint strip_prefix (p s : string) : option string :=
  match p, s with
  | EmptyString, _ => Some s
  | String a p', String b s' =>
      if Ascii.eqb a b then strip_prefix p' s' else None
  | String _ _, EmptyString => None
  end.

(** [s] without a final "fv". *)
Fixpoint drop_fv (s : string) : option string :=
  match s with
  | EmptyString => None
  | String a s' =>
      if String.eqb s "fv" then Some EmptyString
      else option_map (String a) (drop_fv s')
  end.

(** [Some n] when [m] is "uniform", the decimal numeral of [n], "fv". *)
Definition vector_setter_index (m : string) : option nat :=
  match strip_prefix "uniform" m with
  | Some rest =>
      match drop_fv rest with
      | Some digits => option_map Nat.of_uint (NilEmpty.uint_of_string digits)
      | None => None
      end
  | None => None
  end.

(** The object built by [new WebGLProgram(gl)] on the example context. *)
Definition example_program (arity : nat) : WebGLProgram.t :=
  WebGLProgram.mkProgram (Some (webgl2 0 arity))
    WebGLProgram.vs WebGLProgram.fs (VHandle 8).

(** [new Color(1, 0, 0)] *)
Definition red : JsValue :=
  VObject "Color"
    [("isColor", VBoolean true); ("r", VNat 1); ("g", VNat 0); ("b", VNat 0)].

(** The argument lists of the calls of method [m], in the order made. *)
Definition calls_of (m : string) (e : Event) : list (list JsValue) :=
  match e with
  | GL _ m' args => if String.eqb m' m then [args] else []
  | Console _ _ => []
  end.

Definition calls (m : string) (evs : list Event) : list (list JsValue) :=
  flat_map (calls_of m) evs.

(** [c] returns normally a value satisfying [Q], leaves the receiver alone,
    and what [obs] sees of its events is [l]. *)
Definition runs {S A X} (obs : Event -> list X) (l : list X) (Q : A -> Prop)
    (c : M S A) : Prop :=
  forall st, exists a evs,
    c st = (Ok a, mkStore (self st) (trace st ++ evs) (document st)) /\
    Q a /\ flat_map obs evs = l.

(** The names [getAttribLocation] knows. *)
Definition known_attribute (name : string) : bool :=
  existsb (String.eqb name) ["position"; "color"; "normal"; "uv"].

(** The argument of [setAttribute] passes the test of line 151. *)
Definition well_formed (attribute : option BufferGeometry.AttributeArg) : bool :=
  match attribute with
  | Some (BufferGeometry.mkAttributeArg (Some _) (Some _) _) => true
  | _ => false
  end.

(** Every two entries have the same count [array.length / itemSize]. *)
Definition counts_agree (l : list (string * BufferGeometry.Attribute)) : bool :=
  forallb (fun e =>
    forallb (fun e' =>
      num_strict_eq (element_count (snd e)) (element_count (snd e'))) l) l.

(** The arguments of the [bufferData] calls of [init]. *)
Definition attribute_upload (e : string * BufferGeometry.Attribute)
  : list JsValue :=
  [VEnum "ARRAY_BUFFER"; VFloat32Array (BufferGeometry.array (snd e));
   VEnum "STATIC_DRAW"].

Definition index_upload (i : option BufferGeometry.Index)
  : list (list JsValue) :=
  match i with
  | Some ix =>
      [[VEnum "ELEMENT_ARRAY_BUFFER";
        VUint16Array (BufferGeometry.to_uint16 (BufferGeometry.index_array ix));
        VEnum "STATIC_DRAW"]]
  | None => []
  end.

(** What [draw] does with the vertex-attribute slots, and its draw call. *)
Inductive SlotEvent : Type :=
| Enabled (args : list JsValue)
| Drawn (method : string)
| Disabled (args : list JsValue).

Definition slot_event (e : Event) : list SlotEvent :=
  match e with
  | GL _ m args =>
      if String.eqb m "enableVertexAttribArray" then [Enabled args]
      else if String.eqb m "disableVertexAttribArray" then [Disabled args]
      else if String.eqb m "drawArrays" || String.eqb m "drawElements"
      then [Drawn m]
      else []
  | Console _ _ => []
  end.

(** The number of source strings among the stages. *)
Fixpoint count_sources (shaders : list JsValue) : nat :=
  match shaders with
  | [] => 0
  | VString _ :: rest => S (count_sources rest)
  | _ :: rest => count_sources rest
  end.

(** The stage kind [gl[defaultShaderType[ndx]]] of each source string,
    [ndx] being its position among all the stages. *)
Fixpoint stage_kinds (ndx : nat) (shaders : list JsValue)
  : list (list JsValue) :=
  match shaders with
  | [] => []
  | VString _ :: rest =>
      [match nth_error ShaderHelper.defaultShaderType ndx with
       | Some n => VEnum n
       | None => VUndefined
       end] :: stage_kinds (ndx + 1) rest
  | _ :: rest => stage_kinds (ndx + 1) rest
  end.

(** The methods [loadShader] and [createProgram] call on the context. *)
Definition shader_methods : list string :=
  ["createShader"; "shaderSource"; "compileShader"; "getShaderParameter";
   "getShaderInfoLog"; "deleteShader"].

Definition program_methods : list string :=
  shader_methods ++
  ["createProgram"; "attachShader"; "linkProgram"; "getProgramParameter";
   "getProgramInfoLog"; "deleteProgram"].

(** The context reports every compilation, or every link, as [b]. *)
Definition compile_status_is (b : bool) (c : Context) : Prop :=
  forall tr args, truthy (ctx_answer c tr "getShaderParameter" args) = b.

Definition link_status_is (b : bool) (c : Context) : Prop :=
  forall tr args, truthy (ctx_answer c tr "getProgramParameter" args) = b.

(** A context like [webgl2] whose compiler and linker report the given
    statuses. *)
Definition example_answer_with (compiled linked : bool) (tr : list Event)
    (m : string) (args : list JsValue) : JsValue :=
  if String.eqb m "getShaderParameter" then VBoolean compiled
  else if String.eqb m "getProgramParameter" then VBoolean linked
  else example_answer 4 tr m args.

Definition webgl2_with (compiled linked : bool) : Context :=
  mkContext 0 webgl2_methods (example_answer_with compiled linked).

(** Every two entries carry a recorded count, and the two are equal. *)
Definition recorded_counts_agree (l : list (string * BufferGeometry.Attribute))
  : bool :=
  forallb (fun e =>
    forallb (fun e' =>
      match BufferGeometry.count (snd e), BufferGeometry.count (snd e') with
      | Some n, Some n' => num_strict_eq n n'
      | _, _ => false
      end) l) l.

(** The slot [useBuffer] binds an attribute name to. *)
Definition slot_of (name : string) : nat :=
  match BufferGeometry.getAttribLocation name with
  | Some n => n
  | None => 0
  end.

(** The geometry has an index or a position attribute. *)
Definition drawable (g : BufferGeometry.t) : bool :=
  BufferGeometry.hasIndex g ||
  match BufferGeometry.lookup "position" (BufferGeometry.attributes g) with
  | Some _ => true
  | None => false
  end.

(** The state an index is left in by [init]. *)
Definition index_initialized (before after : option BufferGeometry.Index)
  : Prop :=
  match before, after with
  | Some ix, Some ix' =>
      BufferGeometry.index_array ix' = BufferGeometry.index_array ix /\
      BufferGeometry.index_itemSize ix' = BufferGeometry.index_itemSize ix /\
      BufferGeometry.index_count ix'
        = Some (List.length (BufferGeometry.index_array ix))
  | None, None => True
  | _, _ => False
  end.

(** The releases among the events: the calls of deleteProgram and of
    deleteShader, each with its arguments. *)
Definition release (e : Event) : list (string * list JsValue) :=
  match e with
  | GL _ m args =>
      if String.eqb m "deleteProgram" || String.eqb m "deleteShader"
      then [(m, args)] else []
  | Console _ _ => []
  end.

(** The calls that build a program: createProgram, attachShader and
    linkProgram, each with its arguments. *)
Definition link_step (e : Event) : list (string * list JsValue) :=
  match e with
  | GL _ m args =>
      if String.eqb m "createProgram" || String.eqb m "attachShader"
         || String.eqb m "linkProgram"
      then [(m, args)] else []
  | Console _ _ => []
  end.

(** What the context [c] answered to the calls of its method [m] among
    [evs], in order; [tr] are the events before [evs]. *)
Fixpoint answers (c : Context) (m : string) (tr evs : list Event)
  : list JsValue :=
  match evs with
  | [] => []
  | e :: rest =>
      match e with
      | GL id m' args =>
          if Nat.eqb id (ctx_id c) && String.eqb m' m
          then [ctx_answer c tr m args] else []
      | Console _ _ => []
      end ++ answers c m (tr ++ [e]) rest
  end.

(** The source each string among the stages is compiled from: the text of
    the element of the page that has the string as its id, when there is
    one, else the string itself. *)
Definition stage_sources (doc : string -> option string)
    (shaders : list JsValue) : list string :=
  flat_map (fun shader =>
              match shader with
              | VString id =>
                  [match doc id with Some text => text | None => id end]
              | _ => []
              end) shaders.

(** An event of the compilation of a stage that succeeds. *)
Definition compile_event (e : Event) : bool :=
  match e with
  | GL _ m _ =>
      existsb (String.eqb m)
        ["createShader"; "shaderSource"; "compileShader"; "getShaderParameter"]
  | Console _ _ => false
  end.

(** The methods of [createProgram] after the stages are compiled, the
    attachments and the releases apart. *)
Definition link_methods : list string :=
  ["createProgram"; "linkProgram"; "getProgramParameter"; "getProgramInfoLog"].

(** The store after the two queries and one more call. *)
Definition after_call (c : Context) (st : Store WebGLProgram.t)
    (name m : string) (args : list JsValue) : Store WebGLProgram.t :=
  mkStore (self st)
    (trace st ++
     [lookup_event c st name; query_event c st name; GL (ctx_id c) m args])
    (document st).

(** [new Matrix4()], the identity. *)
Definition identity4 : JsValue :=
  VObject "Matrix4"
    [("isMatrix4", VBoolean true);
     ("elements",
      VArray (map VNat [1; 0; 0; 0; 0; 1; 0; 0; 0; 0; 1; 0; 0; 0; 0; 1]))].

(** * Properties *)

(** ** How a computation changes the store *)

Section Frame.

Context {S : Type}.
Variable Rs : S -> S -> Prop.
Variable P : Event -> Prop.
Hypothesis Rs_refl : forall s, Rs s s.
Hypothesis Rs_trans : forall a b c, Rs a b -> Rs b c -> Rs a c.

Lemma evolves_refl : forall st, evolves Rs P st st.
Proof.
  intros st. split; [apply Rs_refl|]. split; [reflexivity|].
  exists []. rewrite app_nil_r. auto.
Qed.

Lemma evolves_trans :
  forall a b c, evolves Rs P a b -> evolves Rs P b c -> evolves Rs P a c.
Proof.
  intros a b c (R1 & D1 & e1 & T1 & F1) (R2 & D2 & e2 & T2 & F2).
  split; [eauto|]. split; [congruence|].
  exists (e1 ++ e2). split.
  - rewrite T2, T1, app_assoc. reflexivity.
  - apply Forall_app. auto.
Qed.

Lemma preserves_ret : forall A (a : A), preserves Rs P (ret a).
Proof. intros A a st. apply evolves_refl. Qed.

Lemma preserves_throw : forall A e, preserves Rs P (@throw S A e).
Proof. intros A e st. apply evolves_refl. Qed.

Lemma preserves_get_this : preserves Rs P (@get_this S).
Proof. intros st. apply evolves_refl. Qed.

Lemma preserves_getElementById : forall id, preserves Rs P (@getElementById S id).
Proof. intros id st. apply evolves_refl. Qed.

Lemma preserves_bind :
  forall A B (c : M S A) (k : A -> M S B),
    preserves Rs P c -> (forall a, preserves Rs P (k a)) ->
    preserves Rs P (bind c k).
Proof.
  intros A B c k Hc Hk st. unfold bind.
  specialize (Hc st). destruct (c st) as [[a|e] st1]; simpl in *.
  - eapply evolves_trans; [exact Hc | apply Hk].
  - exact Hc.
Qed.

Lemma preserves_modify :
  forall f, (forall s, Rs s (f s)) -> preserves Rs P (modify f).
Proof.
  intros f Hf st. split; [apply Hf|]. split; [reflexivity|].
  exists []. simpl. rewrite app_nil_r. auto.
Qed.

Lemma preserves_emit : forall e, P e -> preserves Rs P (@emit S e).
Proof.
  intros e He st. split; [apply Rs_refl|]. split; [reflexivity|].
  exists [e]. simpl. auto.
Qed.

Lemma preserves_invoke :
  forall gl m args,
    (forall c, gl = Some c -> P (GL (ctx_id c) m args)) ->
    preserves Rs P (@invoke S gl m args).
Proof.
  intros gl m args H st. unfold invoke.
  destruct gl as [c|]; [|apply evolves_refl].
  destruct (has_method c m); [|apply evolves_refl].
  split; [apply Rs_refl|]. split; [reflexivity|].
  exists [GL (ctx_id c) m args]. simpl. auto.
Qed.

End Frame.

Lemma store_eta : forall S (st : Store S),
    mkStore (self st) (trace st) (document st) = st.
Proof. intros S [s t d]. reflexivity. Qed.

Lemma succeeds_ret : forall S A P (a : A), @succeeds S A P (ret a).
Proof.
  intros S A P a st. exists a, []. rewrite app_nil_r, store_eta. auto.
Qed.

Lemma succeeds_bind :
  forall S A B P (c : M S A) (k : A -> M S B),
    succeeds P c -> (forall a, succeeds P (k a)) -> succeeds P (bind c k).
Proof.
  intros S A B P c k Hc Hk st. unfold bind.
  destruct (Hc st) as (a & e1 & E1 & F1). rewrite E1.
  destruct (Hk a (mkStore (self st) (trace st ++ e1) (document st)))
    as (b & e2 & E2 & F2).
  exists b, (e1 ++ e2). rewrite E2. simpl. rewrite app_assoc.
  split; [reflexivity | apply Forall_app; auto].
Qed.

Lemma succeeds_invoke :
  forall S P c m args,
    has_method c m = true -> P (GL (ctx_id c) m args) ->
    @succeeds S _ P (invoke (Some c) m args).
Proof.
  intros S P c m args Hm HP st. unfold invoke. rewrite Hm.
  eexists _, [_]. split; [reflexivity | auto].
Qed.

Lemma emitted_app : forall S (st st' : Store S) evs,
    trace st' = trace st ++ evs -> emitted st st' = evs.
Proof.
  intros S st st' evs H. unfold emitted. rewrite H.
  rewrite skipn_app, skipn_all, Nat.sub_diag. reflexivity.
Qed.

Lemma filter_none : forall A (f : A -> bool) l,
    Forall (fun x => f x = false) l -> filter f l = [].
Proof.
  intros A f l H. induction H as [|x l Hx _ IH]; simpl.
  - reflexivity.
  - rewrite Hx. exact IH.
Qed.

Lemma preserves_weaken :
  forall S A (Rs Rs' : S -> S -> Prop) (P P' : Event -> Prop) (c : M S A),
    (forall a b, Rs a b -> Rs' a b) -> (forall e, P e -> P' e) ->
    preserves Rs P c -> preserves Rs' P' c.
Proof.
  intros S A Rs Rs' P P' c HR HP H st.
  destruct (H st) as (R & D & evs & T & F).
  split; [auto|]. split; [auto|]. exists evs. split; [auto|].
  eapply Forall_impl; eauto.
Qed.

Lemma bind_inv :
  forall S A B (c : M S A) (k : A -> M S B) st r st',
    bind c k st = (r, st') ->
    (exists e, c st = (Throw e, st') /\ r = Throw e) \/
    (exists a st1, c st = (Ok a, st1) /\ k a st1 = (r, st')).
Proof.
  intros S A B c k st r st' H. unfold bind in H.
  destruct (c st) as [[a|e] st1].
  - right. eauto.
  - left. inversion H; subst. eauto.
Qed.

Lemma preserves_run :
  forall S A Rs P (c : M S A) st r st',
    preserves Rs P c -> c st = (r, st') -> evolves Rs P st st'.
Proof. intros S A Rs P c st r st' H E. specialize (H st). rewrite E in H. exact H. Qed.

(** ** BufferGeometry *)

Section GeometryFacts.

Import BufferGeometry.

Lemma same_binding_refl : forall g, same_binding g g.
Proof. intros g. repeat split. Qed.

Lemma same_binding_trans :
  forall a b c, same_binding a b -> same_binding b c -> same_binding a c.
Proof.
  intros a b c (H1 & H2 & H3 & H4) (K1 & K2 & K3 & K4).
  repeat split; congruence.
Qed.

Section Pieces.

Variable P : Event -> Prop.
Hypothesis P_upload :
  forall id m args, In m upload_methods -> P (GL id m args).
Hypothesis P_console : forall l parts, P (Console l parts).

Ltac frame :=
  repeat first
    [ apply preserves_bind; [exact same_binding_trans | | intro]
    | apply preserves_ret; exact same_binding_refl
    | apply preserves_throw; exact same_binding_refl
    | apply preserves_get_this; exact same_binding_refl
    | apply preserves_emit; [exact same_binding_refl | apply P_console]
    | apply preserves_modify; intro; repeat split
    | apply preserves_invoke;
      [exact same_binding_refl | intros; apply P_upload; simpl; tauto] ].

Lemma createBuffer_preserves :
  forall gl data, @preserves t same_binding P _ (createBuffer gl data).
Proof. intros gl data. unfold createBuffer. frame. Qed.

Lemma createIndex_preserves :
  forall gl indices, @preserves t same_binding P _ (createIndex gl indices).
Proof. intros gl data. unfold createIndex. frame. Qed.

Lemma init_upload_preserves :
  forall gl todo done cnt,
    @preserves t same_binding P _ (init_upload gl done todo cnt).
Proof.
  intros gl todo.
  induction todo as [|[key a] rest IH]; intros done cnt; simpl.
  - frame.
  - apply preserves_bind;
      [exact same_binding_trans | apply createBuffer_preserves | intro b].
    apply preserves_bind; [exact same_binding_trans | | intro].
    + frame.
    + apply IH.
Qed.

Lemma init_verify_preserves :
  forall todo cnt, @preserves t same_binding P _ (init_verify todo cnt).
Proof.
  intros todo cnt.
  induction todo as [|[key a] rest IH]; simpl.
  - frame.
  - destruct (count_differs (count a) cnt); [frame | exact IH].
Qed.

End Pieces.

Lemma supports_in :
  forall c ms m, supports c ms = true -> In m ms -> has_method c m = true.
Proof.
  intros c ms m H. unfold supports in H. rewrite forallb_forall in H.
  apply H.
Qed.

Lemma createBuffer_ok :
  forall c data (st : Store t),
    supports c upload_methods = true ->
    createBuffer (Some c) data st =
    (Ok (ctx_answer c (trace st) "createBuffer" []),
     mkStore (self st)
       (trace st ++
        [GL (ctx_id c) "createBuffer" [];
         GL (ctx_id c) "bindBuffer"
            [VEnum "ARRAY_BUFFER"; ctx_answer c (trace st) "createBuffer" []];
         GL (ctx_id c) "bufferData"
            [VEnum "ARRAY_BUFFER"; VFloat32Array data; VEnum "STATIC_DRAW"]])
       (document st)).
Proof.
  intros c data st H.
  assert (H1 := supports_in _ _ "createBuffer" H).
  assert (H2 := supports_in _ _ "bindBuffer" H).
  assert (H3 := supports_in _ _ "bufferData" H).
  unfold createBuffer, bind, invoke.
  rewrite H1, H2, H3 by (simpl; tauto). simpl.
  rewrite <- !app_assoc. reflexivity.
Qed.

Lemma last_cons : forall A (x d : A) l, last (x :: l) d = last l x.
Proof.
  intros A x d l. revert x d.
  induction l as [|y l IH]; intros x d; [reflexivity|].
  change (last (x :: y :: l) d) with (last (y :: l) d).
  rewrite (IH y d), (IH y x). reflexivity.
Qed.

Lemma init_upload_ok :
  forall c, supports c upload_methods = true ->
  forall todo done cnt (st : Store t),
    attributes (self st) = done ++ todo ->
    exists todo' st',
      init_upload (Some c) done todo cnt st =
        (Ok (last (map (fun e => element_count (snd e)) todo) cnt), st') /\
      Forall2 uploaded todo todo' /\
      self st' = set_attributes (done ++ todo') (self st).
Proof.
  intros c Hc todo.
  induction todo as [|[key a] rest IH]; intros done cnt st Hattr.
  - exists [], st. simpl. split; [reflexivity|]. split; [constructor|].
    rewrite <- Hattr. destruct (self st). reflexivity.
  - simpl init_upload. unfold bind at 1. rewrite createBuffer_ok by exact Hc.
    unfold bind at 1. unfold modify. cbv beta iota.
    match goal with
    | |- context [init_upload _ ?d rest ?n ?s] =>
        destruct (IH d n s) as (todo' & st' & E & F & Hs)
    end.
    { simpl. rewrite <- app_assoc. reflexivity. }
    exists ((key,
             mkAttribute (array a) (itemSize a) (normalize a)
               (ctx_answer c (trace st) "createBuffer" [])
               (Some (element_count a))) :: todo'), st'.
    split; [|split].
    + rewrite E.
      change (map (fun e => element_count (snd e)) ((key, a) :: rest))
        with (element_count a :: map (fun e => element_count (snd e)) rest).
      rewrite last_cons. reflexivity.
    + constructor; [|exact F]. repeat split; reflexivity.
    + rewrite Hs. simpl. rewrite <- app_assoc. reflexivity.
Qed.

Lemma num_strict_eq_sym :
  forall a b, num_strict_eq a b = num_strict_eq b a.
Proof.
  intros [p| |] [q| |]; simpl; try reflexivity.
  destruct (Qeq_bool p q) eqn:E, (Qeq_bool q p) eqn:E'; try reflexivity.
  - apply Qeq_bool_iff in E. symmetry in E. apply Qeq_bool_iff in E. congruence.
  - apply Qeq_bool_iff in E'. symmetry in E'. apply Qeq_bool_iff in E'. congruence.
Qed.

Lemma num_strict_eq_trans :
  forall a b c,
    num_strict_eq a c = true -> num_strict_eq b c = true ->
    num_strict_eq a b = true.
Proof.
  intros [p| |] [q| |] [r| |]; simpl; try discriminate; try reflexivity.
  intros H1 H2. apply Qeq_bool_iff in H1, H2. apply Qeq_bool_iff.
  rewrite H1, H2. reflexivity.
Qed.

Lemma init_verify_throw :
  forall todo cnt (st : Store t),
    Exists (fun e => count_differs (count (snd e)) cnt = true) todo ->
    exists st',
      init_verify todo cnt st = (Throw inconsistent, st') /\
      self st' = self st.
Proof.
  intros todo cnt st H.
  induction todo as [|[key a] rest IH]; [inversion H|].
  simpl. destruct (count_differs (count a) cnt) eqn:E.
  - eexists. unfold bind, console_error, emit, throw. simpl.
    split; reflexivity.
  - apply IH. inversion H; subst; [simpl in *; congruence | assumption].
Qed.

Lemma uploaded_in :
  forall todo todo' k a,
    Forall2 uploaded todo todo' -> In (k, a) todo ->
    exists a', In (k, a') todo' /\ count a' = Some (element_count a).
Proof.
  intros todo todo' k a F. induction F as [|e e' l l' U F IH]; intros Hin.
  - inversion Hin.
  - destruct Hin as [->|Hin].
    + destruct e' as [k' a']. destruct U as (U1 & _ & _ & _ & U5).
      simpl in *. subst. exists a'. auto.
    + destruct (IH Hin) as (a' & I & C). exists a'. split; [right|]; auto.
Qed.

Lemma init_initialized_noop :
  forall _gl (st : Store t),
    isInitialized (self st) = true -> init _gl st = (Ok tt, st).
Proof.
  intros _gl st H. unfold init, bind, get_this. rewrite H. reflexivity.
Qed.

Lemma init_mismatch :
  forall c (st : Store t) k1 a1 k2 a2,
    isInitialized (self st) = false ->
    supports c ("getParameter" :: upload_methods) = true ->
    In (k1, a1) (attributes (self st)) ->
    In (k2, a2) (attributes (self st)) ->
    num_strict_eq (element_count a1) (element_count a2) = false ->
    exists st', init (Some c) st = (Throw inconsistent, st').
Proof.
  intros c st k1 a1 k2 a2 Hflag Hsup In1 In2 Hne.
  assert (Hgp : has_method c "getParameter" = true)
    by (apply (supports_in _ _ _ Hsup); simpl; tauto).
  assert (Hup : supports c upload_methods = true)
    by (simpl in Hsup; apply andb_true_iff in Hsup; apply Hsup).
  unfold init. unfold bind at 1, get_this. cbv beta iota.
  simpl self. rewrite Hflag, Hgp. cbv beta iota. simpl (negb _). cbv iota.
  unfold bind at 1. unfold modify at 1. cbv beta iota.
  destruct (init_upload_ok c Hup (attributes (self st)) [] (of_nat 0)
              (mkStore (set_gl (Some c) (self st)) (trace st) (document st)))
    as (todo' & st1 & E & F & Hs); [reflexivity|].
  unfold bind at 1. rewrite E. cbv beta iota.
  unfold bind at 1. cbv beta iota.
  assert (Hattr : attributes (self st1) = todo') by (rewrite Hs; reflexivity).
  rewrite Hattr.
  destruct (uploaded_in _ _ _ _ F In1) as (b1 & I1 & C1).
  destruct (uploaded_in _ _ _ _ F In2) as (b2 & I2 & C2).
  set (cnt := last _ _).
  assert (Hex : Exists (fun e => count_differs (count (snd e)) cnt = true) todo').
  { apply Exists_exists.
    destruct (num_strict_eq (element_count a1) cnt) eqn:E1.
    - exists (k2, b2). split; [exact I2|]. simpl. rewrite C2. simpl.
      destruct (num_strict_eq (element_count a2) cnt) eqn:E2; [|reflexivity].
      rewrite (num_strict_eq_trans _ _ _ E1 E2) in Hne. discriminate.
    - exists (k1, b1). split; [exact I1|]. simpl. rewrite C1. simpl.
      rewrite E1. reflexivity. }
  destruct (init_verify_throw todo' cnt st1 Hex) as (st2 & E2 & _).
  unfold bind at 1. rewrite E2. eauto.
Qed.

Ltac inv_bind H :=
  let e := fresh "e" in
  let a := fresh "a" in
  let s := fresh "st" in
  let E := fresh "E" in
  apply bind_inv in H;
  destruct H as [(e & H & E) | (a & s & E & H)].

(** The part of [init] that runs once the context is accepted, up to but
    not including the final assignment of the flag. *)
Lemma init_outcome :
  forall _gl (st : Store t) r st',
    init _gl st = (r, st') ->
    match r with
    | Ok _ =>
        isInitialized (self st') = true /\
        (isInitialized (self st) = false -> gl (self st') = _gl)
    | Throw e =>
        isInitialized (self st) = false /\
        isInitialized (self st') = false /\
        (e = inconsistent -> gl (self st') = _gl)
    end.
Proof.
  intros _gl st r st' H.
  pose (PT := fun (id : nat) (m : string) (args : list JsValue)
                  (_ : In m upload_methods) => I).
  pose (PC := fun (l : Level) (parts : list JsValue) => I).
  unfold init in H. unfold bind at 1, get_this in H. cbv beta iota in H.
  simpl self in H.
  destruct (isInitialized (self st)) eqn:Hflag; simpl (negb _) in H; cbv iota in H.
  { inversion H; subst. split; [exact Hflag | discriminate]. }
  destruct _gl as [c|]; [|inversion H; subst; repeat split; auto; discriminate].
  destruct (has_method c "getParameter"); simpl (negb _) in H; cbv iota in H.
  2:{ unfold bind, console_error, emit, throw in H. inversion H; subst.
      repeat split; auto. unfold inconsistent. simpl. discriminate. }
  unfold bind at 1 in H. unfold modify at 1 in H. cbv beta iota in H.
  set (st0 := mkStore (set_gl (Some c) (self st)) (trace st) (document st)) in H.
  assert (B0 : gl (self st0) = Some c /\ isInitialized (self st0) = false)
    by (split; [reflexivity | exact Hflag]).
  clearbody st0. destruct B0 as [G0 I0].
  inv_bind H.
  { subst r.
    destruct (preserves_run _ _ _ _ _ _ _ _
                (init_upload_preserves (fun _ => True) PT _ _ _ _) H)
      as ((G & I & _) & _).
    repeat split; auto; congruence. }
  destruct (preserves_run _ _ _ _ _ _ _ _
              (init_upload_preserves (fun _ => True) PT _ _ _ _) E)
    as ((G1 & I1 & _) & _).
  unfold bind at 1, get_this in H. cbv beta iota in H.
  inv_bind H.
  { subst r.
    destruct (preserves_run _ _ _ _ _ _ _ _
                (init_verify_preserves (fun _ => True) PC _ _) H)
      as ((G & I & _) & _).
    repeat split; auto; congruence. }
  destruct (preserves_run _ _ _ _ _ _ _ _
              (init_verify_preserves (fun _ => True) PC _ _) E0)
    as ((G2 & I2 & _) & _).
  inv_bind H.
  - subst r. destruct (index (self st1)) as [ix|].
    + inv_bind H.
      * destruct (preserves_run _ _ _ _ _ _ _ _
                    (createIndex_preserves (fun _ => True) PT _ _) H)
          as ((G & I & _) & _).
        repeat split; auto; congruence.
      * unfold bind, modify in H. inversion H.
    + inversion H.
  - unfold modify in H. inversion H; subst. simpl.
    split; [reflexivity|]. intros _.
    destruct (index (self st1)) as [ix|].
    + inv_bind E1; [inversion E1; discriminate|].
      destruct (preserves_run _ _ _ _ _ _ _ _
                  (createIndex_preserves (fun _ => True) PT _ _) E2)
        as ((G & I & _) & _).
      unfold bind, modify in E1. inversion E1; subst. simpl. congruence.
    + inversion E1; subst. congruence.
Qed.

(** Every event of [init] is an upload call or a console line. *)
Lemma init_preserves :
  forall (P : Event -> Prop),
    (forall id m args, In m upload_methods -> P (GL id m args)) ->
    (forall l parts, P (Console l parts)) ->
    forall _gl, preserves (fun _ _ : t => True) P (init _gl).
Proof.
  intros P PU PC _gl.
  assert (W : forall A (c : M t A),
             preserves same_binding P c -> preserves (fun _ _ => True) P c).
  { intros A c. apply preserves_weaken; auto. }
  assert (T : forall a b c : t, True -> True -> True) by auto.
  unfold init.
  apply preserves_bind; [exact T | apply preserves_get_this; auto | intro this].
  destruct (isInitialized this); simpl; [apply preserves_ret; auto|].
  destruct _gl as [c|]; [|apply preserves_throw; auto].
  destruct (has_method c "getParameter"); simpl.
  { apply preserves_bind; [exact T | apply preserves_modify; auto | intros _].
    apply preserves_bind;
      [exact T | apply W, init_upload_preserves; auto | intro cnt].
    apply preserves_bind; [exact T | apply preserves_get_this; auto | intro this'].
    apply preserves_bind;
      [exact T | apply W, init_verify_preserves; auto | intros _].
    apply preserves_bind; [exact T | | intros _; apply preserves_modify; auto].
    destruct (index this') as [ix|]; [|apply preserves_ret; auto].
    apply preserves_bind;
      [exact T | apply W, createIndex_preserves; auto | intro b].
    apply preserves_bind; [exact T | | intros _]; apply preserves_modify; auto. }
  apply preserves_bind; [exact T | apply preserves_emit; auto | intros _].
  apply preserves_throw; auto.
Qed.

Lemma init_no_draw_call :
  forall _gl (st : Store t),
    filter is_draw_call (emitted st (snd (init _gl st))) = [].
Proof.
  intros _gl st.
  destruct (init_preserves (fun e => is_draw_call e = false)) with (_gl := _gl) (st := st)
    as (_ & _ & evs & T & F).
  - intros id m args [<-|[<-|[<-|[]]]]; reflexivity.
  - reflexivity.
  - rewrite (emitted_app _ _ _ _ T). apply filter_none. exact F.
Qed.

Lemma draw_init_throw :
  forall c (st : Store t) e st',
    init (Some c) st = (Throw e, st') ->
    draw (Some c) st = (Throw e, st').
Proof.
  intros c st e st' H. unfold draw. unfold bind at 1. rewrite H. reflexivity.
Qed.

(** *** Failed validation and the flag *)

(** C1, as the code has it: when [init] fails with "All attributes must
    have the same count", [isInitialized] is still false; the flag is
    assigned on the last line of [init], after the check.  The context
    has been stored in [this.gl] by then. *)
Theorem init_failure_leaves_uninitialized :
  forall (_gl : option Context) (st : Store t),
    fst (init _gl st) = Throw inconsistent ->
    isInitialized (self (snd (init _gl st))) = false /\
    gl (self (snd (init _gl st))) = _gl.
Proof.
  intros _gl st. destruct (init _gl st) as [r st'] eqn:E. simpl.
  intros ->. apply init_outcome in E. destruct E as (_ & Hi & Hg). auto.
Qed.

Lemma init_failure_leaves_uninitialized_witness :
  isInitialized
    (self (snd (init (Some (webgl2 0 4)) (store mismatched)))) = false /\
  gl (self (snd (init (Some (webgl2 0 4)) (store mismatched))))
    = Some (webgl2 0 4).
Proof.
  apply (init_failure_leaves_uninitialized
           (Some (webgl2 0 4)) (store mismatched)).
  reflexivity.
Defined.

(** C1, as stated, fails on a geometry with three positions and two
    colours: [init] raises the count error and the flag is not true. *)
Lemma init_failure_flag_counterexample :
  fst (run (init (Some (webgl2 0 4))) mismatched) = Throw inconsistent /\
  isInitialized (self (snd (run (init (Some (webgl2 0 4))) mismatched)))
    <> true.
Proof. split; [reflexivity | discriminate]. Qed.

(** *** Idempotence *)

(** C4, as the code has it: once a call of [init] has returned normally,
    a further call with any argument returns normally and leaves the
    geometry and the trace as they were: no buffer is created, nothing is
    uploaded. *)
Theorem init_idempotent_once_initialized :
  forall (c1 c2 : option Context) (st : Store t),
    fst (init c1 st) = Ok tt ->
    init c2 (snd (init c1 st)) = (Ok tt, snd (init c1 st)).
Proof.
  intros c1 c2 st. destruct (init c1 st) as [r st'] eqn:E. simpl.
  intros ->. apply init_outcome in E. destruct E as [Hi _].
  apply init_initialized_noop. exact Hi.
Qed.

Lemma init_idempotent_once_initialized_witness :
  init None (snd (init (Some (webgl2 0 4)) (store triangle))) =
  (Ok tt, snd (init (Some (webgl2 0 4)) (store triangle))).
Proof.
  apply (init_idempotent_once_initialized
           (Some (webgl2 0 4)) None (store triangle)).
  reflexivity.
Defined.

(** C4, as stated, fails when the first call failed: the second call
    raises the error again and creates and fills two more buffers. *)
Lemma init_twice_counterexample :
  let st1 := snd (run (init (Some (webgl2 0 4))) mismatched) in
  let st2 := snd (init (Some (webgl2 0 4)) st1) in
  fst (run (init (Some (webgl2 0 4))) mismatched) = Throw inconsistent /\
  fst (init (Some (webgl2 0 4)) st1) = Throw inconsistent /\
  List.length (filter is_upload_call (emitted st1 st2)) = 4.
Proof. repeat split; reflexivity. Qed.

(** *** Attribute counts *)

(** C5: on a geometry not yet initialised, with a context that has
    [getParameter] and the buffer calls, if two attributes (arrays shorter
    than 2^32, item sizes below 2^16) have different counts
    [array.length / itemSize] then [init] fails with "All attributes must
    have the same count", and so does [draw] called with that context,
    neither of them issuing a draw call. *)
Theorem mismatched_counts_rejected :
  forall (c : Context) (st : Store t) k1 a1 k2 a2,
    isInitialized (self st) = false ->
    supports c ("getParameter" :: upload_methods) = true ->
    In (k1, a1) (attributes (self st)) ->
    In (k2, a2) (attributes (self st)) ->
    in_range a1 = true ->
    in_range a2 = true ->
    num_strict_eq (element_count a1) (element_count a2) = false ->
    fst (init (Some c) st) = Throw inconsistent /\
    filter is_draw_call (emitted st (snd (init (Some c) st))) = [] /\
    fst (draw (Some c) st) = Throw inconsistent /\
    filter is_draw_call (emitted st (snd (draw (Some c) st))) = [].
Proof.
  intros c st k1 a1 k2 a2 Hflag Hsup In1 In2 _ _ Hne.
  destruct (init_mismatch c st k1 a1 k2 a2 Hflag Hsup In1 In2 Hne)
    as (st' & E).
  assert (N := init_no_draw_call (Some c) st).
  rewrite (draw_init_throw _ _ _ _ E). rewrite E in *. simpl. auto.
Qed.

Lemma mismatched_counts_rejected_witness :
  fst (init (Some (webgl2 0 4)) (store mismatched)) = Throw inconsistent /\
  filter is_draw_call
    (emitted (store mismatched)
       (snd (init (Some (webgl2 0 4)) (store mismatched)))) = [] /\
  fst (draw (Some (webgl2 0 4)) (store mismatched)) = Throw inconsistent /\
  filter is_draw_call
    (emitted (store mismatched)
       (snd (draw (Some (webgl2 0 4)) (store mismatched)))) = [].
Proof.
  apply (mismatched_counts_rejected (webgl2 0 4) (store mismatched)
           "position"
           (mkAttribute [0; 0; 0; 1; 0; 0; 0; 1; 0]%Q 3 None VUndefined None)
           "color"
           (mkAttribute [1; 0; 0; 1; 0; 1; 0; 1]%Q 4 None VUndefined None)).
  - reflexivity.
  - reflexivity.
  - simpl. left. reflexivity.
  - simpl. right. left. reflexivity.
  - reflexivity.
  - reflexivity.
  - reflexivity.
Defined.

(** *** What a successful [init] leaves behind *)

Ltac self_frame :=
  repeat first
    [ apply preserves_bind; [exact (@eq_trans t) | | intro]
    | apply preserves_ret; reflexivity
    | apply preserves_throw; reflexivity
    | apply preserves_emit; [reflexivity | exact I]
    | apply preserves_invoke; [reflexivity | intros; exact I] ].

Lemma createBuffer_self :
  forall gl data, @preserves t eq (fun _ => True) _ (createBuffer gl data).
Proof. intros gl data. unfold createBuffer. self_frame. Qed.

Lemma createIndex_self :
  forall gl data, @preserves t eq (fun _ => True) _ (createIndex gl data).
Proof. intros gl data. unfold createIndex. self_frame. Qed.

Lemma init_verify_self :
  forall todo cnt, @preserves t eq (fun _ => True) _ (init_verify todo cnt).
Proof.
  intros todo cnt. induction todo as [|[key a] rest IH]; simpl.
  - self_frame.
  - destruct (count_differs (count a) cnt); [self_frame | exact IH].
Qed.

Lemma init_upload_records :
  forall gl todo done cnt (st : Store t) cnt' st',
    init_upload gl done todo cnt st = (Ok cnt', st') ->
    attributes (self st) = done ++ todo ->
    exists todo',
      attributes (self st') = done ++ todo' /\ Forall2 uploaded todo todo'.
Proof.
  intros gl todo.
  induction todo as [|[key a] rest IH]; intros done cnt st cnt' st' H Hattr.
  - inversion H; subst. exists []. split; [exact Hattr | constructor].
  - simpl in H. inv_bind H; [discriminate|].
    destruct (preserves_run _ _ _ _ _ _ _ _ (createBuffer_self _ _) E)
      as (Hs & _).
    unfold bind at 1 in H. unfold modify at 1 in H. cbv beta iota in H.
    apply IH in H; [|simpl; rewrite <- app_assoc; reflexivity].
    destruct H as (todo' & Ha & F).
    eexists (_ :: todo'). split.
    + rewrite Ha, <- app_assoc. reflexivity.
    + constructor; [repeat split; reflexivity | exact F].
Qed.

(** After the call that initialises a geometry, every attribute and the
    index carry the count [draw] reads. *)
Lemma init_records_counts :
  forall _gl (st st' : Store t),
    isInitialized (self st) = false ->
    init _gl st = (Ok tt, st') ->
    Forall (fun e => count (snd e) = Some (element_count (snd e)))
           (attributes (self st')) /\
    (forall ix, index (self st') = Some ix ->
                index_count ix = Some (List.length (index_array ix))).
Proof.
  intros _gl st st' Hflag H.
  unfold init in H. unfold bind at 1, get_this in H. cbv beta iota in H.
  simpl self in H. rewrite Hflag in H. simpl (negb _) in H. cbv iota in H.
  destruct _gl as [c|]; [|discriminate].
  destruct (has_method c "getParameter"); simpl (negb _) in H; cbv iota in H;
    [|unfold bind, console_error, emit, throw in H; discriminate].
  unfold bind at 1 in H. unfold modify at 1 in H. cbv beta iota in H.
  inv_bind H; [discriminate|].
  apply init_upload_records in E; [|reflexivity].
  destruct E as (todo' & Ha & F). simpl in Ha.
  unfold bind at 1, get_this in H. cbv beta iota in H.
  inv_bind H; [discriminate|].
  destruct (preserves_run _ _ _ _ _ _ _ _ (init_verify_self _ _) E)
    as (Hs1 & _).
  assert (Hrec : Forall (fun e => count (snd e) = Some (element_count (snd e)))
                        (attributes (self st1))).
  { rewrite <- Hs1, Ha. clear - F.
    induction F as [|[k a] [k' a'] l l' (U1 & U2 & U3 & U4 & U5) F IH];
      constructor; [|exact IH].
    simpl in *. unfold element_count. rewrite U2, U3. exact U5. }
  inv_bind H; [discriminate|].
  unfold modify in H. inversion H; subst st'. simpl.
  destruct (index (self st0)) as [ix|] eqn:Hix.
  - inv_bind E0; [discriminate|].
    destruct (preserves_run _ _ _ _ _ _ _ _ (createIndex_self _ _) E1)
      as (Hs2 & _).
    unfold bind, modify in E0. inversion E0; subst st2. simpl.
    split; [congruence|]. intros ix' [= <-]. reflexivity.
  - inversion E0; subst st2. split; [exact Hrec|].
    rewrite <- Hs1, Hix. discriminate.
Qed.

(** *** Drawing *)

Lemma draw_initialized :
  forall _gl (st : Store t),
    isInitialized (self st) = true ->
    draw _gl st =
    (draw_bind (gl (self st)) (attributes (self st)) ;;
     draw_dispatch (self st) ;;
     draw_disable (gl (self st)) (attributes (self st))) st.
Proof.
  intros _gl st H. unfold draw. unfold bind at 1.
  assert (E : match _gl with Some _ => init _gl | None => ret tt end st
              = (Ok tt, st)).
  { destruct _gl; [apply init_initialized_noop; exact H | reflexivity]. }
  rewrite E. unfold bind at 1, get_this. cbv beta iota.
  rewrite H. reflexivity.
Qed.

Lemma draw_bind_succeeds :
  forall c, supports c draw_methods = true ->
  forall todo, @succeeds t unit no_draw (draw_bind (Some c) todo).
Proof.
  intros c Hc todo. induction todo as [|[key a] rest IH]; simpl.
  - apply succeeds_ret.
  - apply succeeds_bind; [|intros _; exact IH].
    unfold useBuffer.
    repeat (apply succeeds_bind;
            [apply succeeds_invoke;
             [apply (supports_in _ _ _ Hc); simpl; tauto | reflexivity]
            | intros _]).
    apply succeeds_ret.
Qed.

Lemma draw_disable_succeeds :
  forall c, supports c draw_methods = true ->
  forall todo, @succeeds t unit no_draw (draw_disable (Some c) todo).
Proof.
  intros c Hc todo. induction todo as [|[key a] rest IH]; simpl.
  - apply succeeds_ret.
  - apply succeeds_bind; [|intros _; exact IH].
    unfold disableBuffer.
    apply succeeds_bind;
      [apply succeeds_invoke;
       [apply (supports_in _ _ _ Hc); simpl; tauto | reflexivity]
      | intros _].
    apply succeeds_ret.
Qed.

(** [draw] on an initialised geometry whose dispatch emits [calls], of
    which [call] is the one draw call. *)
Lemma draw_one_call :
  forall c _gl (st : Store t) pre call,
    isInitialized (self st) = true ->
    gl (self st) = Some c ->
    supports c draw_methods = true ->
    Forall no_draw pre -> is_draw_call call = true ->
    (forall st1 : Store t,
        self st1 = self st ->
        draw_dispatch (self st) st1 =
        (Ok tt, mkStore (self st1) (trace st1 ++ pre ++ [call]) (document st1))) ->
    fst (draw _gl st) = Ok tt /\
    filter is_draw_call (emitted st (snd (draw _gl st))) = [call].
Proof.
  intros c _gl st pre call Hi Hg Hc Hpre Hcall Hd.
  destruct (draw_bind_succeeds c Hc (attributes (self st)) st)
    as ([] & e1 & E1 & F1).
  destruct (draw_disable_succeeds c Hc (attributes (self st))
              (mkStore (self st) ((trace st ++ e1) ++ pre ++ [call])
                       (document st)))
    as ([] & e2 & E2 & F2).
  assert (E : draw _gl st =
              (Ok tt, mkStore (self st)
                        (trace st ++ e1 ++ (pre ++ [call]) ++ e2)
                        (document st))).
  { rewrite (draw_initialized _ _ Hi), Hg.
    unfold bind at 1. rewrite E1.
    unfold bind at 1. rewrite Hd by reflexivity.
    simpl in *. rewrite E2. rewrite <- !app_assoc. reflexivity. }
  rewrite E. split; [reflexivity|]. simpl snd.
  rewrite (emitted_app _ st _ (e1 ++ (pre ++ [call]) ++ e2)) by reflexivity.
  rewrite !filter_app.
  rewrite (filter_none _ is_draw_call _ F1),
          (filter_none _ is_draw_call _ F2),
          (filter_none _ is_draw_call _ Hpre).
  simpl. rewrite Hcall. reflexivity.
Qed.

(** C6, as the code has it: on an initialised geometry bound to a context
    with the draw calls, [draw] issues exactly one draw call.  With an
    index whose count [init] recorded, it is
    [drawElements(TRIANGLES, index.array.length, UNSIGNED_SHORT, 0)];
    with no index and a [position] attribute whose count [init] recorded,
    it is [drawArrays(TRIANGLES, 0, position.array.length / itemSize)]. *)
Theorem draw_issues_one_call :
  forall (c : Context) (_gl : option Context) (st : Store t),
    isInitialized (self st) = true ->
    gl (self st) = Some c ->
    supports c draw_methods = true ->
    (forall ix,
        index (self st) = Some ix ->
        index_count ix = Some (List.length (index_array ix)) ->
        fst (draw _gl st) = Ok tt /\
        filter is_draw_call (emitted st (snd (draw _gl st))) =
        [GL (ctx_id c) "drawElements"
            [VEnum "TRIANGLES"; VNat (List.length (index_array ix));
             VEnum "UNSIGNED_SHORT"; VNat 0]]) /\
    (forall position,
        index (self st) = None ->
        lookup "position" (attributes (self st)) = Some position ->
        count position = Some (element_count position) ->
        fst (draw _gl st) = Ok tt /\
        filter is_draw_call (emitted st (snd (draw _gl st))) =
        [GL (ctx_id c) "drawArrays"
            [VEnum "TRIANGLES"; VNat 0; VNumber (element_count position)]]).
Proof.
  intros c _gl st Hi Hg Hc.
  assert (Hbb := supports_in _ _ "bindBuffer" Hc).
  assert (Hde := supports_in _ _ "drawElements" Hc).
  assert (Hda := supports_in _ _ "drawArrays" Hc).
  split.
  - intros ix Hix Hcnt.
    apply (draw_one_call c _gl st
             [GL (ctx_id c) "bindBuffer"
                 [VEnum "ELEMENT_ARRAY_BUFFER"; index_buffer ix]]);
      auto.
    + repeat constructor.
    + intros st1 Hs. unfold draw_dispatch. rewrite Hix, Hg, Hcnt.
      unfold bind, invoke, ret. rewrite Hbb, Hde by (simpl; tauto).
      simpl. rewrite <- app_assoc. reflexivity.
  - intros position Hix Hpos Hcnt.
    apply (draw_one_call c _gl st []); auto.
    intros st1 Hs. unfold draw_dispatch. rewrite Hix, Hpos, Hg, Hcnt.
    unfold bind, invoke, ret. rewrite Hda by (simpl; tauto).
    reflexivity.
Qed.

(** The geometries of webgl-01.js once initialised: the triangle draws 3
    vertices, the quad 6 indices. *)
Lemma draw_issues_one_call_witness :
  (let st := snd (run (init (Some (webgl2 0 4))) triangle) in
   fst (draw None st) = Ok tt /\
   filter is_draw_call (emitted st (snd (draw None st))) =
   [GL 0 "drawArrays" [VEnum "TRIANGLES"; VNat 0; VNat 3]]) /\
  (let st := snd (run (init (Some (webgl2 0 4))) quad) in
   fst (draw None st) = Ok tt /\
   filter is_draw_call (emitted st (snd (draw None st))) =
   [GL 0 "drawElements"
       [VEnum "TRIANGLES"; VNat 6; VEnum "UNSIGNED_SHORT"; VNat 0]]).
Proof.
  split.
  - exact (proj2 (draw_issues_one_call (webgl2 0 4) None
                    (snd (run (init (Some (webgl2 0 4))) triangle))
                    eq_refl eq_refl eq_refl)
             (mkAttribute [(1#2); 1; 0; 0; 0; 0; 1; (3#10); 0]%Q 3 None
                          (VHandle 0) (Some (of_nat 3)))
             eq_refl eq_refl eq_refl).
  - exact (proj1 (draw_issues_one_call (webgl2 0 4) None
                    (snd (run (init (Some (webgl2 0 4))) quad))
                    eq_refl eq_refl eq_refl)
             (mkIndex [0; 1; 2; 2; 1; 3]%Z (Some 1) (VHandle 3) (Some 6))
             eq_refl eq_refl).
Defined.

(** C6, as stated, fails on an initialised geometry that has neither an
    index nor a [position] attribute: [draw] raises a type error and
    issues no draw call. *)
Lemma draw_without_position_counterexample :
  let st := snd (run (init (Some (webgl2 0 4))) colour_only) in
  isInitialized (self st) = true /\
  fst (draw None st) =
    Throw (TypeError "Cannot read properties of undefined (reading 'count')") /\
  filter is_draw_call (emitted st (snd (draw None st))) = [].
Proof. repeat split; reflexivity. Qed.

(** *** The bound context *)

Ltac bound_frame :=
  repeat first
    [ apply preserves_bind; [exact same_binding_trans | | intro]
    | apply preserves_ret; exact same_binding_refl
    | apply preserves_throw; exact same_binding_refl
    | apply preserves_get_this; exact same_binding_refl
    | apply preserves_emit; [exact same_binding_refl | split; reflexivity]
    | apply preserves_modify; intro; repeat split
    | apply preserves_invoke;
      [exact same_binding_refl
      | let c0 := fresh "c" in
        let E := fresh "E" in
        intros c0 E; injection E as <-; split; reflexivity] ].

Lemma draw_bind_bound :
  forall c todo,
    @preserves t same_binding (bound_to c) unit (draw_bind (Some c) todo).
Proof.
  intros c todo. induction todo as [|[key a] rest IH]; simpl.
  - bound_frame.
  - apply preserves_bind; [exact same_binding_trans | | intros _; exact IH].
    unfold useBuffer. bound_frame.
Qed.

Lemma draw_disable_bound :
  forall c todo,
    @preserves t same_binding (bound_to c) unit (draw_disable (Some c) todo).
Proof.
  intros c todo. induction todo as [|[key a] rest IH]; simpl.
  - bound_frame.
  - apply preserves_bind; [exact same_binding_trans | | intros _; exact IH].
    unfold disableBuffer. bound_frame.
Qed.

Lemma draw_dispatch_bound :
  forall c g,
    gl g = Some c ->
    @preserves t same_binding (bound_to c) unit (draw_dispatch g).
Proof.
  intros c g Hg. unfold draw_dispatch. rewrite Hg.
  destruct (index g) as [ix|]; [bound_frame|].
  destruct (lookup "position" (attributes g)); bound_frame.
Qed.

Lemma preserves_at :
  forall S A Rs P (m : M S A) st,
    preserves Rs P m -> evolves Rs P st (snd (m st)).
Proof. intros S A Rs P m st H. apply H. Qed.

Lemma run_op_bound :
  forall c o (st : Store t),
    isInitialized (self st) = true -> gl (self st) = Some c ->
    evolves same_binding (bound_to c) st (run_op o st).
Proof.
  intros c o st Hi Hg. destruct o; cbn [run_op].
  - rewrite init_initialized_noop by exact Hi.
    apply evolves_refl. exact same_binding_refl.
  - rewrite (draw_initialized _ _ Hi). rewrite Hg.
    apply preserves_at.
    apply preserves_bind;
      [exact same_binding_trans | apply draw_bind_bound | intros _].
    apply preserves_bind;
      [exact same_binding_trans
      | apply draw_dispatch_bound; exact Hg
      | intros _; apply draw_disable_bound].
  - apply preserves_at. unfold getIndex. bound_frame.
  - apply preserves_at. unfold setIndex. destruct index0; bound_frame.
  - apply preserves_at. unfold getAttribute. bound_frame.
  - apply preserves_at. unfold setAttribute.
    destruct (getAttribLocation name0); [|bound_frame].
    destruct attribute as [[[a|] [sz|] nrm]|]; bound_frame.
  - apply preserves_at. unfold deleteAttribute. bound_frame.
  - apply preserves_at. unfold hasAttribute. bound_frame.
Qed.

Lemma run_ops_bound :
  forall c ops (st : Store t),
    isInitialized (self st) = true -> gl (self st) = Some c ->
    evolves same_binding (bound_to c) st (run_ops ops st).
Proof.
  intros c ops. induction ops as [|o ops IH]; intros st Hi Hg; simpl.
  - apply evolves_refl. exact same_binding_refl.
  - assert (H := run_op_bound c o st Hi Hg).
    eapply evolves_trans; [exact same_binding_trans | exact H |].
    destruct H as ((G & I & _) & _).
    apply IH; congruence.
Qed.

(** C10: after the call of [init] that initialised a geometry with
    context [c], any sequence of calls on the geometry, returning or
    raising, leaves [this.gl] equal to [c] and the geometry initialised;
    every call made on a context in the meantime is made on [c], and none
    creates or fills a buffer, whatever context [init] or [draw] is
    handed. *)
Theorem bound_context_is_stable :
  forall (c : Context) (st0 : Store t) (ops : list Op),
    isInitialized (self st0) = false ->
    fst (init (Some c) st0) = Ok tt ->
    let st1 := snd (init (Some c) st0) in
    let st2 := run_ops ops st1 in
    gl (self st2) = Some c /\
    isInitialized (self st2) = true /\
    Forall (through c) (emitted st1 st2) /\
    filter is_upload_call (emitted st1 st2) = [].
Proof.
  intros c st0 ops Hflag Hok.
  destruct (init (Some c) st0) as [r st1] eqn:E. simpl in Hok. subst r.
  apply init_outcome in E. destruct E as [Hi Hg]. specialize (Hg Hflag).
  simpl.
  destruct (run_ops_bound c ops st1 Hi Hg) as ((G & I & _) & _ & evs & T & F).
  rewrite (emitted_app _ _ _ _ T).
  split; [congruence|]. split; [congruence|]. split.
  - eapply Forall_impl; [|exact F]. intros e [H _]. exact H.
  - apply filter_none. eapply Forall_impl; [|exact F]. intros e [_ H]. exact H.
Qed.

Lemma bound_context_is_stable_witness :
  let ops :=
    [OpDraw (Some (webgl2 1 3)); OpSetIndex (IndexArray [0; 1; 2]%Z);
     OpInit (Some (webgl2 2 4)); OpDraw None;
     OpDeleteAttribute "position"; OpDraw (Some (not_a_context 3))] in
  let st1 := snd (init (Some (webgl2 0 4)) (store triangle)) in
  let st2 := run_ops ops st1 in
  gl (self st2) = Some (webgl2 0 4) /\
  isInitialized (self st2) = true /\
  Forall (through (webgl2 0 4)) (emitted st1 st2) /\
  filter is_upload_call (emitted st1 st2) = [].
Proof.
  intro ops.
  apply (bound_context_is_stable (webgl2 0 4) (store triangle) ops).
  - reflexivity.
  - reflexivity.
Defined.

End GeometryFacts.

(** ** ShaderHelper and WebGLProgram *)

(** *** The names [uniform<n>fv] *)

Lemma length_append : forall s t : string,
    String.length (s ++ t) = String.length s + String.length t.
Proof. intros s t. induction s; simpl; auto. Qed.

Lemma drop_fv_app : forall s : string, drop_fv (s ++ "fv") = Some s.
Proof.
  induction s as [|a s IH]; [reflexivity|].
  change ((String a s ++ "fv")%string) with (String a (s ++ "fv")).
  change (drop_fv (String a (s ++ "fv")))
    with (if String.eqb (String a (s ++ "fv")) "fv" then Some EmptyString
          else option_map (String a) (drop_fv (s ++ "fv"))).
  rewrite IH.
  destruct (String.eqb (String a (s ++ "fv")) "fv") eqn:E; [|reflexivity].
  apply String.eqb_eq in E. apply (f_equal String.length) in E.
  simpl in E. rewrite length_append in E. simpl in E. lia.
Qed.

Lemma vector_setter_index_name :
  forall n,
    vector_setter_index ("uniform" ++ WebGLProgram.string_of_nat n ++ "fv")
    = Some n.
Proof.
  intros n. unfold vector_setter_index.
  change (strip_prefix "uniform"
            ("uniform" ++ WebGLProgram.string_of_nat n ++ "fv"))
    with (Some (WebGLProgram.string_of_nat n ++ "fv")%string).
  cbv beta iota. rewrite drop_fv_app. unfold WebGLProgram.string_of_nat.
  rewrite NilEmpty.usu. simpl. rewrite DecimalNat.Unsigned.of_to. reflexivity.
Qed.

(** The vector setters of the interface are those of 1 to 4 components. *)
Lemma webgl2_vector_setters :
  forall n,
    In ("uniform" ++ WebGLProgram.string_of_nat n ++ "fv")%string webgl2_methods ->
    1 <= n <= 4.
Proof.
  intros n H.
  apply (in_map vector_setter_index) in H.
  rewrite vector_setter_index_name in H.
  vm_compute in H.
  repeat (destruct H as [H|H]; [try discriminate; injection H as <-; lia|]).
  destruct H.
Qed.

(** *** Contexts that are not valid *)

(** C3, as the code has it: a context object whose [getParameter] is not a
    function is rejected with the "is not valid" error, by [init] on a
    geometry not yet initialised and by the constructor of WebGLProgram;
    nothing is called on the context. *)
Theorem invalid_context_rejected :
  forall (c : Context) (st : Store BufferGeometry.t)
         (S : Type) (st2 : Store S),
    has_method c "getParameter" = false ->
    BufferGeometry.isInitialized (self st) = false ->
    BufferGeometry.init (Some c) st =
      (Throw (Error (BufferGeometry.invalid_context_message (self st))),
       mkStore (self st)
         (trace st ++
          [Console LError
             [VString (BufferGeometry.invalid_context_message (self st))]])
         (document st)) /\
    WebGLProgram.new (Some c) st2 =
      (Throw (Error WebGLProgram.invalid_context_message),
       mkStore (self st2)
         (trace st2 ++
          [Console LError [VString WebGLProgram.invalid_context_message]])
         (document st2)).
Proof.
  intros c st S st2 Hm Hi. split.
  - unfold BufferGeometry.init, bind, get_this. rewrite Hi, Hm. reflexivity.
  - unfold WebGLProgram.new. rewrite Hm. reflexivity.
Qed.

Lemma invalid_context_rejected_witness :
  BufferGeometry.init (Some (not_a_context 0)) (store triangle) =
    (Throw (Error "OpenGL context in init for object BufferGeometry  is not valid!"),
     mkStore triangle
       [Console LError
          [VString "OpenGL context in init for object BufferGeometry  is not valid!"]]
       no_document) /\
  WebGLProgram.new (Some (not_a_context 0)) (store tt) =
    (Throw (Error "OpenGL context in constructor of WebGLProgram is not valid!"),
     mkStore tt
       [Console LError
          [VString "OpenGL context in constructor of WebGLProgram is not valid!"]]
       no_document).
Proof.
  exact (invalid_context_rejected (not_a_context 0) (store triangle)
           unit (store tt) eq_refl eq_refl).
Defined.

(** C3, as stated, fails on an object that has [getParameter] but neither
    [createBuffer] nor [createShader]: [init] succeeds on a geometry without
    attributes, and otherwise the failure is the runtime's type error, from
    [init] and from the constructor alike. *)
Lemma missing_capability_counterexample :
  has_method (bare_context 0) "createBuffer" = false /\
  has_method (bare_context 0) "createShader" = false /\
  fst (run (BufferGeometry.init (Some (bare_context 0))) BufferGeometry.new)
    = Ok tt /\
  fst (run (BufferGeometry.init (Some (bare_context 0))) triangle)
    = Throw (TypeError "gl.createBuffer is not a function") /\
  fst (run (WebGLProgram.new (Some (bare_context 0))) tt)
    = Throw (TypeError "gl.createShader is not a function").
Proof. repeat split; reflexivity. Qed.

(** *** Linking *)

(** C2 fails on the code: handed two compiled stages, [createProgram]
    creates and links a program without attaching either; only stages it
    compiled itself from strings are attached. *)
Theorem createProgram_skips_compiled_stages :
  run (ShaderHelper.createProgram (Some (webgl2 0 4)) [VHandle 11; VHandle 12]) tt
  = (Ok (VHandle 0),
     mkStore tt
       [GL 0 "createProgram" [];
        GL 0 "linkProgram" [VHandle 0];
        GL 0 "getProgramParameter" [VHandle 0; ShaderHelper.LINK_STATUS]]
       no_document) /\
  filter is_attach
    (trace (snd (run (ShaderHelper.createProgram (Some (webgl2 0 4))
                        [VString "void main() {}"; VHandle 12]) tt)))
  = [GL 0 "attachShader" [VHandle 4; VHandle 0]].
Proof. split; reflexivity. Qed.

(** *** Uniform dispatch *)

Section UniformFacts.

Import WebGLProgram.

Variable c : Context.
Variable st : Store t.
Variable name : string.

Hypothesis bound : gl (self st) = Some c.
Hypothesis has_lookup : has_method c "getUniformLocation" = true.
Hypothesis has_query : has_method c "getUniform" = true.
Hypothesis found : location_of c st name <> VNull.

Lemma setUniform_found :
  forall value,
    setUniform name value st =
    (uniformLength <- get_length (current_value c st name) ;;
     dispatch (self st) (location_of c st name) uniformLength value)
      (queried c st name).
Proof.
  intros value. unfold setUniform.
  unfold bind at 1, get_this. cbv beta iota.
  unfold bind at 1. unfold invoke at 1. rewrite bound, has_lookup.
  cbv beta iota. fold (location_of c st name).
  assert (E : forall A (x y : A),
             match location_of c st name with VNull => x | _ => y end = y)
    by (intros A x y; destruct (location_of c st name); congruence).
  rewrite E.
  unfold bind at 1. unfold invoke at 1. rewrite has_query. cbv beta iota.
  simpl trace. simpl self. simpl document.
  fold (lookup_event c st name). fold (current_value c st name).
  unfold queried, query_event. rewrite <- app_assoc. reflexivity.
Qed.

Lemma get_length_ok :
  forall S (s : Store S) v,
    nullish v = false -> get_length v s = (Ok (length_of v), s).
Proof. intros S s v H. destruct v; try discriminate; reflexivity. Qed.

End UniformFacts.

Lemma example_program_built :
  forall arity,
    fst (run (WebGLProgram.new (Some (webgl2 0 arity))) tt)
    = Ok (example_program arity).
Proof. intros arity. reflexivity. Qed.

(** C7, as the code has it: for an object with a truthy [isColor], when
    the uniform is found and its current value has 3 or 4 components,
    [setUniform] calls the setter named after that number, [uniform3f] or
    [uniform4f], with the location, [r], [g], [b] and 1.0: the trailing
    1.0 is passed to both. *)
Theorem setUniform_color_dispatch :
  forall (c : Context) (st : Store WebGLProgram.t) (name ctor : string)
         (props : list (string * JsValue)) (n : nat),
    WebGLProgram.gl (self st) = Some c ->
    supports c ["getUniformLocation"; "getUniform"; "uniform3f"; "uniform4f"]
      = true ->
    location_of c st name <> VNull ->
    WebGLProgram.length_of (current_value c st name) = Some n ->
    n = 3 \/ n = 4 ->
    truthy (WebGLProgram.assoc "isColor" props) = true ->
    WebGLProgram.setUniform name (VObject ctor props) st =
    (Ok tt,
     mkStore (self st)
       (trace st ++
        [lookup_event c st name; query_event c st name;
         GL (ctx_id c) (if Nat.eqb n 3 then "uniform3f" else "uniform4f")
            [location_of c st name;
             WebGLProgram.assoc "r" props; WebGLProgram.assoc "g" props;
             WebGLProgram.assoc "b" props; VNat 1]])
       (document st)).
Proof.
  intros c st name ctor props n Hg Hs Hloc Hlen Hn Hcol.
  assert (H1 : has_method c "getUniformLocation" = true)
    by (apply (supports_in _ _ _ Hs); simpl; tauto).
  assert (H2 : has_method c "getUniform" = true)
    by (apply (supports_in _ _ _ Hs); simpl; tauto).
  assert (H3 : has_method c "uniform3f" = true)
    by (apply (supports_in _ _ _ Hs); simpl; tauto).
  assert (H4 : has_method c "uniform4f" = true)
    by (apply (supports_in _ _ _ Hs); simpl; tauto).
  rewrite (setUniform_found c st name Hg H1 H2 Hloc).
  unfold bind at 1. rewrite get_length_ok, Hlen
    by (destruct (current_value c st name); simpl in *; congruence).
  unfold WebGLProgram.dispatch, WebGLProgram.get_prop, bind, ret.
  rewrite Hcol, Hg.
  destruct Hn as [-> | ->]; simpl; unfold invoke;
    [rewrite H3 | rewrite H4]; try (simpl; tauto);
    unfold queried; simpl; rewrite <- app_assoc; reflexivity.
Qed.

Lemma setUniform_color_dispatch_witness :
  WebGLProgram.setUniform "color" red (store (example_program 4)) =
  (Ok tt,
   mkStore (example_program 4)
     [GL 0 "getUniformLocation" [VHandle 8; VString "color"];
      GL 0 "getUniform" [VHandle 8; VHandle 1000];
      GL 0 "uniform4f" [VHandle 1000; VNat 1; VNat 0; VNat 0; VNat 1]]
     no_document).
Proof.
  apply (setUniform_color_dispatch (webgl2 0 4) (store (example_program 4))
           "color" "Color"
           [("isColor", VBoolean true); ("r", VNat 1); ("g", VNat 0);
            ("b", VNat 0)] 4).
  - reflexivity.
  - reflexivity.
  - discriminate.
  - reflexivity.
  - right. reflexivity.
  - reflexivity.
Defined.

(** C7, as stated, fails for a uniform of three components: the call of
    [uniform3f] is handed four numbers after the location, the last being
    1.0. *)
Lemma color_alpha_counterexample :
  WebGLProgram.length_of
    (current_value (webgl2 0 3) (store (example_program 3)) "color") = Some 3 /\
  emitted (store (example_program 3))
    (snd (run (WebGLProgram.setUniform "color" red) (example_program 3)))
  = [GL 0 "getUniformLocation" [VHandle 8; VString "color"];
     GL 0 "getUniform" [VHandle 8; VHandle 1000];
     GL 0 "uniform3f" [VHandle 1000; VNat 1; VNat 0; VNat 0; VNat 1]].
Proof. split; reflexivity. Qed.

(** C8, as the code has it: for a plain Array of 1 to 4 elements, when the
    uniform is found, [setUniform] calls [uniform<L>fv] with the location
    and the array. *)
Theorem setUniform_array_dispatch :
  forall (c : Context) (st : Store WebGLProgram.t) (name : string)
         (elems : list JsValue),
    WebGLProgram.gl (self st) = Some c ->
    supports c ["getUniformLocation"; "getUniform"; "uniform1fv";
                "uniform2fv"; "uniform3fv"; "uniform4fv"] = true ->
    location_of c st name <> VNull ->
    nullish (current_value c st name) = false ->
    1 <= List.length elems <= 4 ->
    WebGLProgram.setUniform name (VArray elems) st =
    (Ok tt,
     mkStore (self st)
       (trace st ++
        [lookup_event c st name; query_event c st name;
         GL (ctx_id c)
            ("uniform" ++ WebGLProgram.string_of_nat (List.length elems) ++ "fv")
            [location_of c st name; VArray elems]])
       (document st)).
Proof.
  intros c st name elems Hg Hs Hloc Hnull Hlen.
  assert (H1 : has_method c "getUniformLocation" = true)
    by (apply (supports_in _ _ _ Hs); simpl; tauto).
  assert (H2 : has_method c "getUniform" = true)
    by (apply (supports_in _ _ _ Hs); simpl; tauto).
  assert (F1 : has_method c "uniform1fv" = true)
    by (apply (supports_in _ _ _ Hs); simpl; tauto).
  assert (F2 : has_method c "uniform2fv" = true)
    by (apply (supports_in _ _ _ Hs); simpl; tauto).
  assert (F3 : has_method c "uniform3fv" = true)
    by (apply (supports_in _ _ _ Hs); simpl; tauto).
  assert (F4 : has_method c "uniform4fv" = true)
    by (apply (supports_in _ _ _ Hs); simpl; tauto).
  rewrite (setUniform_found c st name Hg H1 H2 Hloc).
  unfold bind at 1. rewrite get_length_ok by exact Hnull.
  unfold WebGLProgram.dispatch, bind, ret. rewrite Hg.
  destruct (List.length elems) as [|[|[|[|[|k]]]]]; try lia;
    simpl; unfold invoke;
    [rewrite F1 | rewrite F2 | rewrite F3 | rewrite F4]; try (simpl; tauto);
    unfold queried; simpl; rewrite <- app_assoc; reflexivity.
Qed.

Lemma setUniform_array_dispatch_witness :
  WebGLProgram.setUniform "color" (VArray [VNat 1; VNat 0; VNat 0; VNat 1])
    (store (example_program 4)) =
  (Ok tt,
   mkStore (example_program 4)
     [GL 0 "getUniformLocation" [VHandle 8; VString "color"];
      GL 0 "getUniform" [VHandle 8; VHandle 1000];
      GL 0 "uniform4fv"
         [VHandle 1000; VArray [VNat 1; VNat 0; VNat 0; VNat 1]]]
     no_document).
Proof.
  apply (setUniform_array_dispatch (webgl2 0 4) (store (example_program 4))
           "color" [VNat 1; VNat 0; VNat 0; VNat 1]).
  - reflexivity.
  - reflexivity.
  - discriminate.
  - reflexivity.
  - simpl. lia.
Defined.

(** C8, as stated, fails on a Float32Array: it is not an instance of Array
    and carries no marker, so [setUniform] warns and sets nothing. *)
Lemma typed_array_counterexample :
  run (WebGLProgram.setUniform "color" (VFloat32Array [1; 0; 0; 1]%Q))
      (example_program 4) =
  (Ok tt,
   mkStore (example_program 4)
     [GL 0 "getUniformLocation" [VHandle 8; VString "color"];
      GL 0 "getUniform" [VHandle 8; VHandle 1000];
      Console LWarn
        [VString "Value of type '"; VString "Float32Array";
         VString "' not supported by WebGLProgram.setUniform!"]]
     no_document).
Proof. reflexivity. Qed.

(** C9: on a context with the methods of WebGL2RenderingContext, when the
    uniform is found, [setUniform] with a plain Array of length 0 or more
    than 4 raises a type error: the context has no method of the computed
    name.  Only the two queries reach the context and nothing is written
    to the console. *)
Theorem setUniform_array_length_type_error :
  forall (c : Context) (st : Store WebGLProgram.t) (name : string)
         (elems : list JsValue),
    WebGLProgram.gl (self st) = Some c ->
    ctx_methods c = webgl2_methods ->
    location_of c st name <> VNull ->
    List.length elems = 0 \/ 4 < List.length elems ->
    has_method c
      ("uniform" ++ WebGLProgram.string_of_nat (List.length elems) ++ "fv")
      = false /\
    (exists message,
        fst (WebGLProgram.setUniform name (VArray elems) st)
        = Throw (TypeError message)) /\
    emitted st (snd (WebGLProgram.setUniform name (VArray elems) st))
    = [lookup_event c st name; query_event c st name] /\
    filter is_console
      (emitted st (snd (WebGLProgram.setUniform name (VArray elems) st))) = [].
Proof.
  intros c st name elems Hg Hm Hloc Hlen.
  assert (H1 : has_method c "getUniformLocation" = true)
    by (unfold has_method; rewrite Hm; reflexivity).
  assert (H2 : has_method c "getUniform" = true)
    by (unfold has_method; rewrite Hm; reflexivity).
  assert (Hno : has_method c
                  ("uniform" ++ WebGLProgram.string_of_nat (List.length elems)
                   ++ "fv") = false).
  { match goal with |- ?x = false => destruct x eqn:E; [|reflexivity] end.
    unfold has_method in E. rewrite Hm in E.
    apply existsb_exists in E. destruct E as (m & Hin & Heq).
    apply String.eqb_eq in Heq. subst m.
    apply webgl2_vector_setters in Hin. lia. }
  split; [exact Hno|].
  assert (D : forall ul s,
             WebGLProgram.dispatch (self st) (location_of c st name) ul
               (VArray elems) s =
             (Throw (TypeError
                ("gl." ++ ("uniform"
                   ++ WebGLProgram.string_of_nat (List.length elems) ++ "fv")
                 ++ " is not a function")), s)).
  { intros ul s. unfold WebGLProgram.dispatch, bind, invoke.
    rewrite Hg, Hno. reflexivity. }
  assert (E : exists message,
             WebGLProgram.setUniform name (VArray elems) st =
             (Throw (TypeError message), queried c st name)).
  { rewrite (setUniform_found c st name Hg H1 H2 Hloc). unfold bind at 1.
    destruct (current_value c st name);
      unfold WebGLProgram.get_length, throw, ret; cbv beta iota;
      try rewrite D; eexists; reflexivity. }
  destruct E as (message & E). rewrite E. simpl fst. simpl snd.
  rewrite (emitted_app _ st _ [lookup_event c st name; query_event c st name])
    by reflexivity.
  split; [exists message; reflexivity|]. split; reflexivity.
Qed.

Lemma setUniform_array_length_type_error_witness :
  has_method (webgl2 0 4) "uniform5fv" = false /\
  (exists message,
      fst (WebGLProgram.setUniform "color"
             (VArray [VNat 1; VNat 0; VNat 0; VNat 1; VNat 1])
             (store (example_program 4)))
      = Throw (TypeError message)) /\
  emitted (store (example_program 4))
    (snd (WebGLProgram.setUniform "color"
            (VArray [VNat 1; VNat 0; VNat 0; VNat 1; VNat 1])
            (store (example_program 4))))
  = [GL 0 "getUniformLocation" [VHandle 8; VString "color"];
     GL 0 "getUniform" [VHandle 8; VHandle 1000]] /\
  filter is_console
    (emitted (store (example_program 4))
       (snd (WebGLProgram.setUniform "color"
               (VArray [VNat 1; VNat 0; VNat 0; VNat 1; VNat 1])
               (store (example_program 4))))) = [].
Proof.
  apply (setUniform_array_length_type_error (webgl2 0 4)
           (store (example_program 4)) "color"
           [VNat 1; VNat 0; VNat 0; VNat 1; VNat 1]).
  - reflexivity.
  - reflexivity.
  - discriminate.
  - right. simpl. lia.
Defined.

(** * Further properties of the three modules *)

(** ** Observing the calls of a computation *)

Lemma runs_ret :
  forall S A X (obs : Event -> list X) (Q : A -> Prop) (a : A),
    Q a -> @runs S A X obs [] Q (ret a).
Proof.
  intros S A X obs Q a HQ st. exists a, []. rewrite app_nil_r, store_eta. auto.
Qed.

Lemma runs_bind :
  forall S A B X (obs : Event -> list X) l1 l2 (Q1 : A -> Prop)
         (Q2 : B -> Prop) (c : M S A) (k : A -> M S B),
    runs obs l1 Q1 c -> (forall a, Q1 a -> runs obs l2 Q2 (k a)) ->
    runs obs (l1 ++ l2) Q2 (bind c k).
Proof.
  intros S A B X obs l1 l2 Q1 Q2 c k Hc Hk st. unfold bind.
  destruct (Hc st) as (a & e1 & E1 & HQ & F1). rewrite E1.
  destruct (Hk a HQ (mkStore (self st) (trace st ++ e1) (document st)))
    as (b & e2 & E2 & HQ2 & F2).
  exists b, (e1 ++ e2). rewrite E2. simpl. rewrite app_assoc.
  split; [reflexivity|]. split; [exact HQ2|].
  rewrite flat_map_app, F1, F2. reflexivity.
Qed.

Lemma runs_invoke :
  forall S X (obs : Event -> list X) c m args,
    has_method c m = true ->
    @runs S _ X obs (obs (GL (ctx_id c) m args))
      (fun v => exists tr, v = ctx_answer c tr m args)
      (invoke (Some c) m args).
Proof.
  intros S X obs c m args Hm st. unfold invoke. rewrite Hm.
  eexists _, [_]. split; [reflexivity|]. split; [eauto|].
  simpl. apply app_nil_r.
Qed.

Lemma runs_emit :
  forall S X (obs : Event -> list X) e,
    @runs S _ X obs (obs e) (fun _ => True) (emit e).
Proof.
  intros S X obs e st. exists tt, [e]. split; [reflexivity|].
  split; [exact I|]. simpl. apply app_nil_r.
Qed.

Lemma runs_getElementById :
  forall S X (obs : Event -> list X) id,
    @runs S _ X obs [] (fun _ => True) (getElementById id).
Proof.
  intros S X obs id st. eexists _, []. rewrite app_nil_r, store_eta.
  split; [reflexivity|]. auto.
Qed.

Lemma runs_weaken :
  forall S A X (obs : Event -> list X) l (Q Q' : A -> Prop) (c : M S A),
    (forall a, Q a -> Q' a) -> runs obs l Q c -> runs obs l Q' c.
Proof.
  intros S A X obs l Q Q' c HQ H st.
  destruct (H st) as (a & evs & E & Ha & F). exists a, evs. auto.
Qed.

Lemma runs_at :
  forall S A X (obs : Event -> list X) l (Q : A -> Prop) (c : M S A) st,
    runs obs l Q c ->
    exists a st',
      c st = (Ok a, st') /\ Q a /\ self st' = self st /\
      flat_map obs (emitted st st') = l.
Proof.
  intros S A X obs l Q c st H.
  destruct (H st) as (a & evs & E & Ha & F).
  eexists a, _. split; [exact E|]. split; [exact Ha|]. split; [reflexivity|].
  rewrite (emitted_app _ st _ evs) by reflexivity. exact F.
Qed.

(** ** The attribute table and the index *)

Section AttributeTable.

Import BufferGeometry.

Lemma getAttribLocation_unknown :
  forall name, known_attribute name = false -> getAttribLocation name = None.
Proof.
  intros name H. unfold known_attribute in H. simpl in H.
  unfold getAttribLocation.
  destruct (String.eqb name "position"); [discriminate|].
  destruct (String.eqb name "color"); [discriminate|].
  destruct (String.eqb name "normal"); [discriminate|].
  destruct (String.eqb name "uv"); [discriminate|].
  destruct (String.eqb name "index"); reflexivity.
Qed.

Lemma getAttribLocation_known :
  forall name,
    known_attribute name = true -> exists n, getAttribLocation name = Some n.
Proof.
  intros name H. unfold known_attribute in H. simpl in H.
  unfold getAttribLocation.
  destruct (String.eqb name "position"); [eauto|].
  destruct (String.eqb name "color"); [eauto|].
  destruct (String.eqb name "normal"); [eauto|].
  destruct (String.eqb name "uv"); [eauto|discriminate].
Qed.

Lemma lookup_assign_same :
  forall k a l, lookup k (assign k a l) = Some a.
Proof.
  intros k a l. induction l as [|[k0 b] rest IH]; simpl.
  - rewrite String.eqb_refl. reflexivity.
  - destruct (String.eqb k k0) eqn:E; simpl; rewrite E; auto.
Qed.

Lemma lookup_assign_other :
  forall k k' a l, k' <> k -> lookup k' (assign k a l) = lookup k' l.
Proof.
  intros k k' a l Hne. induction l as [|[k0 b] rest IH]; simpl.
  - apply String.eqb_neq in Hne. rewrite Hne. reflexivity.
  - destruct (String.eqb k k0) eqn:E; simpl.
    + apply String.eqb_eq in E. subst k0.
      apply String.eqb_neq in Hne. rewrite Hne. reflexivity.
    + rewrite IH. reflexivity.
Qed.

Lemma lookup_none_not_in :
  forall k l, lookup k l = None -> ~ In k (map fst l).
Proof.
  intros k l. induction l as [|[k0 b] rest IH]; simpl; [tauto|].
  destruct (String.eqb k k0) eqn:E; [discriminate|].
  apply String.eqb_neq in E. intros H [H1|H1]; [congruence | exact (IH H H1)].
Qed.

Lemma keys_assign :
  forall k a l,
    map fst (assign k a l) =
    match lookup k l with
    | Some _ => map fst l
    | None => map fst l ++ [k]
    end.
Proof.
  intros k a l. induction l as [|[k0 b] rest IH]; simpl; [reflexivity|].
  destruct (String.eqb k k0) eqn:E; simpl; [reflexivity|].
  rewrite IH. destruct (lookup k rest); reflexivity.
Qed.

Lemma remove_absent :
  forall k l, lookup k l = None -> remove k l = l.
Proof.
  intros k l. unfold remove. induction l as [|[k0 b] rest IH]; simpl; [auto|].
  destruct (String.eqb k k0) eqn:E; [discriminate|].
  intros H. simpl. rewrite (IH H). reflexivity.
Qed.

Lemma remove_assign_absent :
  forall k a l, lookup k l = None -> remove k (assign k a l) = l.
Proof.
  intros k a l. unfold remove. induction l as [|[k0 b] rest IH]; simpl.
  - rewrite String.eqb_refl. reflexivity.
  - destruct (String.eqb k k0) eqn:E; [discriminate|].
    intros H. simpl. rewrite E. simpl. rewrite (IH H). reflexivity.
Qed.

Lemma lookup_remove_same :
  forall k l, lookup k (remove k l) = None.
Proof.
  intros k l. unfold remove. induction l as [|[k0 b] rest IH]; simpl; [auto|].
  destruct (String.eqb k k0) eqn:E; simpl; [exact IH|].
  rewrite E. exact IH.
Qed.

Lemma lookup_remove_other :
  forall k k' l, k' <> k -> lookup k' (remove k l) = lookup k' l.
Proof.
  intros k k' l Hne. unfold remove.
  induction l as [|[k0 b] rest IH]; simpl; [auto|].
  destruct (String.eqb k k0) eqn:E; simpl.
  - apply String.eqb_eq in E. subst k0.
    apply String.eqb_neq in Hne. rewrite Hne. exact IH.
  - rewrite IH. reflexivity.
Qed.

Lemma set_attributes_same :
  forall g, set_attributes (attributes g) g = g.
Proof. intros g. destruct g. reflexivity. Qed.

(** X1: [setAttribute] with a name other than position, color, normal or
    uv (so also with "index") logs an error and raises it; the geometry is
    left as it was and nothing is called on a context. *)
Theorem setAttribute_unknown_name :
  forall (name : string) (attribute : option AttributeArg) (st : Store t),
    known_attribute name = false ->
    setAttribute name attribute st =
    (Throw (Error ("Attribute name " ++ name ++ " in setAttribute is not valid!")),
     mkStore (self st)
       (trace st ++
        [Console LError
           [VString "Attribute name "; VString name;
            VString " used in setAttribute is not valid!"]])
       (document st)).
Proof.
  intros name attribute st H. unfold setAttribute.
  rewrite (getAttribLocation_unknown _ H). reflexivity.
Qed.

Lemma setAttribute_unknown_name_witness :
  fst (setAttribute "index"
         (Some (mkAttributeArg (Some [0; 1; 2]%Q) (Some 1) None))
         (store triangle))
  = Throw (Error "Attribute name index in setAttribute is not valid!").
Proof.
  rewrite (setAttribute_unknown_name "index"
             (Some (mkAttributeArg (Some [0; 1; 2]%Q) (Some 1) None))
             (store triangle) eq_refl).
  reflexivity.
Defined.

(** X2: [setAttribute] with a known name and an argument that is
    undefined or lacks [array] or [itemSize] logs an error and raises it,
    leaving the geometry as it was. *)
Theorem setAttribute_malformed :
  forall (name : string) (attribute : option AttributeArg) (st : Store t),
    known_attribute name = true ->
    well_formed attribute = false ->
    setAttribute name attribute st =
    (Throw (Error ("Attribute data for " ++ name
              ++ " must be an object of the form {array: [...], itemSize: ..}!")),
     mkStore (self st)
       (trace st ++
        [Console LError
           [VString "Attribute data for "; VString name;
            VString " must be an object of the form {array: [...], itemSize: ..}!"]])
       (document st)).
Proof.
  intros name attribute st H W. unfold setAttribute.
  destruct (getAttribLocation_known _ H) as (n & ->).
  destruct attribute as [[[a|] [sz|] nrm]|]; try discriminate; reflexivity.
Qed.

Lemma setAttribute_malformed_witness :
  fst (setAttribute "position" (Some (mkAttributeArg (Some [0; 1; 2]%Q) None None))
         (store triangle))
  = Throw (Error "Attribute data for position must be an object of the form {array: [...], itemSize: ..}!")
  /\ self (snd (setAttribute "position"
                  (Some (mkAttributeArg (Some [0; 1; 2]%Q) None None))
                  (store triangle))) = triangle.
Proof.
  rewrite (setAttribute_malformed "position"
             (Some (mkAttributeArg (Some [0; 1; 2]%Q) None None))
             (store triangle) eq_refl eq_refl).
  split; reflexivity.
Defined.

Lemma setAttribute_ok :
  forall name a sz nrm (st : Store t),
    known_attribute name = true ->
    setAttribute name (Some (mkAttributeArg (Some a) (Some sz) nrm)) st =
    (Ok tt,
     mkStore (set_attributes
                (assign name (mkAttribute a sz nrm VUndefined None)
                        (attributes (self st)))
                (self st))
             (trace st) (document st)).
Proof.
  intros name a sz nrm st H. unfold setAttribute.
  destruct (getAttribLocation_known _ H) as (n & ->). reflexivity.
Qed.

(** X3: after [setAttribute] with a known name and a well-formed argument,
    [getAttribute] returns the attribute with that data and neither buffer
    nor count, [hasAttribute] is true, every other name reads as before,
    and the context, the flag, the index and the trace are untouched:
    nothing is uploaded at that point. *)
Theorem setAttribute_then_get :
  forall (name : string) (a : list Q) (sz : nat) (nrm : option bool)
         (st : Store t),
    known_attribute name = true ->
    let r := setAttribute name (Some (mkAttributeArg (Some a) (Some sz) nrm)) st in
    fst r = Ok tt /\
    fst (getAttribute name (snd r))
      = Ok (Own (mkAttribute a sz nrm VUndefined None)) /\
    fst (hasAttribute name (snd r)) = Ok true /\
    (forall other, other <> name ->
       fst (getAttribute other (snd r)) = fst (getAttribute other st)) /\
    trace (snd r) = trace st /\
    gl (self (snd r)) = gl (self st) /\
    isInitialized (self (snd r)) = isInitialized (self st) /\
    index (self (snd r)) = index (self st).
Proof.
  intros name a sz nrm st H r. unfold r. rewrite (setAttribute_ok _ _ _ _ _ H).
  unfold getAttribute, hasAttribute, get_property, bind, get_this, ret. simpl.
  rewrite lookup_assign_same.
  repeat split; try reflexivity.
  intros other Hne. rewrite (lookup_assign_other _ _ _ _ Hne). reflexivity.
Qed.

Lemma setAttribute_then_get_witness :
  let r := setAttribute "normal"
             (Some (mkAttributeArg (Some [0; 0; 1]%Q) (Some 3) None))
             (store triangle) in
  fst r = Ok tt /\
  fst (getAttribute "normal" (snd r))
    = Ok (Own (mkAttribute [0; 0; 1]%Q 3 None VUndefined None)) /\
  fst (hasAttribute "normal" (snd r)) = Ok true /\
  (forall other, other <> "normal" ->
     fst (getAttribute other (snd r))
     = fst (getAttribute other (store triangle))) /\
  trace (snd r) = trace (store triangle) /\
  gl (self (snd r)) = gl (self (store triangle)) /\
  isInitialized (self (snd r)) = isInitialized (self (store triangle)) /\
  index (self (snd r)) = index (self (store triangle)).
Proof.
  exact (setAttribute_then_get "normal" [0; 0; 1]%Q 3 None (store triangle)
           eq_refl).
Defined.

(** X4: [setAttribute] keeps the names of the table distinct; a name
    already present keeps its place in the iteration order, a new name goes
    last. *)
Theorem setAttribute_keys :
  forall (name : string) (a : list Q) (sz : nat) (nrm : option bool)
         (st : Store t),
    known_attribute name = true ->
    NoDup (map fst (attributes (self st))) ->
    let st' := snd (setAttribute name
                      (Some (mkAttributeArg (Some a) (Some sz) nrm)) st) in
    NoDup (map fst (attributes (self st'))) /\
    map fst (attributes (self st')) =
    match lookup name (attributes (self st)) with
    | Some _ => map fst (attributes (self st))
    | None => map fst (attributes (self st)) ++ [name]
    end.
Proof.
  intros name a sz nrm st H ND st'. unfold st'.
  rewrite (setAttribute_ok _ _ _ _ _ H). simpl. rewrite keys_assign.
  split; [|reflexivity].
  destruct (lookup name (attributes (self st))) eqn:L; [exact ND|].
  apply NoDup_app; [exact ND | repeat constructor; simpl; tauto |].
  intros x Hx [<-|[]]. exact (lookup_none_not_in _ _ L Hx).
Qed.

Lemma setAttribute_keys_witness :
  let st' := snd (setAttribute "position"
                    (Some (mkAttributeArg (Some [0; 0; 0]%Q) (Some 3) None))
                    (store triangle)) in
  NoDup (map fst (attributes (self st'))) /\
  map fst (attributes (self st')) = ["position"; "color"].
Proof.
  apply (setAttribute_keys "position" [0; 0; 0]%Q 3 None (store triangle)
           eq_refl).
  simpl. repeat constructor; simpl; intuition discriminate.
Defined.

(** X5: after [deleteAttribute] the table owns no attribute of that name:
    [getAttribute] reads what [Object.prototype] has under the name, if
    anything, and is undefined otherwise, so that [hasAttribute] is false
    except for the names of [Object.prototype] ("toString", "constructor"
    and the like), for which it stays true.  Every other name reads as
    before, and deleting a name just added to a table that lacked it gives
    the geometry back. *)
Theorem deleteAttribute_removes :
  forall (name : string) (st : Store t),
    let st' := snd (deleteAttribute name st) in
    fst (deleteAttribute name st) = Ok tt /\
    fst (hasAttribute name st') = Ok (inherited name) /\
    fst (getAttribute name st')
      = Ok (if inherited name then Inherited name else Absent) /\
    (forall other, other <> name ->
       fst (getAttribute other st') = fst (getAttribute other st)) /\
    trace st' = trace st /\
    (forall a sz nrm,
       known_attribute name = true ->
       lookup name (attributes (self st)) = None ->
       self (snd (deleteAttribute name
                    (snd (setAttribute name
                            (Some (mkAttributeArg (Some a) (Some sz) nrm)) st))))
       = self st).
Proof.
  intros name st st'. unfold st'.
  unfold deleteAttribute, hasAttribute, getAttribute, get_property, bind,
    get_this, modify, ret.
  simpl. rewrite lookup_remove_same.
  repeat split; try reflexivity.
  - destruct (inherited name); reflexivity.
  - intros other Hne. rewrite (lookup_remove_other _ _ _ Hne). reflexivity.
  - intros a sz nrm H L. rewrite (setAttribute_ok _ _ _ _ _ H). simpl.
    rewrite (remove_assign_absent _ _ _ L).
    destruct (self st). reflexivity.
Qed.

(** ** The index and the first draw *)

Ltac invert_bind H :=
  let e := fresh "e" in
  let a := fresh "a" in
  let s := fresh "st" in
  let E := fresh "E" in
  apply bind_inv in H;
  destruct H as [(e & H & E) | (a & s & E & H)].

Lemma emitted_trans :
  forall S (st st1 st2 : Store S) e1 e2,
    trace st1 = trace st ++ e1 -> trace st2 = trace st1 ++ e2 ->
    emitted st st2 = e1 ++ e2 /\ emitted st st1 = e1 /\ emitted st1 st2 = e2.
Proof.
  intros S st st1 st2 e1 e2 H1 H2.
  rewrite (emitted_app _ st st1 e1 H1), (emitted_app _ st1 st2 e2 H2).
  rewrite (emitted_app _ st st2 (e1 ++ e2)); [auto|].
  rewrite H2, H1, app_assoc. reflexivity.
Qed.

(** X6: an index set after initialisation is never uploaded: [getIndex]
    returns it without buffer or count, and [draw] issues
    [drawElements] with an undefined count, creating and filling no
    buffer. *)
Theorem setIndex_after_init_not_uploaded :
  forall (c : Context) (_gl : option Context) (a : list Z) (st : Store t),
    isInitialized (self st) = true ->
    gl (self st) = Some c ->
    supports c draw_methods = true ->
    let st1 := snd (setIndex (IndexArray a) st) in
    fst (getIndex st1) = Ok (Some (mkIndex a (Some 1) VUndefined None)) /\
    fst (draw _gl st1) = Ok tt /\
    filter is_draw_call (emitted st1 (snd (draw _gl st1))) =
    [GL (ctx_id c) "drawElements"
        [VEnum "TRIANGLES"; VUndefined; VEnum "UNSIGNED_SHORT"; VNat 0]] /\
    filter is_upload_call (emitted st1 (snd (draw _gl st1))) = [].
Proof.
  intros c _gl a st Hi Hg Hc st1.
  assert (Hi1 : isInitialized (self st1) = true) by exact Hi.
  assert (Hg1 : gl (self st1) = Some c) by exact Hg.
  assert (Hbb : has_method c "bindBuffer" = true)
    by (apply (supports_in _ _ _ Hc); simpl; tauto).
  assert (Hde : has_method c "drawElements" = true)
    by (apply (supports_in _ _ _ Hc); simpl; tauto).
  split; [reflexivity|].
  assert (D := draw_one_call c _gl st1
                 [GL (ctx_id c) "bindBuffer"
                     [VEnum "ELEMENT_ARRAY_BUFFER"; VUndefined]]
                 (GL (ctx_id c) "drawElements"
                     [VEnum "TRIANGLES"; VUndefined; VEnum "UNSIGNED_SHORT";
                      VNat 0])
                 Hi1 Hg1 Hc).
  destruct D as [D1 D2].
  - repeat constructor.
  - reflexivity.
  - intros s Hs. unfold draw_dispatch. simpl. rewrite Hg.
    unfold bind, invoke, ret. rewrite Hbb, Hde. simpl.
    rewrite <- app_assoc. reflexivity.
  - split; [exact D1|]. split; [exact D2|].
    destruct (run_op_bound c (OpDraw _gl) st1 Hi1 Hg1)
      as (_ & _ & evs & T & F).
    cbn [run_op] in T. rewrite (emitted_app _ st1 _ evs T).
    apply filter_none. eapply Forall_impl; [|exact F].
    intros e [_ H]. exact H.
Qed.

Lemma setIndex_after_init_not_uploaded_witness :
  let st := snd (init (Some (webgl2 0 4)) (store quad)) in
  let st1 := snd (setIndex (IndexArray [0; 1; 2]%Z) st) in
  fst (getIndex st1)
    = Ok (Some (mkIndex [0; 1; 2]%Z (Some 1) VUndefined None)) /\
  fst (draw None st1) = Ok tt /\
  filter is_draw_call (emitted st1 (snd (draw None st1))) =
  [GL 0 "drawElements"
      [VEnum "TRIANGLES"; VUndefined; VEnum "UNSIGNED_SHORT"; VNat 0]] /\
  filter is_upload_call (emitted st1 (snd (draw None st1))) = [].
Proof.
  exact (setIndex_after_init_not_uploaded (webgl2 0 4) None [0; 1; 2]%Z
           (snd (init (Some (webgl2 0 4)) (store quad)))
           eq_refl eq_refl eq_refl).
Defined.

Lemma draw_None_uninitialized :
  forall (st : Store t),
    isInitialized (self st) = false ->
    draw None st =
    (Throw (Error (not_initialized_message (self st))),
     mkStore (self st)
       (trace st ++
        [Console LError
           [VString "Geometry ("; VString (type (self st));
            VString ") has not been initialized before drawing!"]])
       (document st)).
Proof.
  intros st H. unfold draw, bind, get_this, ret. simpl. rewrite H. reflexivity.
Qed.

(** X7: a failed [init] is not mistaken for a success: whatever made it
    fail, a later [draw] without a context raises "not initialized". *)
Theorem draw_after_failed_init :
  forall (_gl : option Context) (st : Store t) (e : JsError),
    fst (init _gl st) = Throw e ->
    fst (draw None (snd (init _gl st))) =
    Throw (Error (not_initialized_message (self (snd (init _gl st))))).
Proof.
  intros _gl st e. destruct (init _gl st) as [r st'] eqn:E. simpl.
  intros ->. apply init_outcome in E. destruct E as (_ & Hi & _).
  rewrite (draw_None_uninitialized _ Hi). reflexivity.
Qed.

Lemma draw_after_failed_init_witness :
  fst (draw None (snd (init (Some (not_a_context 0)) (store triangle))))
  = Throw (Error "ERROR: BufferGeometry not initialized!").
Proof.
  rewrite (draw_after_failed_init (Some (not_a_context 0)) (store triangle)
             (Error "OpenGL context in init for object BufferGeometry  is not valid!")
             eq_refl).
  reflexivity.
Defined.

(** ** A successful initialisation *)

Lemma createIndex_ok :
  forall c indices (st : Store t),
    supports c upload_methods = true ->
    createIndex (Some c) indices st =
    (Ok (ctx_answer c (trace st) "createBuffer" []),
     mkStore (self st)
       (trace st ++
        [GL (ctx_id c) "createBuffer" [];
         GL (ctx_id c) "bindBuffer"
            [VEnum "ELEMENT_ARRAY_BUFFER";
             ctx_answer c (trace st) "createBuffer" []];
         GL (ctx_id c) "bufferData"
            [VEnum "ELEMENT_ARRAY_BUFFER"; VUint16Array (to_uint16 indices);
             VEnum "STATIC_DRAW"]])
       (document st)).
Proof.
  intros c indices st H.
  assert (H1 : has_method c "createBuffer" = true)
    by (apply (supports_in _ _ _ H); simpl; tauto).
  assert (H2 : has_method c "bindBuffer" = true)
    by (apply (supports_in _ _ _ H); simpl; tauto).
  assert (H3 : has_method c "bufferData" = true)
    by (apply (supports_in _ _ _ H); simpl; tauto).
  unfold createIndex, bind, invoke. rewrite H1, H2, H3. simpl.
  rewrite <- !app_assoc. reflexivity.
Qed.

Lemma init_upload_trace :
  forall c, supports c upload_methods = true ->
  forall todo done cnt (st : Store t),
    exists a st' evs,
      init_upload (Some c) done todo cnt st = (Ok a, st') /\
      trace st' = trace st ++ evs /\
      calls "bufferData" evs = map attribute_upload todo /\
      List.length (calls "createBuffer" evs) = List.length todo.
Proof.
  intros c Hc todo.
  induction todo as [|[key a] rest IH]; intros done cnt st.
  - exists cnt, st, []. rewrite app_nil_r. repeat split; reflexivity.
  - simpl init_upload. unfold bind at 1. rewrite createBuffer_ok by exact Hc.
    unfold bind at 1. unfold modify. cbv beta iota.
    match goal with
    | |- context [init_upload _ ?d rest ?n ?s] =>
        destruct (IH d n s) as (r & st' & evs & E & T & B & C)
    end.
    eexists r, st', (_ ++ evs). split; [exact E|]. split; [|split].
    + rewrite T. simpl. rewrite <- app_assoc. reflexivity.
    + unfold calls in *. rewrite flat_map_app, B. reflexivity.
    + unfold calls in *. rewrite flat_map_app, length_app, C. reflexivity.
Qed.

Lemma init_verify_ok :
  forall todo cnt (st : Store t),
    Forall (fun e => count_differs (count (snd e)) cnt = false) todo ->
    init_verify todo cnt st = (Ok tt, st).
Proof.
  intros todo cnt st H. induction H as [|[key a] rest Ha _ IH]; simpl.
  - reflexivity.
  - simpl in Ha. rewrite Ha. exact IH.
Qed.

Lemma init_verify_ok_inv :
  forall todo cnt (st st' : Store t),
    init_verify todo cnt st = (Ok tt, st') ->
    Forall (fun e => count_differs (count (snd e)) cnt = false) todo.
Proof.
  intros todo cnt st st'. induction todo as [|[key a] rest IH]; simpl; intros H.
  - constructor.
  - destruct (count_differs (count a) cnt) eqn:E.
    + unfold bind, console_error, emit, throw in H. discriminate.
    + constructor; [exact E | exact (IH H)].
Qed.

Lemma last_map_in :
  forall A B (f : A -> B) l d e,
    In e l -> exists e', In e' l /\ last (map f l) d = f e'.
Proof.
  intros A B f l. induction l as [|x l IH]; intros d e H; [inversion H|].
  change (map f (x :: l)) with (f x :: map f l). rewrite last_cons.
  destruct l as [|y l].
  - exists x. split; [left; reflexivity | reflexivity].
  - destruct (IH (f x) y (or_introl eq_refl)) as (e' & I & L).
    exists e'. split; [right; exact I | exact L].
Qed.

Lemma counts_agree_last :
  forall l d e,
    counts_agree l = true -> In e l ->
    num_strict_eq (element_count (snd e))
      (last (map (fun e => element_count (snd e)) l) d) = true.
Proof.
  intros l d e H I. unfold counts_agree in H. rewrite forallb_forall in H.
  destruct (last_map_in _ _ (fun e => element_count (snd e)) l d e I)
    as (e' & I' & ->).
  specialize (H e I). rewrite forallb_forall in H. exact (H e' I').
Qed.

Lemma uploaded_verified :
  forall l l' cnt,
    Forall2 uploaded l l' ->
    (forall e, In e l -> num_strict_eq (element_count (snd e)) cnt = true) ->
    Forall (fun e' => count_differs (count (snd e')) cnt = false) l'.
Proof.
  intros l l' cnt F. induction F as [|e e' l l' U F IH]; intros H.
  - constructor.
  - constructor.
    + destruct U as (_ & _ & _ & _ & U5). rewrite U5. simpl.
      rewrite (H e (or_introl eq_refl)). reflexivity.
    + apply IH. intros x Hx. apply H. right. exact Hx.
Qed.

Lemma uploaded_lookup :
  forall l l' k a,
    Forall2 uploaded l l' -> lookup k l = Some a ->
    exists a', lookup k l' = Some a' /\ count a' = Some (element_count a).
Proof.
  intros l l' k a F. induction F as [|[k0 b] [k0' b'] l l' U F IH]; simpl.
  - discriminate.
  - destruct U as (U1 & _ & _ & _ & U5). simpl in U1, U5. subst k0'.
    destruct (String.eqb k k0).
    + intros [= <-]. eauto.
    + exact IH.
Qed.

Lemma init_run :
  forall c (st : Store t),
    isInitialized (self st) = false ->
    supports c ("getParameter" :: upload_methods) = true ->
    counts_agree (attributes (self st)) = true ->
    exists st' evs,
      init (Some c) st = (Ok tt, st') /\
      isInitialized (self st') = true /\
      gl (self st') = Some c /\
      Forall2 uploaded (attributes (self st)) (attributes (self st')) /\
      index_initialized (index (self st)) (index (self st')) /\
      trace st' = trace st ++ evs /\
      calls "bufferData" evs =
        map attribute_upload (attributes (self st))
        ++ index_upload (index (self st)) /\
      List.length (calls "createBuffer" evs) =
        List.length (attributes (self st))
        + (if hasIndex (self st) then 1 else 0).
Proof.
  intros c st Hflag Hsup Hagree.
  assert (Hgp : has_method c "getParameter" = true)
    by (apply (supports_in _ _ _ Hsup); simpl; tauto).
  assert (Hup : supports c upload_methods = true)
    by (simpl in Hsup; apply andb_true_iff in Hsup; apply Hsup).
  unfold init. unfold bind at 1, get_this. cbv beta iota.
  simpl self. rewrite Hflag, Hgp. cbv beta iota. simpl (negb _). cbv iota.
  unfold bind at 1. unfold modify at 1. cbv beta iota.
  set (st0 := mkStore (set_gl (Some c) (self st)) (trace st) (document st)).
  destruct (init_upload_ok c Hup (attributes (self st)) [] (of_nat 0) st0)
    as (todo' & st1 & E & F & Hs); [reflexivity|].
  destruct (init_upload_trace c Hup (attributes (self st)) [] (of_nat 0) st0)
    as (r & st1' & evs & E' & T & B & C).
  rewrite E in E'. injection E' as <- <-.
  unfold bind at 1. rewrite E. cbv beta iota.
  unfold bind at 1, get_this. cbv beta iota.
  assert (Hattr : attributes (self st1) = todo') by (rewrite Hs; reflexivity).
  assert (Hidx : index (self st1) = index (self st)) by (rewrite Hs; reflexivity).
  rewrite Hattr.
  unfold bind at 1.
  rewrite init_verify_ok.
  2:{ apply (uploaded_verified _ _ _ F). intros e He.
      apply counts_agree_last; assumption. }
  rewrite Hidx. unfold hasIndex.
  destruct (index (self st)) as [ix|] eqn:Hix.
  - unfold bind at 1. unfold bind at 1. rewrite createIndex_ok by exact Hup.
    unfold bind, modify. simpl.
    eexists _, (evs ++ _). split; [reflexivity|]. simpl.
    rewrite Hs. simpl.
    split; [reflexivity|]. split; [reflexivity|]. split; [exact F|].
    split; [repeat split|]. split.
    + rewrite T. rewrite <- app_assoc. reflexivity.
    + unfold calls in *. rewrite !flat_map_app, length_app, B, C.
      split; reflexivity.
  - unfold bind, modify, ret. simpl.
    exists (mkStore (set_isInitialized true (self st1)) (trace st1) (document st1)), evs.
    split; [reflexivity|]. simpl. rewrite Hs. simpl. rewrite Hix.
    split; [reflexivity|]. split; [reflexivity|]. split; [exact F|].
    split; [exact I|]. split; [exact T|].
    rewrite B, C, app_nil_r, Nat.add_0_r. split; reflexivity.
Qed.

(** X8: on a geometry not yet initialised whose attributes all have the
    same count, with a context that has [getParameter] and the buffer
    calls, [init] returns normally: the geometry is initialised and bound to
    the context, every attribute keeps its name and data and carries its
    count, and the index carries the length of its array. *)
Theorem init_succeeds :
  forall (c : Context) (st : Store t),
    isInitialized (self st) = false ->
    supports c ("getParameter" :: upload_methods) = true ->
    counts_agree (attributes (self st)) = true ->
    let st' := snd (init (Some c) st) in
    fst (init (Some c) st) = Ok tt /\
    isInitialized (self st') = true /\
    gl (self st') = Some c /\
    Forall2 uploaded (attributes (self st)) (attributes (self st')) /\
    index_initialized (index (self st)) (index (self st')).
Proof.
  intros c st Hflag Hsup Hagree.
  destruct (init_run c st Hflag Hsup Hagree)
    as (st' & evs & E & H1 & H2 & H3 & H4 & _).
  rewrite E. simpl. auto.
Qed.

Lemma init_succeeds_witness :
  let st' := snd (init (Some (webgl2 0 4)) (store quad)) in
  fst (init (Some (webgl2 0 4)) (store quad)) = Ok tt /\
  isInitialized (self st') = true /\
  gl (self st') = Some (webgl2 0 4) /\
  Forall2 uploaded (attributes (self (store quad))) (attributes (self st')) /\
  index_initialized (index (self (store quad))) (index (self st')).
Proof.
  exact (init_succeeds (webgl2 0 4) (store quad) eq_refl eq_refl eq_refl).
Defined.

(** X9: under the same conditions [init] creates one buffer per attribute
    and one for the index, and uploads each attribute's array as a
    Float32Array in the order the attributes were added, then the index as
    a Uint16Array (entries modulo 2^16) to ELEMENT_ARRAY_BUFFER, all with
    STATIC_DRAW. *)
Theorem init_uploads :
  forall (c : Context) (st : Store t),
    isInitialized (self st) = false ->
    supports c ("getParameter" :: upload_methods) = true ->
    counts_agree (attributes (self st)) = true ->
    let evs := emitted st (snd (init (Some c) st)) in
    calls "bufferData" evs =
      map attribute_upload (attributes (self st))
      ++ index_upload (index (self st)) /\
    List.length (calls "createBuffer" evs) =
      List.length (attributes (self st))
      + (if hasIndex (self st) then 1 else 0).
Proof.
  intros c st Hflag Hsup Hagree.
  destruct (init_run c st Hflag Hsup Hagree)
    as (st' & evs & E & _ & _ & _ & _ & T & B & C).
  rewrite E. simpl. rewrite (emitted_app _ _ _ _ T). auto.
Qed.

Lemma init_uploads_witness :
  let evs := emitted (store quad) (snd (init (Some (webgl2 0 4)) (store quad))) in
  calls "bufferData" evs =
    [[VEnum "ARRAY_BUFFER";
      VFloat32Array [-(1#10); -(1#2); 0; -(1#10); (1#2); 0;
                     -(8#10); -(1#2); 0; -(8#10); (1#2); 0]%Q;
      VEnum "STATIC_DRAW"];
     [VEnum "ELEMENT_ARRAY_BUFFER"; VUint16Array [0; 1; 2; 2; 1; 3]%Z;
      VEnum "STATIC_DRAW"]] /\
  List.length (calls "createBuffer" evs) = 2.
Proof.
  exact (init_uploads (webgl2 0 4) (store quad) eq_refl eq_refl eq_refl).
Defined.

Lemma init_ok_verified :
  forall _gl (st st' : Store t),
    isInitialized (self st) = false ->
    init _gl st = (Ok tt, st') ->
    exists cnt,
      Forall (fun e => count_differs (count (snd e)) cnt = false)
             (attributes (self st')).
Proof.
  intros _gl st st' Hflag H.
  unfold init in H. unfold bind at 1, get_this in H. cbv beta iota in H.
  simpl self in H. rewrite Hflag in H. simpl (negb _) in H. cbv iota in H.
  destruct _gl as [c|]; [|discriminate].
  destruct (has_method c "getParameter"); simpl (negb _) in H; cbv iota in H;
    [|unfold bind, console_error, emit, throw in H; discriminate].
  unfold bind at 1 in H. unfold modify at 1 in H. cbv beta iota in H.
  invert_bind H; [discriminate|].
  unfold bind at 1, get_this in H. cbv beta iota in H.
  invert_bind H; [discriminate|].
  destruct (preserves_run _ _ _ _ _ _ _ _ (init_verify_self _ _) E0)
    as (Hs1 & _).
  destruct a0. apply init_verify_ok_inv in E0.
  exists a.
  invert_bind H; [discriminate|].
  unfold modify in H. inversion H; subst st'. simpl.
  destruct (index (self st0)) as [ix|] eqn:Hix.
  - invert_bind E1; [discriminate|].
    destruct (preserves_run _ _ _ _ _ _ _ _ (createIndex_self _ _) E2)
      as (Hs2 & _).
    unfold bind, modify in E1. inversion E1; subst st2. simpl. congruence.
  - inversion E1; subst st2. congruence.
Qed.

(** X10: whenever [init] initialises a geometry, all its attributes carry
    a recorded count and any two of them are equal: a geometry is never
    marked initialised with attributes of different counts. *)
Theorem init_ok_counts_agree :
  forall (_gl : option Context) (st : Store t),
    isInitialized (self st) = false ->
    fst (init _gl st) = Ok tt ->
    recorded_counts_agree (attributes (self (snd (init _gl st)))) = true.
Proof.
  intros _gl st Hflag. destruct (init _gl st) as [r st'] eqn:E. simpl.
  intros ->. destruct (init_ok_verified _ _ _ Hflag E) as (cnt & F).
  rewrite Forall_forall in F.
  unfold recorded_counts_agree. apply forallb_forall. intros e He.
  apply forallb_forall. intros e' He'.
  assert (H := F e He). assert (H' := F e' He'). unfold count_differs in H, H'.
  destruct (count (snd e)) as [n|]; [|discriminate].
  destruct (count (snd e')) as [n'|]; [|discriminate].
  apply negb_false_iff in H, H'. exact (num_strict_eq_trans _ _ _ H H').
Qed.

Lemma init_ok_counts_agree_witness :
  recorded_counts_agree
    (attributes (self (snd (init (Some (webgl2 0 4)) (store triangle))))) = true.
Proof.
  exact (init_ok_counts_agree (Some (webgl2 0 4)) (store triangle)
           eq_refl eq_refl).
Defined.

Lemma supports_incl :
  forall c ms ms',
    supports c ms = true -> incl ms' ms -> supports c ms' = true.
Proof.
  intros c ms ms' H I. unfold supports in *. rewrite forallb_forall in *.
  intros m Hm. apply H, I, Hm.
Qed.

(** X11: the first [draw] with a context does the initialisation: on a
    geometry not yet initialised whose attributes all have the same count,
    with a context that has [getParameter], the buffer calls and the draw
    calls, [draw(gl)] returns normally having issued exactly one draw call,
    [drawElements] over the length of the index when there is one,
    otherwise [drawArrays] over the count of [position]. *)
Theorem first_draw_initialises_and_draws :
  forall (c : Context) (st : Store t),
    isInitialized (self st) = false ->
    supports c ("getParameter" :: upload_methods ++ draw_methods) = true ->
    counts_agree (attributes (self st)) = true ->
    (forall ix,
        index (self st) = Some ix ->
        fst (draw (Some c) st) = Ok tt /\
        filter is_draw_call (emitted st (snd (draw (Some c) st))) =
        [GL (ctx_id c) "drawElements"
            [VEnum "TRIANGLES"; VNat (List.length (index_array ix));
             VEnum "UNSIGNED_SHORT"; VNat 0]]) /\
    (forall position,
        index (self st) = None ->
        lookup "position" (attributes (self st)) = Some position ->
        fst (draw (Some c) st) = Ok tt /\
        filter is_draw_call (emitted st (snd (draw (Some c) st))) =
        [GL (ctx_id c) "drawArrays"
            [VEnum "TRIANGLES"; VNat 0; VNumber (element_count position)]]).
Proof.
  intros c st Hflag Hsup Hagree.
  assert (Hinit : supports c ("getParameter" :: upload_methods) = true).
  { apply (supports_incl _ _ _ Hsup). intros m Hm. simpl in *. tauto. }
  assert (Hc : supports c draw_methods = true).
  { apply (supports_incl _ _ _ Hsup). intros m Hm. simpl in *. tauto. }
  assert (Hbb : has_method c "bindBuffer" = true)
    by (apply (supports_in _ _ _ Hc); simpl; tauto).
  assert (Hde : has_method c "drawElements" = true)
    by (apply (supports_in _ _ _ Hc); simpl; tauto).
  assert (Hda : has_method c "drawArrays" = true)
    by (apply (supports_in _ _ _ Hc); simpl; tauto).
  destruct (init_run c st Hflag Hinit Hagree)
    as (st' & evs & E & Hi & Hg & F & Hidx & T & _).
  assert (N := init_no_draw_call (Some c) st). rewrite E in N. simpl in N.
  rewrite (emitted_app _ _ _ _ T) in N.
  assert (D : draw (Some c) st = draw None st').
  { unfold draw. unfold bind at 1. rewrite E. reflexivity. }
  rewrite D.
  destruct (run_op_bound c (OpDraw None) st' Hi Hg) as (_ & _ & e2 & T2 & _).
  cbn [run_op] in T2.
  destruct (emitted_trans _ st st' _ evs e2 T T2) as (Et & _ & E2).
  rewrite Et, filter_app, N. simpl. rewrite <- E2.
  split.
  - intros ix Hix. rewrite Hix in Hidx. unfold index_initialized in Hidx.
    destruct (index (self st')) as [ix'|] eqn:Hix'; [|contradiction].
    destruct Hidx as (_ & _ & Hcnt).
    apply (draw_one_call c None st'
             [GL (ctx_id c) "bindBuffer"
                 [VEnum "ELEMENT_ARRAY_BUFFER"; index_buffer ix']]);
      auto.
    + repeat constructor.
    + intros st1 Hs. unfold draw_dispatch. rewrite Hix', Hg, Hcnt.
      unfold bind, invoke, ret. rewrite Hbb, Hde.
      simpl. rewrite <- app_assoc. reflexivity.
  - intros position Hix Hpos. rewrite Hix in Hidx. unfold index_initialized in Hidx.
    destruct (index (self st')) as [ix'|] eqn:Hix'; [contradiction|].
    destruct (uploaded_lookup _ _ _ _ F Hpos) as (p' & Hp' & Hcnt).
    apply (draw_one_call c None st' []); auto.
    intros st1 Hs. unfold draw_dispatch. rewrite Hix', Hp', Hg, Hcnt.
    unfold bind, invoke, ret. rewrite Hda. reflexivity.
Qed.

Lemma first_draw_initialises_and_draws_witness :
  (fst (draw (Some (webgl2 0 4)) (store quad)) = Ok tt /\
   filter is_draw_call
     (emitted (store quad) (snd (draw (Some (webgl2 0 4)) (store quad)))) =
   [GL 0 "drawElements"
       [VEnum "TRIANGLES"; VNat 6; VEnum "UNSIGNED_SHORT"; VNat 0]]) /\
  (fst (draw (Some (webgl2 0 4)) (store triangle)) = Ok tt /\
   filter is_draw_call
     (emitted (store triangle)
        (snd (draw (Some (webgl2 0 4)) (store triangle)))) =
   [GL 0 "drawArrays" [VEnum "TRIANGLES"; VNat 0; VNat 3]]).
Proof.
  split.
  - exact (proj1 (first_draw_initialises_and_draws (webgl2 0 4) (store quad)
                    eq_refl eq_refl eq_refl)
             (mkIndex [0; 1; 2; 2; 1; 3]%Z (Some 1) VUndefined None) eq_refl).
  - exact (proj2 (first_draw_initialises_and_draws (webgl2 0 4)
                    (store triangle) eq_refl eq_refl eq_refl)
             (mkAttribute [(1#2); 1; 0; 0; 0; 0; 1; (3#10); 0]%Q 3 None
                          VUndefined None)
             eq_refl eq_refl).
Defined.

(** ** The vertex-attribute slots *)

Lemma runs_bind_eq :
  forall S A B X (obs : Event -> list X) l l1 l2 (Q1 : A -> Prop)
         (Q2 : B -> Prop) (c : M S A) (k : A -> M S B),
    runs obs l1 Q1 c -> (forall a, Q1 a -> runs obs l2 Q2 (k a)) ->
    l = l1 ++ l2 ->
    runs obs l Q2 (bind c k).
Proof. intros. subst l. eapply runs_bind; eauto. Qed.

Ltac runs_invokes has :=
  first
    [ apply runs_ret; exact I
    | eapply runs_bind_eq;
      [ eapply runs_invoke; has
      | intros ? _; runs_invokes has
      | reflexivity ] ].

Lemma useBuffer_runs :
  forall c, supports c draw_methods = true ->
  forall buffer sz location nrm,
    @runs t unit _ slot_event
      [Enabled [VNat (match location with Some l => l | None => 0 end)]]
      (fun _ => True) (useBuffer (Some c) buffer sz location nrm).
Proof.
  intros c Hc buffer sz location nrm. unfold useBuffer. cbv zeta.
  runs_invokes ltac:(apply (supports_in _ _ _ Hc); simpl; tauto).
Qed.

Lemma disableBuffer_runs :
  forall c, supports c draw_methods = true ->
  forall location,
    @runs t unit _ slot_event [Disabled [opt_nat location]]
      (fun _ => True) (disableBuffer (Some c) location).
Proof.
  intros c Hc location. unfold disableBuffer.
  runs_invokes ltac:(apply (supports_in _ _ _ Hc); simpl; tauto).
Qed.

Lemma draw_bind_runs :
  forall c, supports c draw_methods = true ->
  forall todo,
    @runs t unit _ slot_event
      (map (fun e => Enabled [VNat (slot_of (fst e))]) todo)
      (fun _ => True) (draw_bind (Some c) todo).
Proof.
  intros c Hc todo. induction todo as [|[key a] rest IH]; simpl.
  - apply runs_ret. exact I.
  - eapply runs_bind_eq;
      [apply (useBuffer_runs c Hc) | intros ? _; exact IH | reflexivity].
Qed.

Lemma draw_disable_runs :
  forall c, supports c draw_methods = true ->
  forall todo,
    @runs t unit _ slot_event
      (map (fun e => Disabled [opt_nat (getAttribLocation (fst e))]) todo)
      (fun _ => True) (draw_disable (Some c) todo).
Proof.
  intros c Hc todo. induction todo as [|[key a] rest IH]; simpl.
  - apply runs_ret. exact I.
  - eapply runs_bind_eq;
      [apply (disableBuffer_runs c Hc) | intros ? _; exact IH | reflexivity].
Qed.

Lemma draw_dispatch_runs :
  forall c g,
    supports c draw_methods = true -> gl g = Some c -> drawable g = true ->
    @runs t unit _ slot_event
      [Drawn (if hasIndex g then "drawElements" else "drawArrays")]
      (fun _ => True) (draw_dispatch g).
Proof.
  intros c g Hc Hg Hd. unfold draw_dispatch, drawable, hasIndex in *.
  rewrite Hg. destruct (index g) as [ix|].
  - runs_invokes ltac:(apply (supports_in _ _ _ Hc); simpl; tauto).
  - destruct (lookup "position" (attributes g)); [|discriminate].
    runs_invokes ltac:(apply (supports_in _ _ _ Hc); simpl; tauto).
Qed.

(** X12: a successful [draw] enables the slot of every attribute, in the
    order of the table, then issues its draw call, and only then disables
    the same slots in the same order; no other slot is enabled or disabled
    and nothing else is drawn.  The slot depends on the name alone:
    position is slot 0, color and normal are both slot 1, uv is slot 2. *)
Theorem draw_slots_balanced :
  forall (c : Context) (_gl : option Context) (st : Store t),
    isInitialized (self st) = true ->
    gl (self st) = Some c ->
    supports c draw_methods = true ->
    drawable (self st) = true ->
    forallb (fun e => known_attribute (fst e)) (attributes (self st)) = true ->
    fst (draw _gl st) = Ok tt /\
    flat_map slot_event (emitted st (snd (draw _gl st))) =
    map (fun e => Enabled [VNat (slot_of (fst e))]) (attributes (self st))
    ++ [Drawn (if hasIndex (self st) then "drawElements" else "drawArrays")]
    ++ map (fun e => Disabled [VNat (slot_of (fst e))]) (attributes (self st)) /\
    slot_of "position" = 0 /\ slot_of "color" = 1 /\
    slot_of "normal" = 1 /\ slot_of "uv" = 2.
Proof.
  intros c _gl st Hi Hg Hc Hd Hk.
  rewrite (draw_initialized _ _ Hi), Hg.
  match goal with
  | |- fst (?m st) = _ /\ _ =>
      assert (R : runs slot_event
                   (map (fun e => Enabled [VNat (slot_of (fst e))])
                        (attributes (self st))
                    ++ [Drawn (if hasIndex (self st)
                               then "drawElements" else "drawArrays")]
                    ++ map (fun e => Disabled [opt_nat (getAttribLocation (fst e))])
                        (attributes (self st)))
                   (fun _ => True) m)
  end.
  { eapply runs_bind_eq; [apply (draw_bind_runs c Hc) | intros ? _ |].
    - eapply runs_bind_eq;
        [apply (draw_dispatch_runs c _ Hc Hg Hd)
        | intros ? _; apply (draw_disable_runs c Hc) | reflexivity].
    - reflexivity. }
  destruct (runs_at _ _ _ _ _ _ _ st R) as ([] & st' & E & _ & _ & F).
  rewrite E. simpl fst. simpl snd. split; [reflexivity|].
  split; [|repeat split].
  rewrite F. do 2 f_equal.
  apply map_ext_in. intros e He.
  rewrite forallb_forall in Hk. specialize (Hk e He).
  destruct (getAttribLocation_known _ Hk) as (n & Hn).
  unfold slot_of. rewrite Hn. reflexivity.
Qed.

Lemma draw_slots_balanced_witness :
  let st := snd (init (Some (webgl2 0 4)) (store triangle)) in
  fst (draw None st) = Ok tt /\
  flat_map slot_event (emitted st (snd (draw None st))) =
  [Enabled [VNat 0]; Enabled [VNat 1]; Drawn "drawArrays";
   Disabled [VNat 0]; Disabled [VNat 1]].
Proof.
  pose proof (draw_slots_balanced (webgl2 0 4) None
                (snd (init (Some (webgl2 0 4)) (store triangle)))
                eq_refl eq_refl eq_refl eq_refl eq_refl) as H.
  split; [exact (proj1 H) | exact (proj1 (proj2 H))].
Defined.

End AttributeTable.

(** ** Compiling and linking *)

Section ShaderFacts.

Import ShaderHelper.

Variable c : Context.
Hypothesis capable : supports c program_methods = true.

Ltac has_program_method :=
  apply (supports_in _ _ _ capable);
  unfold program_methods, shader_methods; simpl; tauto.

Ltac runs_steps :=
  cbv zeta;
  first
    [ apply runs_ret; exact I
    | eapply runs_bind_eq;
      [ first [ eapply runs_invoke; has_program_method
              | apply runs_emit
              | apply runs_getElementById ]
      | intros ? _; runs_steps
      | simpl; reflexivity ] ].

(** What [loadShader] does, by the compile status the context reports. *)
Lemma loadShader_eval :
  forall S (st : Store S) (src : string) (ty : JsValue) (tys : option string),
    let shader := ctx_answer c (trace st) "createShader" [ty] in
    let pre :=
      [GL (ctx_id c) "createShader" [ty];
       GL (ctx_id c) "shaderSource" [shader; VString src];
       GL (ctx_id c) "compileShader" [shader]] in
    let query := GL (ctx_id c) "getShaderParameter" [shader; COMPILE_STATUS] in
    let compiled :=
      ctx_answer c (trace st ++ pre) "getShaderParameter"
                 [shader; COMPILE_STATUS] in
    let lastError :=
      ctx_answer c (trace st ++ pre ++ [query]) "getShaderInfoLog" [shader] in
    loadShader (Some c) src ty tys st =
    if truthy compiled then
      (Ok shader,
       mkStore (self st) (trace st ++ pre ++ [query]) (document st))
    else
      (Ok VNull,
       mkStore (self st)
         (trace st ++ pre ++
          [query;
           GL (ctx_id c) "getShaderInfoLog" [shader];
           Console LError
             [VString "Error compiling ";
              VString (match tys with Some s => s | None => "" end);
              VString " shader ("; ty; VString "): "; lastError];
           GL (ctx_id c) "deleteShader" [shader]])
         (document st)).
Proof.
  intros S st src ty tys shader pre query compiled lastError.
  assert (H1 : has_method c "createShader" = true) by has_program_method.
  assert (H2 : has_method c "shaderSource" = true) by has_program_method.
  assert (H3 : has_method c "compileShader" = true) by has_program_method.
  assert (H4 : has_method c "getShaderParameter" = true) by has_program_method.
  assert (H5 : has_method c "getShaderInfoLog" = true) by has_program_method.
  assert (H6 : has_method c "deleteShader" = true) by has_program_method.
  subst shader pre query compiled lastError.
  unfold loadShader, bind, invoke. rewrite H1, H2, H3, H4.
  cbn [self trace document]. rewrite <- !app_assoc. simpl.
  match goal with |- context [truthy ?x] => destruct (truthy x) end; simpl.
  - reflexivity.
  - rewrite H5. unfold console_error, emit. simpl.
    rewrite H6. unfold ret. simpl.
    rewrite <- !app_assoc. reflexivity.
Qed.

(** X13: [loadShader] returns the shader it created when the context
    reports it compiled, and deletes nothing; when the context reports a
    failure it logs one error, deletes that shader, once, and returns
    null. *)
Theorem loadShader_failure_releases :
  forall (S : Type) (st : Store S) (src : string) (ty : JsValue)
         (tys : option string),
    let shader := ctx_answer c (trace st) "createShader" [ty] in
    let compiled :=
      ctx_answer c
        (trace st ++
         [GL (ctx_id c) "createShader" [ty];
          GL (ctx_id c) "shaderSource" [shader; VString src];
          GL (ctx_id c) "compileShader" [shader]])
        "getShaderParameter" [shader; COMPILE_STATUS] in
    let r := loadShader (Some c) src ty tys st in
    fst r = Ok (if truthy compiled then shader else VNull) /\
    calls "deleteShader" (emitted st (snd r))
      = (if truthy compiled then [] else [[shader]]) /\
    List.length (filter is_console (emitted st (snd r)))
      = (if truthy compiled then 0 else 1) /\
    calls "createShader" (emitted st (snd r)) = [[ty]].
Proof.
  intros S st src ty tys shader compiled r. unfold r.
  rewrite loadShader_eval. fold shader. fold compiled.
  destruct (truthy compiled); simpl;
    (erewrite emitted_app; [|reflexivity]); repeat split; reflexivity.
Qed.

Lemma loadShader_runs_same :
  forall S X (obs : Event -> list X) src ty tys l,
    (forall shader status message,
        flat_map obs
          [GL (ctx_id c) "createShader" [ty];
           GL (ctx_id c) "shaderSource" [shader; VString src];
           GL (ctx_id c) "compileShader" [shader];
           GL (ctx_id c) "getShaderParameter" [shader; status]] = l /\
        flat_map obs
          [GL (ctx_id c) "createShader" [ty];
           GL (ctx_id c) "shaderSource" [shader; VString src];
           GL (ctx_id c) "compileShader" [shader];
           GL (ctx_id c) "getShaderParameter" [shader; status];
           GL (ctx_id c) "getShaderInfoLog" [shader];
           Console LError message;
           GL (ctx_id c) "deleteShader" [shader]] = l) ->
    @runs S _ X obs l (fun _ => True) (loadShader (Some c) src ty tys).
Proof.
  intros S X obs src ty tys l H st. rewrite loadShader_eval.
  match goal with |- context [truthy ?x] => destruct (truthy x) end;
    eexists _, _; (split; [reflexivity|]); (split; [exact I|]).
  - apply (H _ _ []).
  - apply H.
Qed.

Lemma deleteShaders_runs :
  forall S X (obs : Event -> list X) (x : list X) rs,
    (forall args, obs (GL (ctx_id c) "deleteShader" args) = x) ->
    @runs S _ X obs (List.concat (repeat x (List.length rs)))
      (fun _ => True) (deleteShaders (Some c) rs).
Proof.
  intros S X obs x rs H. induction rs as [|sh rs IH]; simpl.
  - apply runs_ret. exact I.
  - eapply runs_bind_eq;
      [eapply runs_invoke; has_program_method
      | intros ? _; exact IH | rewrite H; reflexivity].
Qed.

(** The loop of [createProgram], for an observer that sees [per ty] in
    the compilation of a stage of kind [ty], whatever its outcome. *)
Lemma compile_stages_runs :
  forall S X (obs : Event -> list X) (per : JsValue -> list X),
    (forall src ty tys,
        @runs S _ X obs (per ty) (fun _ => True)
          (loadShader (Some c) src ty tys)) ->
    forall shaders ndx acc,
      @runs S _ X obs
        (flat_map (fun k => per (hd VUndefined k)) (stage_kinds ndx shaders))
        (fun rs => List.length rs = List.length acc + count_sources shaders)
        (compile_stages (Some c) ndx shaders acc).
Proof.
  intros S X obs per Hload shaders.
  induction shaders as [|sh rest IH]; intros ndx acc.
  - simpl. apply runs_ret. lia.
  - destruct sh; try exact (IH (ndx + 1) acc).
    simpl.
    eapply runs_bind_eq; [apply runs_getElementById | intros elem _ | reflexivity].
    eapply runs_bind_eq; [apply Hload | intros shader _ | reflexivity].
    eapply runs_weaken; [|apply IH].
    intros rs H. rewrite H, length_app. simpl. lia.
Qed.

Lemma attach_all_runs_gen :
  forall S X (obs : Event -> list X) (x : list X) program rs,
    (forall args, obs (GL (ctx_id c) "attachShader" args) = x) ->
    @runs S _ X obs (List.concat (repeat x (List.length rs)))
      (fun _ => True) (attach_all (Some c) program rs).
Proof.
  intros S X obs x program rs H. induction rs as [|sh rs IH]; simpl.
  - apply runs_ret. exact I.
  - eapply runs_bind_eq;
      [eapply runs_invoke; has_program_method
      | intros ? _; exact IH | rewrite H; reflexivity].
Qed.

(** [createProgram], for an observer that sees [per ty] in the compilation
    of a stage, [xa] in an attachment, [xp] and [xd] in the release of the
    program and of a stage, and nothing else; [linked] is the status the
    context reports, when it always reports the same. *)
Lemma createProgram_runs :
  forall S X (obs : Event -> list X) (per : JsValue -> list X)
         (xa xp xd : list X) (linked : option bool),
    (forall src ty tys,
        @runs S _ X obs (per ty) (fun _ => True)
          (loadShader (Some c) src ty tys)) ->
    (forall args, obs (GL (ctx_id c) "attachShader" args) = xa) ->
    (forall args, obs (GL (ctx_id c) "deleteProgram" args) = xp) ->
    (forall args, obs (GL (ctx_id c) "deleteShader" args) = xd) ->
    (forall m args, In m link_methods -> obs (GL (ctx_id c) m args) = []) ->
    (forall l p, obs (Console l p) = []) ->
    match linked with
    | Some b => link_status_is b c
    | None => xp = [] /\ xd = []
    end ->
    forall shaders,
      @runs S _ X obs
        (flat_map (fun k => per (hd VUndefined k)) (stage_kinds 0 shaders)
         ++ List.concat (repeat xa (count_sources shaders))
         ++ match linked with
            | Some true | None => []
            | Some false =>
                xp ++ List.concat (repeat xd (count_sources shaders))
            end)
        (fun v => match linked with
                  | Some false => v = VNull
                  | _ => True
                  end)
        (createProgram (Some c) shaders).
Proof.
  intros S X obs per xa xp xd linked Hload Ha Hp Hd Hq Hcon Hlink shaders.
  assert (Z : forall n, List.concat (repeat (@nil X) n) = [])
    by (intros n; induction n; simpl; auto).
  assert (Fail :
    forall (Q : JsValue -> Prop) program rs, Q VNull ->
      @runs S _ X obs (xp ++ List.concat (repeat xd (List.length rs))) Q
        (lastError <- invoke (Some c) "getProgramInfoLog" [program] ;;
         console_error [VString "Error in program linking: "; lastError] ;;
         invoke (Some c) "deleteProgram" [program] ;;
         deleteShaders (Some c) rs ;;
         ret VNull)).
  { intros Q program rs HQ.
    eapply runs_bind_eq;
      [eapply runs_invoke; has_program_method | intros ? _
      | rewrite Hq by (simpl; tauto); reflexivity].
    eapply runs_bind_eq;
      [apply runs_emit | intros ? _ | rewrite Hcon; reflexivity].
    eapply runs_bind_eq;
      [eapply runs_invoke; has_program_method | intros ? _
      | rewrite Hp; reflexivity].
    eapply runs_bind_eq;
      [apply (deleteShaders_runs _ _ obs xd _ Hd) | intros ? _
      | rewrite app_nil_r; reflexivity].
    apply runs_ret. exact HQ. }
  unfold createProgram.
  eapply runs_bind_eq;
    [apply (compile_stages_runs _ _ obs per Hload shaders 0 [])
    | intros rs Hrs | reflexivity].
  simpl in Hrs. rewrite <- Hrs.
  set (tail := match linked with
               | Some true | None => []
               | Some false => xp ++ List.concat (repeat xd (List.length rs))
               end).
  eapply runs_bind_eq
    with (l2 := List.concat (repeat xa (List.length rs)) ++ tail);
    [eapply runs_invoke; has_program_method
    | intros program _ | rewrite Hq by (simpl; tauto); reflexivity].
  eapply runs_bind_eq with (l2 := tail);
    [apply (attach_all_runs_gen _ _ obs xa _ _ Ha) | intros ? _ | reflexivity].
  eapply runs_bind_eq with (l2 := tail);
    [eapply runs_invoke; has_program_method
    | intros ? _ | rewrite Hq by (simpl; tauto); reflexivity].
  eapply runs_bind_eq with (l2 := tail);
    [eapply runs_invoke; has_program_method
    | intros status [tr ->] | rewrite Hq by (simpl; tauto); reflexivity].
  unfold tail. destruct linked as [[|]|].
  - rewrite Hlink. simpl. apply runs_ret. exact I.
  - rewrite Hlink. simpl. apply Fail. reflexivity.
  - destruct Hlink as [-> ->].
    destruct (truthy _); simpl; [apply runs_ret; exact I|].
    assert (F := Fail (fun _ => True) program rs I). rewrite Z in F. exact F.
Qed.

Lemma concat_repeat_nil :
  forall X n, List.concat (repeat (@nil X) n) = [].
Proof. intros X n. induction n; simpl; auto. Qed.

Lemma stage_kinds_singletons :
  forall shaders ndx,
    flat_map (fun k => [[hd VUndefined k]]) (stage_kinds ndx shaders)
    = stage_kinds ndx shaders.
Proof.
  induction shaders as [|sh rest IH]; intros ndx; [reflexivity|].
  destruct sh; simpl; rewrite ?IH; reflexivity.
Qed.

(** *** When every stage compiles *)

Lemma answers_app :
  forall m evs1 evs2 tr,
    answers c m tr (evs1 ++ evs2)
    = answers c m tr evs1 ++ answers c m (tr ++ evs1) evs2.
Proof.
  intros m evs1. induction evs1 as [|e evs1 IH]; intros evs2 tr; simpl.
  - rewrite app_nil_r. reflexivity.
  - rewrite IH, <- !app_assoc. reflexivity.
Qed.

Lemma answers_quiet :
  forall m evs tr,
    Forall (fun e => calls_of m e = []) evs -> answers c m tr evs = [].
Proof.
  intros m evs tr H. revert tr.
  induction H as [|e evs He _ IH]; intros tr; simpl; [reflexivity|].
  rewrite IH, app_nil_r. destruct e as [id m' args|]; [|reflexivity].
  simpl in He. destruct (String.eqb m' m); [discriminate|].
  rewrite andb_false_r. reflexivity.
Qed.

Lemma flat_map_map_one :
  forall X Y Z (f : Y -> list Z) (g : X -> Y) (h : X -> Z) l,
    (forall x, f (g x) = [h x]) -> flat_map f (map g l) = map h l.
Proof.
  intros X Y Z f g h l H. induction l as [|x l IH]; simpl; [reflexivity|].
  rewrite H, IH. reflexivity.
Qed.

Lemma flat_map_map_none :
  forall X Y Z (f : Y -> list Z) (g : X -> Y) l,
    (forall x, f (g x) = []) -> flat_map f (map g l) = [].
Proof.
  intros X Y Z f g l H. induction l as [|x l IH]; simpl; [reflexivity|].
  rewrite H, IH. reflexivity.
Qed.

Lemma flat_map_quiet :
  forall X Y (f : X -> list Y) l,
    Forall (fun x => f x = []) l -> flat_map f l = [].
Proof.
  intros X Y f l H. induction H as [|x l Hx _ IH]; simpl; [reflexivity|].
  rewrite Hx, IH. reflexivity.
Qed.

Lemma attach_all_eval :
  forall S program rs (st : Store S),
    attach_all (Some c) program rs st =
    (Ok tt,
     mkStore (self st)
       (trace st ++ map (fun s => GL (ctx_id c) "attachShader" [program; s]) rs)
       (document st)).
Proof.
  assert (H : has_method c "attachShader" = true) by has_program_method.
  intros S program rs. induction rs as [|s rs IH]; intros st; simpl.
  - rewrite app_nil_r. destruct st. reflexivity.
  - unfold bind, invoke. rewrite H, IH. simpl.
    rewrite <- app_assoc. reflexivity.
Qed.

Lemma deleteShaders_eval :
  forall S rs (st : Store S),
    deleteShaders (Some c) rs st =
    (Ok tt,
     mkStore (self st)
       (trace st ++ map (fun s => GL (ctx_id c) "deleteShader" [s]) rs)
       (document st)).
Proof.
  assert (H : has_method c "deleteShader" = true) by has_program_method.
  intros S rs. induction rs as [|s rs IH]; intros st; simpl.
  - rewrite app_nil_r. destruct st. reflexivity.
  - unfold bind, invoke. rewrite H, IH. simpl.
    rewrite <- app_assoc. reflexivity.
Qed.

(** The loop of [createProgram] when every compilation is reported as a
    success: the array it builds holds the shaders the context created. *)
Lemma compile_stages_compiled :
  compile_status_is true c ->
  forall S shaders ndx acc (st : Store S),
    exists evs,
      compile_stages (Some c) ndx shaders acc st =
        (Ok (acc ++ answers c "createShader" (trace st) evs),
         mkStore (self st) (trace st ++ evs) (document st)) /\
      List.length (answers c "createShader" (trace st) evs)
        = count_sources shaders /\
      calls "createShader" evs = stage_kinds ndx shaders /\
      calls "shaderSource" evs =
        map (fun x => [fst x; VString (snd x)])
            (combine (answers c "createShader" (trace st) evs)
                     (stage_sources (document st) shaders)) /\
      Forall (fun e => compile_event e = true) evs.
Proof.
  intros Hcomp S shaders.
  induction shaders as [|sh rest IH]; intros ndx acc st.
  - exists []. simpl. rewrite !app_nil_r. destruct st.
    repeat split; constructor.
  - destruct sh as [| |b|n|id|el|fl|ul|h|en|ct pr];
      try exact (IH (ndx + 1) acc st).
    simpl compile_stages.
    unfold bind at 1, getElementById. cbv beta iota zeta.
    unfold bind at 1. rewrite loadShader_eval. rewrite Hcomp. cbv beta iota.
    set (ty := match nth_error defaultShaderType ndx with
               | Some n => VEnum n
               | None => VUndefined
               end).
    set (src := match document st id with Some text => text | None => id end).
    set (shader := ctx_answer c (trace st) "createShader" [ty]).
    set (four := [GL (ctx_id c) "createShader" [ty];
                  GL (ctx_id c) "shaderSource" [shader; VString src];
                  GL (ctx_id c) "compileShader" [shader]]
                 ++ [GL (ctx_id c) "getShaderParameter"
                        [shader; COMPILE_STATUS]]).
    destruct (IH (ndx + 1) (acc ++ [shader])
                 (mkStore (self st) (trace st ++ four) (document st)))
      as (evs & E & L & K & Src & Q).
    rewrite E. cbn [self trace document] in *.
    assert (A4 : answers c "createShader" (trace st) four = [shader]).
    { unfold four. simpl. rewrite Nat.eqb_refl. reflexivity. }
    exists (four ++ evs).
    rewrite (answers_app _ four evs), A4.
    split; [rewrite <- !app_assoc; reflexivity|].
    split; [simpl; rewrite L; reflexivity|].
    split; [unfold calls in *; rewrite flat_map_app, K; reflexivity|].
    split.
    + unfold calls in *. rewrite flat_map_app, Src. reflexivity.
    + apply Forall_app. split; [repeat constructor | exact Q].
Qed.

Lemma compile_event_quiet :
  forall e,
    compile_event e = true ->
    link_step e = [] /\ release e = [] /\
    calls_of "attachShader" e = [] /\ calls_of "createProgram" e = [].
Proof.
  intros [id m args|l p] H; simpl in H; [|discriminate].
  repeat (apply orb_true_iff in H; destruct H as [H|H]);
    try discriminate; apply String.eqb_eq in H; subst m;
    repeat split; reflexivity.
Qed.

Ltac quiet_events b :=
  repeat first
    [ apply Forall_nil
    | apply Forall_cons; [reflexivity|]
    | apply Forall_app; split
    | apply Forall_map, Forall_forall; intros; reflexivity
    | destruct b ].

(** [createProgram] when every compilation is reported as a success;
    [linked] is what the context reports of the link. *)
Lemma createProgram_compiled :
  compile_status_is true c ->
  forall S shaders (st : Store S),
    exists (evs : list Event) (p : JsValue) (linked : bool),
      createProgram (Some c) shaders st =
        (Ok (if linked then p else VNull),
         mkStore (self st) (trace st ++ evs) (document st)) /\
      (forall b, link_status_is b c -> linked = b) /\
      answers c "createProgram" (trace st) evs = [p] /\
      List.length (answers c "createShader" (trace st) evs)
        = count_sources shaders /\
      calls "createShader" evs = stage_kinds 0 shaders /\
      calls "shaderSource" evs =
        map (fun x => [fst x; VString (snd x)])
            (combine (answers c "createShader" (trace st) evs)
                     (stage_sources (document st) shaders)) /\
      flat_map link_step evs =
        ("createProgram", [])
        :: map (fun s => ("attachShader", [p; s]))
               (answers c "createShader" (trace st) evs)
        ++ [("linkProgram", [p])] /\
      flat_map release evs =
        (if linked then []
         else ("deleteProgram", [p])
              :: map (fun s => ("deleteShader", [s]))
                     (answers c "createShader" (trace st) evs)).
Proof.
  intros Hcomp S shaders st.
  assert (H1 : has_method c "createProgram" = true) by has_program_method.
  assert (H2 : has_method c "linkProgram" = true) by has_program_method.
  assert (H3 : has_method c "getProgramParameter" = true) by has_program_method.
  assert (H4 : has_method c "getProgramInfoLog" = true) by has_program_method.
  assert (H5 : has_method c "deleteProgram" = true) by has_program_method.
  destruct (compile_stages_compiled Hcomp S shaders 0 [] st)
    as (evs1 & E & L & K & Src & Q).
  set (rs := answers c "createShader" (trace st) evs1) in *.
  change ([] ++ rs) with rs in E.
  set (p := ctx_answer c (trace st ++ evs1) "createProgram" []).
  set (attach := map (fun s => GL (ctx_id c) "attachShader" [p; s]) rs).
  set (link := [GL (ctx_id c) "linkProgram" [p];
                GL (ctx_id c) "getProgramParameter" [p; LINK_STATUS]]).
  assert (Run :
    exists (linked : bool) (lastError : JsValue),
      (forall b, link_status_is b c -> linked = b) /\
      createProgram (Some c) shaders st =
      (Ok (if linked then p else VNull),
       mkStore (self st)
         (trace st ++ evs1 ++
          GL (ctx_id c) "createProgram" [] :: attach ++ link
          ++ (if linked then []
              else [GL (ctx_id c) "getProgramInfoLog" [p];
                    Console LError
                      [VString "Error in program linking: "; lastError];
                    GL (ctx_id c) "deleteProgram" [p]]
                   ++ map (fun s => GL (ctx_id c) "deleteShader" [s]) rs))
         (document st))).
  { unfold createProgram. unfold bind at 1. rewrite E. cbv beta iota.
    unfold bind at 1, invoke at 1. rewrite H1. cbn [self trace document].
    fold p. unfold bind at 1. rewrite attach_all_eval.
    cbn [self trace document]. fold attach.
    unfold bind at 1, invoke at 1. rewrite H2. cbn [self trace document].
    unfold bind at 1, invoke at 1. rewrite H3. cbn [self trace document].
    match goal with
    | |- context [truthy ?x] => destruct (truthy x) eqn:Hst
    end; simpl (negb _); cbv beta iota.
    - exists true, VUndefined. split.
      + intros b Hb. rewrite Hb in Hst. congruence.
      + unfold ret. rewrite <- !app_assoc. reflexivity.
    - unfold bind at 1, invoke at 1. rewrite H4. cbn [self trace document].
      unfold bind at 1, console_error, emit. cbn [self trace document].
      unfold bind at 1, invoke at 1. rewrite H5. cbn [self trace document].
      unfold bind at 1. rewrite deleteShaders_eval. cbn [self trace document].
      unfold ret. eexists false, _. split.
      + intros b Hb. rewrite Hb in Hst. congruence.
      + rewrite <- !app_assoc. reflexivity. }
  destruct Run as (linked & lastError & Hlinked & Run).
  set (undo :=
         [GL (ctx_id c) "getProgramInfoLog" [p];
          Console LError [VString "Error in program linking: "; lastError];
          GL (ctx_id c) "deleteProgram" [p]]
         ++ map (fun s => GL (ctx_id c) "deleteShader" [s]) rs) in *.
  set (tail := GL (ctx_id c) "createProgram" [] :: attach ++ link
               ++ (if linked then [] else undo)) in *.
  assert (Qobs : Forall (fun e => link_step e = [] /\ release e = [] /\
                   calls_of "attachShader" e = [] /\
                   calls_of "createProgram" e = []) evs1).
  { eapply Forall_impl; [|exact Q]. exact compile_event_quiet. }
  assert (Tail_cs : forall m, m = "createShader" \/ m = "shaderSource" ->
            Forall (fun e => calls_of m e = []) tail).
  { intros m [-> | ->]; unfold tail, link, undo, attach; quiet_events linked. }
  assert (Created : answers c "createShader" (trace st) (evs1 ++ tail) = rs).
  { rewrite answers_app, (answers_quiet _ tail); [apply app_nil_r|].
    apply Tail_cs. auto. }
  exists (evs1 ++ tail), p, linked.
  rewrite Created.
  split; [exact Run|].
  split; [exact Hlinked|].
  split.
  { rewrite answers_app, (answers_quiet _ evs1).
    - unfold tail. simpl. rewrite Nat.eqb_refl. simpl. fold p.
      rewrite answers_quiet; [reflexivity|].
      unfold link, undo, attach. quiet_events linked.
    - eapply Forall_impl; [|exact Qobs]. intros e H. apply H. }
  split; [exact L|].
  split.
  { unfold calls. rewrite flat_map_app.
    fold (calls "createShader" evs1). rewrite K.
    rewrite (flat_map_quiet _ _ _ tail); [apply app_nil_r|].
    apply Tail_cs. auto. }
  split.
  { unfold calls. rewrite flat_map_app.
    fold (calls "shaderSource" evs1). rewrite Src.
    rewrite (flat_map_quiet _ _ _ tail); [apply app_nil_r|].
    apply Tail_cs. auto. }
  split.
  { rewrite flat_map_app, (flat_map_quiet _ _ _ evs1);
      [|eapply Forall_impl; [|exact Qobs]; intros e H; apply H].
    unfold tail. simpl. f_equal. rewrite !flat_map_app.
    unfold attach.
    rewrite (flat_map_map_one _ _ _ _ _ (fun s => ("attachShader", [p; s])))
      by reflexivity.
    f_equal. unfold link. simpl.
    destruct linked; [reflexivity|].
    unfold undo. simpl.
    rewrite flat_map_map_none by reflexivity. reflexivity. }
  { rewrite flat_map_app, (flat_map_quiet _ _ _ evs1);
      [|eapply Forall_impl; [|exact Qobs]; intros e H; apply H].
    unfold tail. simpl. rewrite !flat_map_app.
    unfold attach. rewrite flat_map_map_none by reflexivity.
    unfold link. simpl.
    destruct linked; [reflexivity|].
    unfold undo. simpl. f_equal.
    apply flat_map_map_one. reflexivity. }
Qed.


(** X14: for at most two stages (the two kinds [defaultShaderType]
    knows), on a context that reports every stage compiled,
    [createProgram] returns normally (the program, or null), having
    created one program and, before linking it, attached to it the shaders
    the context created for the source strings: one per string, each once,
    in order. *)
Theorem createProgram_attaches_sources :
  forall (S : Type) (st : Store S) (shaders : list JsValue),
    List.length shaders <= 2 ->
    compile_status_is true c ->
    let r := createProgram (Some c) shaders st in
    let evs := emitted st (snd r) in
    let created := answers c "createShader" (trace st) evs in
    exists p,
      answers c "createProgram" (trace st) evs = [p] /\
      (fst r = Ok p \/ fst r = Ok VNull) /\
      List.length created = count_sources shaders /\
      flat_map link_step evs =
        ("createProgram", [])
        :: map (fun s => ("attachShader", [p; s])) created
        ++ [("linkProgram", [p])].
Proof.
  intros S st shaders _ Hcomp r evs created. unfold created, evs, r.
  destruct (createProgram_compiled Hcomp S shaders st)
    as (evs' & p & linked & E & _ & P & L & _ & _ & A & _).
  rewrite E. simpl fst. simpl snd.
  rewrite (emitted_app _ st (mkStore (self st) (trace st ++ evs') (document st))
             evs' eq_refl).
  exists p. split; [exact P|]. split; [|split; [exact L | exact A]].
  destruct linked; auto.
Qed.

(** X15: the kind a source string is compiled as is decided by its
    position among all the stages, compiled ones included: position 0 is
    VERTEX_SHADER, position 1 FRAGMENT_SHADER, and from position 2 on the
    kind handed to createShader is undefined. *)
Theorem createProgram_stage_kinds :
  forall (S : Type) (st : Store S) (shaders : list JsValue),
    calls "createShader"
      (emitted st (snd (createProgram (Some c) shaders st)))
    = stage_kinds 0 shaders.
Proof.
  intros S st shaders.
  assert (R := createProgram_runs S _ (calls_of "createShader")
                 (fun ty => [[ty]]) [] [] [] None).
  destruct (runs_at _ _ _ _ _ _ _ st (R
              ltac:(intros; apply loadShader_runs_same; intros; split; reflexivity)
              ltac:(reflexivity) ltac:(reflexivity) ltac:(reflexivity)
              ltac:(intros m args [<-|[<-|[<-|[<-|[]]]]]; reflexivity)
              ltac:(reflexivity) (conj eq_refl eq_refl) shaders))
    as (v & st' & E & _ & _ & F).
  rewrite E. simpl. unfold calls. rewrite F.
  rewrite stage_kinds_singletons, concat_repeat_nil, !app_nil_r. reflexivity.
Qed.

(** X16: for at most two stages, when every stage compiles, a link
    reported as failed makes [createProgram] return null after deleting the
    program it created and then the shaders the context created for the
    source strings, each once, in the order of their creation; a link
    reported as successful returns the program and releases nothing. *)
Theorem createProgram_releases :
  forall (S : Type) (st : Store S) (shaders : list JsValue) (linked : bool),
    List.length shaders <= 2 ->
    compile_status_is true c ->
    link_status_is linked c ->
    let r := createProgram (Some c) shaders st in
    let evs := emitted st (snd r) in
    let created := answers c "createShader" (trace st) evs in
    exists p,
      answers c "createProgram" (trace st) evs = [p] /\
      fst r = Ok (if linked then p else VNull) /\
      flat_map release evs =
      (if linked then []
       else ("deleteProgram", [p])
            :: map (fun s => ("deleteShader", [s])) created).
Proof.
  intros S st shaders linked _ Hcomp Hlink r evs created.
  unfold created, evs, r.
  destruct (createProgram_compiled Hcomp S shaders st)
    as (evs' & p & linked' & E & Hl & P & _ & _ & _ & _ & R).
  rewrite (Hl _ Hlink) in *.
  rewrite E. simpl fst. simpl snd.
  rewrite (emitted_app _ st (mkStore (self st) (trace st ++ evs') (document st))
             evs' eq_refl).
  exists p. auto.
Qed.

End ShaderFacts.

Lemma loadShader_failure_releases_witness :
  let r := ShaderHelper.loadShader (Some (webgl2_with false true)) "void main() {"
             (VEnum "VERTEX_SHADER") (Some "VERTEX_SHADER") (store tt) in
  fst r = Ok VNull /\
  calls "deleteShader" (emitted (store tt) (snd r)) = [[VHandle 0]] /\
  List.length (filter is_console (emitted (store tt) (snd r))) = 1 /\
  calls "createShader" (emitted (store tt) (snd r)) = [[VEnum "VERTEX_SHADER"]].
Proof.
  exact (loadShader_failure_releases (webgl2_with false true) eq_refl
           unit (store tt) "void main() {" (VEnum "VERTEX_SHADER")
           (Some "VERTEX_SHADER")).
Defined.

Lemma createProgram_attaches_sources_witness :
  let r := ShaderHelper.createProgram (Some (webgl2 0 4))
             [VString "void main() {}"; VString "x"] (store tt) in
  fst r = Ok (VHandle 8) /\
  flat_map link_step (emitted (store tt) (snd r)) =
  [("createProgram", []);
   ("attachShader", [VHandle 8; VHandle 0]);
   ("attachShader", [VHandle 8; VHandle 4]);
   ("linkProgram", [VHandle 8])].
Proof.
  destruct (createProgram_attaches_sources (webgl2 0 4) eq_refl
              unit (store tt) [VString "void main() {}"; VString "x"]
              (le_n 2) (fun _ _ => eq_refl))
    as (p & Hp & _ & _ & Hs).
  vm_compute in Hp. injection Hp as <-.
  split; [reflexivity | exact Hs].
Defined.

Lemma createProgram_stage_kinds_witness :
  calls "createShader"
    (emitted (store tt)
       (snd (ShaderHelper.createProgram (Some (webgl2 0 4))
               [VHandle 11; VString "a"; VString "b"] (store tt))))
  = [[VEnum "FRAGMENT_SHADER"]; [VUndefined]].
Proof.
  exact (createProgram_stage_kinds (webgl2 0 4) eq_refl unit (store tt)
           [VHandle 11; VString "a"; VString "b"]).
Defined.

Lemma createProgram_releases_witness :
  let r := ShaderHelper.createProgram (Some (webgl2_with true false))
             [VString "a"; VString "b"] (store tt) in
  fst r = Ok VNull /\
  flat_map release (emitted (store tt) (snd r))
  = [("deleteProgram", [VHandle 8]);
     ("deleteShader", [VHandle 0]);
     ("deleteShader", [VHandle 4])].
Proof.
  destruct (createProgram_releases (webgl2_with true false) eq_refl
              unit (store tt) [VString "a"; VString "b"] false
              (le_n 2) (fun _ _ => eq_refl) (fun _ _ => eq_refl))
    as (p & Hp & Hr & Hs).
  vm_compute in Hp. injection Hp as <-.
  split; [exact Hr | exact Hs].
Defined.

(** ** The other shapes of a uniform value *)

Section ProgramFacts.

Import WebGLProgram.

Variable c : Context.
Variable st : Store t.
Variable name : string.

Hypothesis bound : gl (self st) = Some c.
Hypothesis has_lookup : has_method c "getUniformLocation" = true.

(** X17: when the context knows no uniform of that name, [setUniform]
    writes a warning and returns; apart from the lookup nothing is called
    on the context, whatever the value. *)
Theorem setUniform_not_found :
  forall (value : JsValue),
    location_of c st name = VNull ->
    setUniform name value st =
    (Ok tt,
     mkStore (self st)
       (trace st ++
        [lookup_event c st name;
         Console LWarn
           [VString "Uniform '"; VString name;
            VString "' not found in WebGLProgram! It might be unused and optimized out."]])
       (document st)).
Proof.
  intros value H. unfold setUniform.
  unfold bind at 1, get_this. cbv beta iota.
  unfold bind at 1. unfold invoke at 1. rewrite bound, has_lookup.
  cbv beta iota. fold (location_of c st name). rewrite H.
  unfold console_warn, emit. simpl. rewrite <- app_assoc. reflexivity.
Qed.

Hypothesis has_query : has_method c "getUniform" = true.
Hypothesis found : location_of c st name <> VNull.
Hypothesis has_value : nullish (current_value c st name) = false.

Lemma setUniform_dispatch :
  forall value,
    setUniform name value st =
    dispatch (self st) (location_of c st name)
      (length_of (current_value c st name)) value (queried c st name).
Proof.
  intros value.
  rewrite (setUniform_found c st name bound has_lookup has_query found).
  unfold bind at 1. rewrite get_length_ok by exact has_value. reflexivity.
Qed.

Lemma invoke_queried :
  forall m args,
    has_method c m = true ->
    (invoke (gl (self st)) m args ;; ret tt) (queried c st name)
    = (Ok tt, after_call c st name m args).
Proof.
  intros m args H. unfold bind, invoke, ret. rewrite bound, H.
  unfold after_call, queried. simpl. rewrite <- app_assoc. reflexivity.
Qed.

(** X18: a number is set with [uniform1f] as it is, a boolean with
    [uniform1f] as 1 or 0. *)
Theorem setUniform_scalar :
  has_method c "uniform1f" = true ->
  (forall n : JsNum,
      setUniform name (VNumber n) st =
      (Ok tt, after_call c st name "uniform1f" [location_of c st name; VNumber n])) /\
  (forall b : bool,
      setUniform name (VBoolean b) st =
      (Ok tt,
       after_call c st name "uniform1f"
         [location_of c st name; VNat (if b then 1 else 0)])).
Proof.
  intros H. split; intros x; rewrite setUniform_dispatch;
    unfold dispatch; apply invoke_queried; exact H.
Qed.

(** X19: an object that is not a colour is set with [uniformMatrix4fv]
    when it is marked [isMatrix4], else with [uniformMatrix3fv] when it is
    marked [isMatrix3]: the location, [false] for the transposition, and
    its [elements]. *)
Theorem setUniform_matrix :
  forall (ctor : string) (props : list (string * JsValue)),
    has_method c "uniformMatrix4fv" = true ->
    has_method c "uniformMatrix3fv" = true ->
    truthy (assoc "isColor" props) = false ->
    (truthy (assoc "isMatrix4" props) = true ->
     setUniform name (VObject ctor props) st =
     (Ok tt,
      after_call c st name "uniformMatrix4fv"
        [location_of c st name; VBoolean false; assoc "elements" props])) /\
    (truthy (assoc "isMatrix4" props) = false ->
     truthy (assoc "isMatrix3" props) = true ->
     setUniform name (VObject ctor props) st =
     (Ok tt,
      after_call c st name "uniformMatrix3fv"
        [location_of c st name; VBoolean false; assoc "elements" props])).
Proof.
  intros ctor props H4 H3 Hc. split.
  - intros M4. rewrite setUniform_dispatch.
    unfold dispatch, get_prop. unfold bind at 1, ret. rewrite Hc.
    unfold bind at 1. rewrite M4. unfold bind at 1.
    apply invoke_queried. exact H4.
  - intros M4 M3. rewrite setUniform_dispatch.
    unfold dispatch, get_prop. unfold bind at 1, ret. rewrite Hc.
    unfold bind at 1. rewrite M4. unfold bind at 1. rewrite M3.
    unfold bind at 1. apply invoke_queried. exact H3.
Qed.

(** X20: an object that is neither a colour nor a matrix is set with
    [uniform3f] from [x], [y], [z] when it is marked [isVector3], else with
    [uniform4f] from [x], [y], [z], [w] when it is marked [isVector4]. *)
Theorem setUniform_vector :
  forall (ctor : string) (props : list (string * JsValue)),
    has_method c "uniform3f" = true ->
    has_method c "uniform4f" = true ->
    truthy (assoc "isColor" props) = false ->
    truthy (assoc "isMatrix4" props) = false ->
    truthy (assoc "isMatrix3" props) = false ->
    (truthy (assoc "isVector3" props) = true ->
     setUniform name (VObject ctor props) st =
     (Ok tt,
      after_call c st name "uniform3f"
        [location_of c st name; assoc "x" props; assoc "y" props;
         assoc "z" props])) /\
    (truthy (assoc "isVector3" props) = false ->
     truthy (assoc "isVector4" props) = true ->
     setUniform name (VObject ctor props) st =
     (Ok tt,
      after_call c st name "uniform4f"
        [location_of c st name; assoc "x" props; assoc "y" props;
         assoc "z" props; assoc "w" props])).
Proof.
  intros ctor props H3 H4 Hc M4 M3. split.
  - intros V3. rewrite setUniform_dispatch.
    unfold dispatch, get_prop. unfold bind at 1, ret. rewrite Hc.
    unfold bind at 1. rewrite M4. unfold bind at 1. rewrite M3.
    unfold bind at 1. rewrite V3. unfold bind at 1 2 3.
    apply invoke_queried. exact H3.
  - intros V3 V4. rewrite setUniform_dispatch.
    unfold dispatch, get_prop. unfold bind at 1, ret. rewrite Hc.
    unfold bind at 1. rewrite M4. unfold bind at 1. rewrite M3.
    unfold bind at 1. rewrite V3. unfold bind at 1. rewrite V4.
    unfold bind at 1 2 3 4.
    apply invoke_queried. exact H4.
Qed.

(** X21: an object with none of the five markers is not set: a warning
    names its constructor and [setUniform] returns.  A null or undefined
    value is not guarded against: reading its marker raises a type
    error. *)
Theorem setUniform_unsupported :
  (forall (ctor : string) (props : list (string * JsValue)),
      truthy (assoc "isColor" props) = false ->
      truthy (assoc "isMatrix4" props) = false ->
      truthy (assoc "isMatrix3" props) = false ->
      truthy (assoc "isVector3" props) = false ->
      truthy (assoc "isVector4" props) = false ->
      setUniform name (VObject ctor props) st =
      (Ok tt,
       mkStore (self st)
         (trace st ++
          [lookup_event c st name; query_event c st name;
           Console LWarn
             [VString "Value of type '"; VString ctor;
              VString "' not supported by WebGLProgram.setUniform!"]])
         (document st))) /\
  (forall value,
      nullish value = true ->
      exists message,
        setUniform name value st =
        (Throw (TypeError message), queried c st name)).
Proof.
  split.
  - intros ctor props Hc M4 M3 V3 V4. rewrite setUniform_dispatch.
    unfold dispatch, get_prop, bind, ret. rewrite Hc, M4, M3, V3, V4.
    unfold console_warn, emit, queried. simpl. rewrite <- app_assoc.
    reflexivity.
  - intros value H. rewrite setUniform_dispatch.
    destruct value; try discriminate; eexists; reflexivity.
Qed.

(** X22: a colour handed to a uniform whose current value has no length
    (a float, an int, a boolean) raises a type error on a context with the
    methods of WebGL2RenderingContext: the name computed is
    "uniformundefinedf", which is no method of the context.  Only the two
    queries have reached the context by then. *)
Theorem setUniform_color_on_scalar :
  forall (ctor : string) (props : list (string * JsValue)),
    ctx_methods c = webgl2_methods ->
    length_of (current_value c st name) = None ->
    truthy (assoc "isColor" props) = true ->
    ("uniform" ++ template_of_length (length_of (current_value c st name))
       ++ "f")%string = "uniformundefinedf" /\
    has_method c "uniformundefinedf" = false /\
    exists message,
      setUniform name (VObject ctor props) st =
      (Throw (TypeError message), queried c st name).
Proof.
  intros ctor props Hm Hlen Hc.
  assert (Hno : has_method c "uniformundefinedf" = false)
    by (unfold has_method; rewrite Hm; reflexivity).
  split; [rewrite Hlen; reflexivity|]. split; [exact Hno|].
  rewrite setUniform_dispatch, Hlen.
  unfold dispatch, get_prop, bind, ret. rewrite Hc, bound.
  unfold invoke, has_method. rewrite Hm. eexists. reflexivity.
Qed.

End ProgramFacts.

Lemma setUniform_not_found_witness :
  WebGLProgram.setUniform "missing" VNull (store (example_program 4)) =
  (Ok tt,
   mkStore (example_program 4)
     [GL 0 "getUniformLocation" [VHandle 8; VString "missing"];
      Console LWarn
        [VString "Uniform '"; VString "missing";
         VString "' not found in WebGLProgram! It might be unused and optimized out."]]
     no_document).
Proof.
  exact (setUniform_not_found (webgl2 0 4) (store (example_program 4))
           "missing" eq_refl eq_refl VNull eq_refl).
Defined.

Lemma setUniform_scalar_witness :
  WebGLProgram.setUniform "useUniformColor" (VBoolean true)
    (store (example_program 4)) =
  (Ok tt,
   mkStore (example_program 4)
     [GL 0 "getUniformLocation" [VHandle 8; VString "useUniformColor"];
      GL 0 "getUniform" [VHandle 8; VHandle 1001];
      GL 0 "uniform1f" [VHandle 1001; VNat 1]]
     no_document).
Proof.
  exact (proj2 (setUniform_scalar (webgl2 0 4) (store (example_program 4))
                  "useUniformColor" eq_refl eq_refl eq_refl
                  ltac:(discriminate) eq_refl eq_refl) true).
Defined.

Lemma setUniform_matrix_witness :
  WebGLProgram.setUniform "modelMatrix" identity4 (store (example_program 4)) =
  (Ok tt,
   mkStore (example_program 4)
     [GL 0 "getUniformLocation" [VHandle 8; VString "modelMatrix"];
      GL 0 "getUniform" [VHandle 8; VHandle 1002];
      GL 0 "uniformMatrix4fv"
         [VHandle 1002; VBoolean false;
          VArray (map VNat [1; 0; 0; 0; 0; 1; 0; 0; 0; 0; 1; 0; 0; 0; 0; 1])]]
     no_document).
Proof.
  exact (proj1 (setUniform_matrix (webgl2 0 4) (store (example_program 4))
                  "modelMatrix" eq_refl eq_refl eq_refl
                  ltac:(discriminate) eq_refl "Matrix4"
                  [("isMatrix4", VBoolean true);
                   ("elements",
                    VArray (map VNat [1; 0; 0; 0; 0; 1; 0; 0; 0; 0; 1; 0;
                                      0; 0; 0; 1]))]
                  eq_refl eq_refl eq_refl) eq_refl).
Defined.

Lemma setUniform_vector_witness :
  WebGLProgram.setUniform "color"
    (VObject "Vector4"
       [("isVector4", VBoolean true); ("x", VNat 1); ("y", VNat 0);
        ("z", VNat 0); ("w", VNat 1)])
    (store (example_program 4)) =
  (Ok tt,
   mkStore (example_program 4)
     [GL 0 "getUniformLocation" [VHandle 8; VString "color"];
      GL 0 "getUniform" [VHandle 8; VHandle 1000];
      GL 0 "uniform4f" [VHandle 1000; VNat 1; VNat 0; VNat 0; VNat 1]]
     no_document).
Proof.
  exact (proj2 (setUniform_vector (webgl2 0 4) (store (example_program 4))
                  "color" eq_refl eq_refl eq_refl
                  ltac:(discriminate) eq_refl "Vector4"
                  [("isVector4", VBoolean true); ("x", VNat 1); ("y", VNat 0);
                   ("z", VNat 0); ("w", VNat 1)]
                  eq_refl eq_refl eq_refl eq_refl eq_refl) eq_refl eq_refl).
Defined.

Lemma setUniform_unsupported_witness :
  WebGLProgram.setUniform "color" (VObject "Date" [])
    (store (example_program 4)) =
  (Ok tt,
   mkStore (example_program 4)
     [GL 0 "getUniformLocation" [VHandle 8; VString "color"];
      GL 0 "getUniform" [VHandle 8; VHandle 1000];
      Console LWarn
        [VString "Value of type '"; VString "Date";
         VString "' not supported by WebGLProgram.setUniform!"]]
     no_document) /\
  (exists message,
      WebGLProgram.setUniform "color" VNull (store (example_program 4)) =
      (Throw (TypeError message),
       queried (webgl2 0 4) (store (example_program 4)) "color")).
Proof.
  split.
  - exact (proj1 (setUniform_unsupported (webgl2 0 4)
                    (store (example_program 4)) "color" eq_refl eq_refl
                    eq_refl ltac:(discriminate) eq_refl)
             "Date" [] eq_refl eq_refl eq_refl eq_refl eq_refl).
  - exact (proj2 (setUniform_unsupported (webgl2 0 4)
                    (store (example_program 4)) "color" eq_refl eq_refl
                    eq_refl ltac:(discriminate) eq_refl)
             VNull eq_refl).
Defined.

Lemma setUniform_color_on_scalar_witness :
  has_method (webgl2 0 4) "uniformundefinedf" = false /\
  exists message,
    WebGLProgram.setUniform "useUniformColor" red (store (example_program 4)) =
    (Throw (TypeError message),
     queried (webgl2 0 4) (store (example_program 4)) "useUniformColor").
Proof.
  exact (proj2
           (setUniform_color_on_scalar (webgl2 0 4) (store (example_program 4))
              "useUniformColor" eq_refl eq_refl eq_refl ltac:(discriminate)
              eq_refl "Color"
              [("isColor", VBoolean true); ("r", VNat 1); ("g", VNat 0);
               ("b", VNat 0)]
              eq_refl eq_refl eq_refl)).
Defined.

(** ** Building the program *)

(** The two template literals, character for character: 221 and 410
    characters, line ends included. *)
Lemma builtin_sources_length :
  String.length WebGLProgram.vs = 221 /\ String.length WebGLProgram.fs = 410.
Proof. split; reflexivity. Qed.

Section ConstructorFacts.

Variable c : Context.
Hypothesis valid : has_method c "getParameter" = true.
Hypothesis capable : supports c program_methods = true.

Lemma new_valid :
  forall S (st : Store S),
    WebGLProgram.new (Some c) st =
    (program <- ShaderHelper.createProgram (Some c)
                  [VString WebGLProgram.vs; VString WebGLProgram.fs] ;;
     ret (WebGLProgram.mkProgram (Some c) WebGLProgram.vs WebGLProgram.fs
            program)) st.
Proof. intros S st. unfold WebGLProgram.new. rewrite valid. reflexivity. Qed.

(** X23: the constructor does not check the result of the link: when the
    two stages compile and the context reports the link as failed, the
    object is built all the same, with null for its program, and [use]
    then hands that null to [useProgram]. *)
Theorem new_keeps_failed_link :
  forall (S : Type) (st : Store S),
    compile_status_is true c ->
    link_status_is false c ->
    has_method c "useProgram" = true ->
    let p := WebGLProgram.mkProgram (Some c) WebGLProgram.vs WebGLProgram.fs
               VNull in
    fst (WebGLProgram.new (Some c) st) = Ok p /\
    run WebGLProgram.use p =
    (Ok tt, mkStore p [GL (ctx_id c) "useProgram" [VNull]] no_document).
Proof.
  intros S st Hcomp Hlink Huse p. split.
  - rewrite new_valid. unfold bind.
    destruct (createProgram_compiled c capable Hcomp S
                [VString WebGLProgram.vs; VString WebGLProgram.fs] st)
      as (evs & q & linked & E & Hl & _).
    rewrite (Hl _ Hlink) in E. rewrite E. reflexivity.
  - unfold run, WebGLProgram.use, bind, get_this, invoke, ret.
    cbn [self trace document store WebGLProgram.gl WebGLProgram.program p].
    rewrite Huse. reflexivity.
Qed.

(** X24: when the two stages compile (and no element of the page has one
    of the two sources as its id), the constructor creates a
    VERTEX_SHADER and gives it the built-in vertex source, then a
    FRAGMENT_SHADER and gives it the built-in fragment source, creates a
    program, attaches the two shaders to it in that order and links it;
    the object it returns holds the context, the two sources and the
    program, or null if the link is reported as failed. *)
Theorem new_compiles_pair :
  forall (S : Type) (st : Store S) (linked : bool),
    compile_status_is true c ->
    link_status_is linked c ->
    document st WebGLProgram.vs = None ->
    document st WebGLProgram.fs = None ->
    let r := WebGLProgram.new (Some c) st in
    let evs := emitted st (snd r) in
    exists v f p,
      answers c "createShader" (trace st) evs = [v; f] /\
      answers c "createProgram" (trace st) evs = [p] /\
      calls "createShader" evs
        = [[VEnum "VERTEX_SHADER"]; [VEnum "FRAGMENT_SHADER"]] /\
      calls "shaderSource" evs
        = [[v; VString WebGLProgram.vs]; [f; VString WebGLProgram.fs]] /\
      flat_map link_step evs
        = [("createProgram", []); ("attachShader", [p; v]);
           ("attachShader", [p; f]); ("linkProgram", [p])] /\
      fst r = Ok (WebGLProgram.mkProgram (Some c) WebGLProgram.vs
                    WebGLProgram.fs (if linked then p else VNull)).
Proof.
  intros S st linked Hcomp Hlink Hvs Hfs r evs. unfold evs, r.
  rewrite new_valid. unfold bind.
  destruct (createProgram_compiled c capable Hcomp S
              [VString WebGLProgram.vs; VString WebGLProgram.fs] st)
    as (evs' & p & linked' & E & Hl & P & L & K & Src & A & _).
  rewrite (Hl _ Hlink) in E. rewrite E. unfold ret. cbn [fst snd].
  rewrite (emitted_app _ st (mkStore (self st) (trace st ++ evs') (document st))
             evs' eq_refl).
  cbn [count_sources] in L.
  destruct (answers c "createShader" (trace st) evs') as [|v [|f [|x l]]];
    try discriminate L.
  exists v, f, p. split; [reflexivity|]. split; [exact P|].
  split; [exact K|]. split; [|split; [exact A | reflexivity]].
  rewrite Src. unfold stage_sources. cbn [flat_map app].
  rewrite Hvs, Hfs. reflexivity.
Qed.

End ConstructorFacts.

Lemma new_keeps_failed_link_witness :
  let p := WebGLProgram.mkProgram (Some (webgl2_with true false))
             WebGLProgram.vs WebGLProgram.fs VNull in
  fst (WebGLProgram.new (Some (webgl2_with true false)) (store tt)) = Ok p /\
  run WebGLProgram.use p =
  (Ok tt, mkStore p [GL 0 "useProgram" [VNull]] no_document).
Proof.
  exact (new_keeps_failed_link (webgl2_with true false) eq_refl eq_refl
           unit (store tt) (fun _ _ => eq_refl) (fun _ _ => eq_refl) eq_refl).
Defined.

Lemma new_compiles_pair_witness :
  let r := WebGLProgram.new (Some (webgl2 0 4)) (store tt) in
  let evs := emitted (store tt) (snd r) in
  calls "shaderSource" evs
    = [[VHandle 0; VString WebGLProgram.vs];
       [VHandle 4; VString WebGLProgram.fs]] /\
  flat_map link_step evs
    = [("createProgram", []); ("attachShader", [VHandle 8; VHandle 0]);
       ("attachShader", [VHandle 8; VHandle 4]); ("linkProgram", [VHandle 8])] /\
  fst r = Ok (WebGLProgram.mkProgram (Some (webgl2 0 4)) WebGLProgram.vs
                WebGLProgram.fs (VHandle 8)).
Proof.
  destruct (new_compiles_pair (webgl2 0 4) eq_refl eq_refl unit (store tt) true
              (fun _ _ => eq_refl) (fun _ _ => eq_refl) eq_refl eq_refl)
    as (v & f & p & Hc & Hp & _ & Hs & Ha & Hr).
  vm_compute in Hc. injection Hc as <- <-.
  vm_compute in Hp. injection Hp as <-.
  split; [exact Hs|]. split; [exact Ha | exact Hr].
Defined.

(** ** Validation comes after the upload *)

Section LateValidation.

Import BufferGeometry.

Lemma calls_quiet :
  forall m evs,
    Forall (fun e => calls_of m e = []) evs -> calls m evs = [].
Proof.
  intros m evs H. unfold calls. induction H as [|e evs He _ IH]; simpl.
  - reflexivity.
  - rewrite He, IH. reflexivity.
Qed.

Lemma init_upload_calls :
  forall c, supports c upload_methods = true ->
  forall todo done cnt (st : Store t),
    exists a st',
      init_upload (Some c) done todo cnt st = (Ok a, st') /\
      trace st' = trace st ++ upload_calls c (trace st) todo.
Proof.
  intros c Hc todo.
  induction todo as [|[key a] rest IH]; intros done cnt st.
  - exists cnt, st. simpl. rewrite app_nil_r. split; reflexivity.
  - simpl init_upload. unfold bind at 1. rewrite createBuffer_ok by exact Hc.
    unfold bind at 1. unfold modify. cbv beta iota.
    match goal with
    | |- context [init_upload _ ?d rest ?n ?s] =>
        destruct (IH d n s) as (r & st' & E & T)
    end.
    exists r, st'. split; [exact E|].
    rewrite T. simpl. rewrite <- app_assoc. reflexivity.
Qed.

Lemma upload_calls_are_calls :
  forall c l tr, filter is_call (upload_calls c tr l) = upload_calls c tr l.
Proof.
  intros c l. induction l as [|[k a] rest IH]; intros tr; simpl.
  - reflexivity.
  - rewrite IH. reflexivity.
Qed.

(** X25: the counts are compared only after every attribute has been
    given a buffer and uploaded: when [init] rejects a geometry because two
    attributes (arrays shorter than 2^32, item sizes below 2^16) differ in
    count, the calls it has made on the context are, for each attribute in
    the order of the table, [createBuffer], [bindBuffer] of the buffer just
    created and [bufferData] of the attribute's array, and nothing else:
    the index has not been uploaded. *)
Theorem rejected_geometry_is_uploaded :
  forall (c : Context) (st : Store t) k1 a1 k2 a2,
    isInitialized (self st) = false ->
    supports c ("getParameter" :: upload_methods) = true ->
    In (k1, a1) (attributes (self st)) ->
    In (k2, a2) (attributes (self st)) ->
    in_range a1 = true ->
    in_range a2 = true ->
    num_strict_eq (element_count a1) (element_count a2) = false ->
    let evs := emitted st (snd (init (Some c) st)) in
    fst (init (Some c) st) = Throw inconsistent /\
    filter is_call evs = upload_calls c (trace st) (attributes (self st)) /\
    calls "bufferData" evs = map attribute_upload (attributes (self st)) /\
    List.length (calls "createBuffer" evs)
      = List.length (attributes (self st)).
Proof.
  intros c st k1 a1 k2 a2 Hflag Hsup In1 In2 _ _ Hne.
  assert (Hgp : has_method c "getParameter" = true)
    by (apply (supports_in _ _ _ Hsup); simpl; tauto).
  assert (Hup : supports c upload_methods = true)
    by (simpl in Hsup; apply andb_true_iff in Hsup; apply Hsup).
  assert (Hrun :
    exists st2 evs evs2,
      init (Some c) st = (Throw inconsistent, st2) /\
      emitted st st2 = evs ++ evs2 /\
      evs = upload_calls c (trace st) (attributes (self st)) /\
      calls "bufferData" evs = map attribute_upload (attributes (self st)) /\
      List.length (calls "createBuffer" evs)
        = List.length (attributes (self st)) /\
      Forall (fun e => is_call e = false
                       /\ calls_of "bufferData" e = []
                       /\ calls_of "createBuffer" e = []) evs2).
  { unfold init. unfold bind at 1, get_this. cbv beta iota.
    simpl self. rewrite Hflag, Hgp. cbv beta iota. simpl (negb _). cbv iota.
    unfold bind at 1. unfold modify at 1. cbv beta iota.
    set (st0 := mkStore (set_gl (Some c) (self st)) (trace st) (document st)).
    destruct (init_upload_ok c Hup (attributes (self st)) [] (of_nat 0) st0)
      as (todo' & st1 & E & F & Hs); [reflexivity|].
    destruct (init_upload_trace c Hup (attributes (self st)) [] (of_nat 0) st0)
      as (r & st1' & evs & E' & T & B & C).
    rewrite E in E'. injection E' as <- <-.
    destruct (init_upload_calls c Hup (attributes (self st)) [] (of_nat 0) st0)
      as (r' & st1' & E' & T').
    rewrite E in E'. injection E' as <- <-.
    assert (Hevs : evs = upload_calls c (trace st) (attributes (self st))).
    { rewrite T in T'. apply app_inv_head in T'. exact T'. }
    unfold bind at 1. rewrite E. cbv beta iota.
    unfold bind at 1, get_this. cbv beta iota.
    assert (Hattr : attributes (self st1) = todo') by (rewrite Hs; reflexivity).
    rewrite Hattr.
    destruct (uploaded_in _ _ _ _ F In1) as (b1 & I1 & C1).
    destruct (uploaded_in _ _ _ _ F In2) as (b2 & I2 & C2).
    set (cnt := last _ _).
    assert (Hex : Exists (fun e => count_differs (count (snd e)) cnt = true) todo').
    { apply Exists_exists.
      destruct (num_strict_eq (element_count a1) cnt) eqn:E1.
      - exists (k2, b2). split; [exact I2|]. simpl. rewrite C2. simpl.
        destruct (num_strict_eq (element_count a2) cnt) eqn:E2; [|reflexivity].
        rewrite (num_strict_eq_trans _ _ _ E1 E2) in Hne. discriminate.
      - exists (k1, b1). split; [exact I1|]. simpl. rewrite C1. simpl.
        rewrite E1. reflexivity. }
    destruct (init_verify_throw todo' cnt st1 Hex) as (st2 & E2 & _).
    destruct (preserves_run _ _ _ _ _ _ _ _
                (init_verify_preserves
                   (fun e => is_call e = false
                             /\ calls_of "bufferData" e = []
                             /\ calls_of "createBuffer" e = [])
                   (fun _ _ => conj eq_refl (conj eq_refl eq_refl)) todo' cnt) E2)
      as (_ & _ & evs2 & T2 & F2).
    unfold bind at 1. rewrite E2.
    exists st2, evs, evs2. split; [reflexivity|].
    destruct (emitted_trans _ st st1 st2 evs evs2 T T2) as (Et & _ & _).
    auto. }
  destruct Hrun as (st2 & evs & evs2 & E & Et & Hevs & B & C & F2).
  rewrite E. simpl. rewrite Et. split; [reflexivity|].
  split; [|].
  - rewrite filter_app, Hevs, upload_calls_are_calls.
    rewrite (filter_none _ is_call evs2); [apply app_nil_r|].
    eapply Forall_impl; [|exact F2]. intros e [H _]. exact H.
  - unfold calls in *. rewrite !flat_map_app, length_app, B, C.
    fold (calls "bufferData" evs2). fold (calls "createBuffer" evs2).
    rewrite !calls_quiet.
    + rewrite app_nil_r, Nat.add_0_r. split; reflexivity.
    + eapply Forall_impl; [|exact F2]. intros e (_ & _ & H). exact H.
    + eapply Forall_impl; [|exact F2]. intros e (_ & H & _). exact H.
Qed.

Lemma rejected_geometry_is_uploaded_witness :
  let evs := emitted (store mismatched)
               (snd (init (Some (webgl2 0 4)) (store mismatched))) in
  fst (init (Some (webgl2 0 4)) (store mismatched)) = Throw inconsistent /\
  filter is_call evs =
    [GL 0 "createBuffer" [];
     GL 0 "bindBuffer" [VEnum "ARRAY_BUFFER"; VHandle 0];
     GL 0 "bufferData"
        [VEnum "ARRAY_BUFFER"; VFloat32Array [0; 0; 0; 1; 0; 0; 0; 1; 0]%Q;
         VEnum "STATIC_DRAW"];
     GL 0 "createBuffer" [];
     GL 0 "bindBuffer" [VEnum "ARRAY_BUFFER"; VHandle 3];
     GL 0 "bufferData"
        [VEnum "ARRAY_BUFFER"; VFloat32Array [1; 0; 0; 1; 0; 1; 0; 1]%Q;
         VEnum "STATIC_DRAW"]] /\
  calls "bufferData" evs =
    [[VEnum "ARRAY_BUFFER"; VFloat32Array [0; 0; 0; 1; 0; 0; 0; 1; 0]%Q;
      VEnum "STATIC_DRAW"];
     [VEnum "ARRAY_BUFFER"; VFloat32Array [1; 0; 0; 1; 0; 1; 0; 1]%Q;
      VEnum "STATIC_DRAW"]] /\
  List.length (calls "createBuffer" evs) = 2.
Proof.
  apply (rejected_geometry_is_uploaded (webgl2 0 4) (store mismatched)
           "position"
           (mkAttribute [0; 0; 0; 1; 0; 0; 0; 1; 0]%Q 3 None VUndefined None)
           "color"
           (mkAttribute [1; 0; 0; 1; 0; 1; 0; 1]%Q 4 None VUndefined None)).
  - reflexivity.
  - reflexivity.
  - simpl. left. reflexivity.
  - simpl. right. left. reflexivity.
  - reflexivity.
  - reflexivity.
  - reflexivity.
Defined.

End LateValidation.

Lemma deleteAttribute_removes_witness :
  fst (BufferGeometry.hasAttribute "color"
         (snd (BufferGeometry.deleteAttribute "color" (store triangle))))
    = Ok false /\
  fst (BufferGeometry.hasAttribute "toString"
         (snd (BufferGeometry.deleteAttribute "toString" (store triangle))))
    = Ok true /\
  fst (BufferGeometry.getAttribute "position"
         (snd (BufferGeometry.deleteAttribute "color" (store triangle))))
    = fst (BufferGeometry.getAttribute "position" (store triangle)) /\
  self (snd (BufferGeometry.deleteAttribute "uv"
               (snd (BufferGeometry.setAttribute "uv"
                       (Some (BufferGeometry.mkAttributeArg
                                (Some [0; 0; 1; 0; 0; 1]%Q) (Some 2) None))
                       (store triangle)))))
    = triangle.
Proof.
  split; [|split; [|split]].
  - exact (proj1 (proj2 (deleteAttribute_removes "color" (store triangle)))).
  - exact (proj1 (proj2 (deleteAttribute_removes "toString" (store triangle)))).
  - apply (proj1 (proj2 (proj2 (proj2
             (deleteAttribute_removes "color" (store triangle)))))).
    discriminate.
  - exact (proj2 (proj2 (proj2 (proj2 (proj2
              (deleteAttribute_removes "uv" (store triangle))))))
             [0; 0; 1; 0; 0; 1]%Q 2 None eq_refl eq_refl).
Defined.
